(** * Studien-Dashboard: domain model, persistence layer and repository

    A shallow embedding of [models.py], [db.py] and [repo.py], and of the
    chart data computed in [app.py].

    Conventions of the embedding.
    - Python [int] is [Z]; [str] is [string]; [Optional[T]] is [option T].
    - Python [float] (and SQLite [REAL]) values are represented by the
      rational number they denote.  [statistics.mean] sums its data exactly
      as fractions, and [round(x, 2)] rounds the exact value of [x] half to
      even; the embedding keeps these exact results and leaves out the final
      conversion of each result to the nearest binary64 value.
    - A raised exception is a value of [exn]; fallible code returns
      [result A].
    - A table of the SQLite file is the list of its rows in rowid order,
      which is the order of a table scan. *)

From Stdlib Require Import ZArith QArith Lia Sorted Permutation DecimalString.
From stdpp Require Import gmap strings list.

Local Open Scope Z_scope.

(* ===================================================================== *)
(** * Python runtime: exceptions, numbers                                 *)
(* ===================================================================== *)

Inductive exn : Type :=
| ZeroDivisionError
| TypeError
| KeyError
| ValueError (msg : string)
| IntegrityError.

Inductive result (A : Type) : Type :=
| Ok (a : A)
| Raise (e : exn).

Arguments Ok {A} a.
Arguments Raise {A} e.

(** Sequencing of fallible statements: the first exception propagates. *)
#[global] Instance result_bind : MBind result := fun A B k r =>
  match r with
  | Ok a => k a
  | Raise e => Raise e
  end.

(** [row["id"]] on the result of [fetchone()]: subscripting [None] raises
    [TypeError]. *)
Definition subscript {A : Type} (row : option A) : result A :=
  match row with
  | Some r => Ok r
  | None => Raise TypeError
  end.

(** [d[k]] on a [dict]: a missing key raises [KeyError]. *)
Definition getitem {A : Type} (d : gmap Z A) (k : Z) : result A :=
  match d !! k with
  | Some v => Ok v
  | None => Raise KeyError
  end.

(** Left-to-right monadic loop over a list, as a [for] statement whose body
    may raise. *)
Fixpoint for_each {A S : Type} (body : S -> A -> result S) (xs : list A) (s : S)
  : result S :=
  match xs with
  | [] => Ok s
  | x :: xs' => s' ← body s x; for_each body xs' s'
  end.

(** The builtin [sum] over integers and over floats. *)
Definition sum_int (xs : list Z) : Z := fold_left Z.add xs 0.
Definition sum_float (xs : list Q) : Q := fold_left Qplus xs (0 # 1)%Q.

(** [a / b] (true division): [ZeroDivisionError] when the divisor is zero. *)
Definition truediv (a b : Q) : result Q :=
  if Qeq_bool b (0 # 1) then Raise ZeroDivisionError else Ok (a / b)%Q.

(** Rounding of a rational to the nearest integer, ties to the even one. *)
Definition round_half_even (x : Q) : Z :=
  let n := Qnum x in
  let d := Z.pos (Qden x) in
  let f := n / d in
  let r := n mod d in
  match (2 * r) ?= d with
  | Lt => f
  | Gt => f + 1
  | Eq => if Z.even f then f else f + 1
  end.

(** [round(x, 2)]. *)
Definition round2 (x : Q) : Q := (round_half_even (x * (100 # 1)) # 100)%Q.

(** [statistics.mean] on a non-empty list (the callers test for emptiness
    first; on empty data the library raises [StatisticsError]). *)
Definition mean (data : list Q) : Q :=
  (sum_float data / inject_Z (Z.of_nat (length data)))%Q.

(* ===================================================================== *)
(** * models.py                                                           *)
(* ===================================================================== *)

Inductive Pruefungsform : Type :=
| KLAUSUR
| HAUSARBEIT
| PORTFOLIO
| MUENDLICH
| PROJEKT.

Module Pruefungsform_.

(** [pruefungsform.name] *)
Definition name (p : Pruefungsform) : string :=
  match p with
  | KLAUSUR => "KLAUSUR"
  | HAUSARBEIT => "HAUSARBEIT"
  | PORTFOLIO => "PORTFOLIO"
  | MUENDLICH => "MUENDLICH"
  | PROJEKT => "PROJEKT"
  end.

(** [Pruefungsform[s]]: lookup of a member by name, [KeyError] otherwise. *)
Definition by_name (s : string) : result Pruefungsform :=
  if String.eqb s "KLAUSUR" then Ok KLAUSUR
  else if String.eqb s "HAUSARBEIT" then Ok HAUSARBEIT
  else if String.eqb s "PORTFOLIO" then Ok PORTFOLIO
  else if String.eqb s "MUENDLICH" then Ok MUENDLICH
  else if String.eqb s "PROJEKT" then Ok PROJEKT
  else Raise KeyError.

End Pruefungsform_.

Module Pruefungsleistung.

Record t : Type := mk {
  bezeichnung : string;
  datum : option string;
  note : option Q;
  versuch_nr : Z
}.

Definition ist_bestanden (self : t) : bool :=
  match note self with
  | Some n => Qle_bool n (4 # 1)
  | None => false
  end.

End Pruefungsleistung.

Module Modul.

Record t : Type := mk {
  name : string;
  kuerzel : string;
  ects : Z;
  pruefungsform : Pruefungsform;
  leistungen : list Pruefungsleistung.t
}.

(** [Modul(name, kuerzel, ects, pruefungsform)] *)
Definition init (name kuerzel : string) (ects : Z) (pf : Pruefungsform) : t :=
  mk name kuerzel ects pf [].

(** [noten = [p.note for p in self._leistungen if p.note is not None]] *)
Definition noten (self : t) : list Q :=
  omap Pruefungsleistung.note (leistungen self).

Definition durchschnitt (self : t) : option Q :=
  match noten self with
  | [] => None
  | _ :: _ => Some (round2 (mean (noten self)))
  end.

Definition ist_bestanden (self : t) : bool :=
  match durchschnitt self with
  | Some d => Qle_bool d (4 # 1)
  | None => false
  end.

Definition status (self : t) : string :=
  match leistungen self with
  | [] => "offen"
  | _ :: _ => if ist_bestanden self then "abgeschlossen" else "laufend"
  end.

Definition add_pruefungsleistung (leistung : Pruefungsleistung.t) (self : t) : t :=
  mk (name self) (kuerzel self) (ects self) (pruefungsform self)
     (leistungen self ++ [leistung]).

End Modul.

Module Semester.

(** A semester holds references to module objects.  [M] is the type of a
    reference: an address into the list of module objects while the graph is
    built, and the module object itself once the graph is read. *)
Record t (M : Type) : Type := mk {
  nummer : Z;
  bezeichnung : string;
  geplante_module : list M;
  bestandene_module : list M
}.

Arguments mk {M} _ _ _ _.
Arguments nummer {M} _.
Arguments bezeichnung {M} _.
Arguments geplante_module {M} _.
Arguments bestandene_module {M} _.

(** [Semester(nummer, bezeichnung)] *)
Definition init {M : Type} (nummer : Z) (bezeichnung : string) : t M :=
  mk nummer bezeichnung [] [].

Definition belege {M : Type} (modul : M) (art : string) (self : t M) : t M :=
  if String.eqb art "geplant"
  then mk (nummer self) (bezeichnung self)
          (geplante_module self ++ [modul]) (bestandene_module self)
  else mk (nummer self) (bezeichnung self)
          (geplante_module self) (bestandene_module self ++ [modul]).

Definition geplante_ects (self : t Modul.t) : Z :=
  sum_int (map Modul.ects (geplante_module self)).

Definition erreichte_ects (self : t Modul.t) : Z :=
  sum_int (map Modul.ects (filter (fun m => Modul.ist_bestanden m = true)
                                  (bestandene_module self))).

Definition fortschritt (self : t Modul.t) : result Q :=
  if negb (geplante_ects self =? 0)
  then truediv (inject_Z (erreichte_ects self)) (inject_Z (geplante_ects self))
  else Ok (0 # 1)%Q.

End Semester.

Module Studiengang.

Record t : Type := mk {
  name : string;
  gesamt_ects : Z;
  regelstudienzeit : Z;
  semester : list (Semester.t Modul.t);
  module : list Modul.t
}.

Definition ects_bestanden (self : t) : Z :=
  sum_int (map Modul.ects (filter (fun m => Modul.ist_bestanden m = true)
                                  (module self))).

Definition fortschritt (self : t) : result Q :=
  if negb (gesamt_ects self =? 0)
  then truediv (inject_Z (ects_bestanden self)) (inject_Z (gesamt_ects self))
  else Ok (0 # 1)%Q.

(** [m.durchschnitt or 0] *)
Definition durchschnitt_or_0 (m : Modul.t) : Q :=
  match Modul.durchschnitt m with
  | Some d => if Qeq_bool d (0 # 1) then (0 # 1)%Q else d
  | None => (0 # 1)%Q
  end.

Definition durchschnitt (self : t) : result (option Q) :=
  let module_mit_note :=
    filter (fun m => is_Some (Modul.durchschnitt m)) (module self) in
  match module_mit_note with
  | [] => Ok None
  | _ :: _ =>
      let ges_ects := sum_int (map Modul.ects module_mit_note) in
      if ges_ects =? 0 then Ok None
      else
        let gew_sum :=
          sum_float (map (fun m => (durchschnitt_or_0 m * inject_Z (Modul.ects m))%Q)
                         module_mit_note) in
        q ← truediv gew_sum (inject_Z ges_ects);
        Ok (Some (round2 q))
  end.

End Studiengang.

(* ===================================================================== *)
(** * db.py                                                               *)
(* ===================================================================== *)

Module Db.

(** One record per table of [DDL]; the fields are the columns. *)
Record studiengang_row : Type := mk_studiengang {
  sg_id : Z;
  sg_name : string;
  sg_gesamt_ects : Z;
  sg_regelstudienzeit : Z
}.

Record semester_row : Type := mk_semester {
  sem_id : Z;
  sem_nr : Z;
  sem_bezeichnung : string;
  sem_studiengang_id : Z
}.

Record modul_row : Type := mk_modul {
  mod_id : Z;
  mod_name : string;
  mod_kuerzel : string;
  mod_ects : Z;
  mod_pruefungsform : string;
  mod_studiengang_id : Z
}.

Record belegung_row : Type := mk_belegung {
  bel_id : Z;
  bel_art : string;
  bel_kommentar : option string;
  bel_semester_id : Z;
  bel_modul_id : Z
}.

Record pruefungsleistung_row : Type := mk_pruefungsleistung {
  pl_id : Z;
  pl_bezeichnung : string;
  pl_datum : option string;
  pl_note : option Q;
  pl_versuch_nr : Z;
  pl_modul_id : Z
}.

(** The tables of a database file whose schema exists.  Each table lists its
    rows in rowid order. *)
Record Database : Type := mk_database {
  studiengang : list studiengang_row;
  semester : list semester_row;
  modul : list modul_row;
  belegung : list belegung_row;
  pruefungsleistung : list pruefungsleistung_row
}.

Definition empty : Database := mk_database [] [] [] [] [].

(** The file [studium.db]: [None] before any table was created. *)
Definition File : Type := option Database.

(** [con.executescript(DDL)]: every statement is [CREATE TABLE IF NOT
    EXISTS], so existing tables and their rows are kept. *)
Definition executescript_DDL (f : File) : Database :=
  match f with
  | Some db => db
  | None => empty
  end.

(** The rowid SQLite gives to a row inserted without an explicit
    [INTEGER PRIMARY KEY]: 1 in an empty table, otherwise one more than the
    largest rowid in use (the largest rowid is assumed below 2^63 - 1). *)
Definition next_rowid (ids : list Z) : Z :=
  match ids with
  | [] => 1
  | i :: ids' => fold_left Z.max ids' i + 1
  end.

(** [CHECK(art IN ('geplant','aktuell'))] *)
Definition check_art (art : string) : bool :=
  String.eqb art "geplant" || String.eqb art "aktuell".

(** [INSERT INTO studiengang(name, gesamt_ects, regelstudienzeit)] *)
Definition insert_studiengang (name : string) (gesamt_ects regelstudienzeit : Z)
    (db : Database) : Database :=
  let row := mk_studiengang (next_rowid (map sg_id (studiengang db)))
                            name gesamt_ects regelstudienzeit in
  mk_database (studiengang db ++ [row]) (semester db) (modul db)
              (belegung db) (pruefungsleistung db).

(** [INSERT INTO semester(nr, bezeichnung, studiengang_id)]; the foreign key
    is enforced ([PRAGMA foreign_keys = ON]). *)
Definition insert_semester (nr : Z) (bezeichnung : string) (studiengang_id : Z)
    (db : Database) : result Database :=
  if bool_decide (studiengang_id ∈ map sg_id (studiengang db))
  then
    let row := mk_semester (next_rowid (map sem_id (semester db)))
                           nr bezeichnung studiengang_id in
    Ok (mk_database (studiengang db) (semester db ++ [row]) (modul db)
                    (belegung db) (pruefungsleistung db))
  else Raise IntegrityError.

(** [str(n)] for an integer. *)
Definition str_of_int (n : Z) : string := NilZero.string_of_int (Z.to_int n).

(** [range(1, 9)] *)
Definition range_1_9 : list Z := [1; 2; 3; 4; 5; 6; 7; 8].

Definition init_if_needed (f : File) : result Database :=
  let db := executescript_DDL f in
  if Z.of_nat (length (studiengang db)) =? 0
  then
    let db1 := insert_studiengang "Bachelor Cybersecurity" 180 8 db in
    sg ← subscript (head (studiengang db1));
    for_each (fun d nr => insert_semester nr ("Semester " +:+ str_of_int nr) (sg_id sg) d)
             range_1_9 db1
  else Ok db.

End Db.

(* ===================================================================== *)
(** * repo.py                                                             *)
(* ===================================================================== *)

Module Repo.

Import Db.

(** ** SQL building blocks *)

(** [ORDER BY]: the rows of the scan, sorted by insertion into an initially
    empty result.  A row is placed before the first row that does not
    precede it, so rows that compare equal keep their scan order. *)
Fixpoint insert_sorted {A : Type} (le : A -> A -> bool) (x : A) (l : list A) : list A :=
  match l with
  | [] => [x]
  | y :: l' => if le x y then x :: l else y :: insert_sorted le x l'
  end.

Definition order_by {A : Type} (le : A -> A -> bool) (rows : list A) : list A :=
  foldr (insert_sorted le) [] rows.

(** [ORDER BY nr] *)
Definition by_nr (r1 r2 : semester_row) : bool := sem_nr r1 <=? sem_nr r2.

(** [ORDER BY versuch_nr] *)
Definition by_versuch_nr (r1 r2 : pruefungsleistung_row) : bool :=
  pl_versuch_nr r1 <=? pl_versuch_nr r2.

(** [ORDER BY versuch_nr, id] *)
Definition by_versuch_nr_id (r1 r2 : pruefungsleistung_row) : bool :=
  (pl_versuch_nr r1 <? pl_versuch_nr r2)
  || ((pl_versuch_nr r1 =? pl_versuch_nr r2) && (pl_id r1 <=? pl_id r2)).

(** [SELECT ... FROM modul WHERE kuerzel=?] followed by [fetchone()] *)
Definition select_modul (kuerzel : string) (db : Database) : option modul_row :=
  head (filter (fun r => mod_kuerzel r = kuerzel) (modul db)).

(** [SELECT id FROM semester WHERE nr=? LIMIT 1] followed by [fetchone()] *)
Definition select_semester (nr : Z) (db : Database) : option semester_row :=
  head (filter (fun r => sem_nr r = nr) (semester db)).

(** [SELECT s.id FROM semester s JOIN studiengang g ON g.id=s.studiengang_id
    WHERE s.nr=? LIMIT 1] followed by [fetchone()] *)
Definition select_semester_join (nr : Z) (db : Database) : option semester_row :=
  head (filter (fun r => sem_nr r = nr
                         /\ sem_studiengang_id r ∈ map sg_id (studiengang db))
               (semester db)).

Definition with_modul (rows : list modul_row) (db : Database) : Database :=
  mk_database (studiengang db) (semester db) rows (belegung db) (pruefungsleistung db).

Definition with_belegung (rows : list belegung_row) (db : Database) : Database :=
  mk_database (studiengang db) (semester db) (modul db) rows (pruefungsleistung db).

Definition with_pruefungsleistung (rows : list pruefungsleistung_row) (db : Database)
  : Database :=
  mk_database (studiengang db) (semester db) (modul db) (belegung db) rows.

(** [INSERT INTO modul(name, kuerzel, ects, pruefungsform, studiengang_id)] *)
Definition insert_modul (name kuerzel : string) (ects : Z) (pruefungsform : string)
    (studiengang_id : Z) (db : Database) : result Database :=
  if bool_decide (studiengang_id ∈ map sg_id (studiengang db))
  then
    let row := mk_modul (next_rowid (map mod_id (modul db)))
                        name kuerzel ects pruefungsform studiengang_id in
    Ok (with_modul (modul db ++ [row]) db)
  else Raise IntegrityError.

(** [INSERT INTO pruefungsleistung(bezeichnung, datum, note, versuch_nr, modul_id)] *)
Definition insert_pruefungsleistung (bezeichnung : string) (datum : option string)
    (note : option Q) (versuch_nr modul_id : Z) (db : Database) : result Database :=
  if bool_decide (modul_id ∈ map mod_id (modul db))
  then
    let row := mk_pruefungsleistung (next_rowid (map pl_id (pruefungsleistung db)))
                                    bezeichnung datum note versuch_nr modul_id in
    Ok (with_pruefungsleistung (pruefungsleistung db ++ [row]) db)
  else Raise IntegrityError.

(** The columns of [UNIQUE(semester_id, modul_id, art)]. *)
Definition bel_key (r : belegung_row) : Z * Z * string :=
  (bel_semester_id r, bel_modul_id r, bel_art r).

(** [INSERT OR IGNORE INTO belegung(art, kommentar, semester_id, modul_id)]:
    a row that violates the [CHECK] or the [UNIQUE] constraint is skipped
    without an error; a foreign key violation is still an error. *)
Definition insert_or_ignore_belegung (art : string) (kommentar : option string)
    (semester_id modul_id : Z) (db : Database) : result Database :=
  if negb (check_art art) then Ok db
  else if bool_decide ((semester_id, modul_id, art) ∈ map bel_key (belegung db))
  then Ok db
  else if bool_decide (semester_id ∈ map sem_id (semester db)
                       /\ modul_id ∈ map mod_id (modul db))
  then
    let row := mk_belegung (next_rowid (map bel_id (belegung db)))
                           art kommentar semester_id modul_id in
    Ok (with_belegung (belegung db ++ [row]) db)
  else Raise IntegrityError.

(** A keyword argument of an update: [None] keeps the stored value. *)
Definition set_if_not_None {A : Type} (arg : option A) (stored : A) : A :=
  match arg with
  | Some v => v
  | None => stored
  end.

(** The same for a nullable column. *)
Definition set_nullable_if_not_None {A : Type} (arg : option A) (stored : option A)
  : option A :=
  match arg with
  | Some v => Some v
  | None => stored
  end.

(** ** Building the domain model *)

(** The address of an object: its index in the list that owns it. *)
Abbreviation addr := nat (only parsing).

(** A semester object with its references replaced by the referenced module
    objects. *)
Definition resolve (mods : list Modul.t) (s : Semester.t addr) : Semester.t Modul.t :=
  Semester.mk (Semester.nummer s) (Semester.bezeichnung s)
              (omap (fun a : addr => mods !! a) (Semester.geplante_module s))
              (omap (fun a : addr => mods !! a) (Semester.bestandene_module s)).

Definition pl_of_row (r : pruefungsleistung_row) : Pruefungsleistung.t :=
  Pruefungsleistung.mk (pl_bezeichnung r) (pl_datum r) (pl_note r) (pl_versuch_nr r).

(** First loop: semester objects and [sem_map]. *)
Definition load_semester (rows : list semester_row)
  : list (Semester.t addr) * gmap Z addr :=
  fold_left (fun '(sems, sem_map) r =>
               (sems ++ [Semester.init (sem_nr r) (sem_bezeichnung r)],
                <[sem_id r := length sems]> sem_map))
            rows ([], ∅).

(** Second loop: module objects and [mod_map]. *)
Definition load_module (rows : list modul_row)
  : result (list Modul.t * gmap Z addr) :=
  for_each (fun '(mods, mod_map) r =>
              pf ← Pruefungsform_.by_name (mod_pruefungsform r);
              Ok (mods ++ [Modul.init (mod_name r) (mod_kuerzel r) (mod_ects r) pf],
                  <[mod_id r := length mods]> mod_map))
           rows ([], ∅).

(** Third loop: [sem.belege(mod, r["art"])] on the semester object. *)
Definition load_belegung (sem_map mod_map : gmap Z addr) (rows : list belegung_row)
    (sems : list (Semester.t addr)) : result (list (Semester.t addr)) :=
  for_each (fun sems r =>
              sem ← getitem sem_map (bel_semester_id r);
              mod_ ← getitem mod_map (bel_modul_id r);
              Ok (alter (Semester.belege mod_ (bel_art r)) sem sems))
           rows sems.

(** Fourth loop: [mod.add_pruefungsleistung(...)] on the module object. *)
Definition load_pruefungsleistung (mod_map : gmap Z addr)
    (rows : list pruefungsleistung_row) (mods : list Modul.t) : result (list Modul.t) :=
  for_each (fun mods r =>
              mod_ ← getitem mod_map (pl_modul_id r);
              Ok (alter (Modul.add_pruefungsleistung (pl_of_row r)) mod_ mods))
           rows mods.

Definition load_domain (db : Database) : result Studiengang.t :=
  sg_row ← subscript (head (studiengang db));
  let '(sems, sem_map) :=
    load_semester (order_by by_nr
      (filter (fun r => sem_studiengang_id r = sg_id sg_row) (semester db))) in
  '(mods, mod_map) ←
    load_module (filter (fun r => mod_studiengang_id r = sg_id sg_row) (modul db));
  sems ← load_belegung sem_map mod_map (belegung db) sems;
  mods ← load_pruefungsleistung mod_map
            (order_by by_versuch_nr (pruefungsleistung db)) mods;
  Ok (Studiengang.mk (sg_name sg_row) (sg_gesamt_ects sg_row)
                     (sg_regelstudienzeit sg_row)
                     (map (resolve mods) sems) mods).

(** ** Write operations.  Each runs in one transaction ([with con:]): when
    it raises, the stored state is the one before the call. *)

Definition create_modul (name kuerzel : string) (ects : Z) (pruefungsform : Pruefungsform)
    (db : Database) : result Database :=
  sg ← subscript (head (studiengang db));
  insert_modul name kuerzel ects (Pruefungsform_.name pruefungsform) (sg_id sg) db.

Definition create_pruefungsleistung (modul_kuerzel bezeichnung : string)
    (datum : option string) (note : option Q) (versuch_nr : Z) (db : Database)
  : result Database :=
  m ← subscript (select_modul modul_kuerzel db);
  insert_pruefungsleistung bezeichnung datum note versuch_nr (mod_id m) db.

Definition create_belegung (semester_nr : Z) (modul_kuerzel art kommentar : string)
    (db : Database) : result Database :=
  s ← subscript (select_semester_join semester_nr db);
  m ← subscript (select_modul modul_kuerzel db);
  insert_or_ignore_belegung art (Some kommentar) (sem_id s) (mod_id m) db.

Definition nicht_gefunden (kuerzel : string) : exn :=
  ValueError ("Modul '" +:+ kuerzel +:+ "' nicht gefunden").

Definition _get_modul_id (kuerzel : string) (db : Database) : result Z :=
  match select_modul kuerzel db with
  | None => Raise (nicht_gefunden kuerzel)
  | Some row => Ok (mod_id row)
  end.

(** The dict of [get_modul]: name, kuerzel, ects, pruefungsform. *)
Definition get_modul (kuerzel : string) (db : Database)
  : result (string * string * Z * string) :=
  match select_modul kuerzel db with
  | None => Raise (nicht_gefunden kuerzel)
  | Some row => Ok (mod_name row, mod_kuerzel row, mod_ects row, mod_pruefungsform row)
  end.

Definition update_modul (kuerzel : string) (name new_kuerzel : option string)
    (ects : option Z) (pruefungsform : option Pruefungsform) (db : Database)
  : result Database :=
  id ← _get_modul_id kuerzel db;
  match name, new_kuerzel, ects, pruefungsform with
  | None, None, None, None => Ok db
  | _, _, _, _ =>
      Ok (with_modul
            (map (fun r =>
                    if bool_decide (mod_id r = id)
                    then mk_modul (mod_id r)
                           (set_if_not_None name (mod_name r))
                           (set_if_not_None new_kuerzel (mod_kuerzel r))
                           (set_if_not_None ects (mod_ects r))
                           (set_if_not_None (Pruefungsform_.name <$> pruefungsform)
                                            (mod_pruefungsform r))
                           (mod_studiengang_id r)
                    else r)
                 (modul db))
            db)
  end.

(** [DELETE FROM modul WHERE id=?] with its [ON DELETE CASCADE] on
    [belegung.modul_id] and [pruefungsleistung.modul_id]. *)
Definition delete_modul (kuerzel : string) (db : Database) : result Database :=
  id ← _get_modul_id kuerzel db;
  Ok (mk_database (studiengang db) (semester db)
        (filter (fun r => mod_id r <> id) (modul db))
        (filter (fun r => bel_modul_id r <> id) (belegung db))
        (filter (fun r => pl_modul_id r <> id) (pruefungsleistung db))).

(** The dict of a row of [list_pruefungsleistungen]:
    id, bezeichnung, datum, note, versuch_nr. *)
Definition pl_dict (r : pruefungsleistung_row)
  : Z * string * option string * option Q * Z :=
  (pl_id r, pl_bezeichnung r, pl_datum r, pl_note r, pl_versuch_nr r).

Definition list_pruefungsleistungen (kuerzel : string) (db : Database)
  : result (list (Z * string * option string * option Q * Z)) :=
  id ← _get_modul_id kuerzel db;
  Ok (map pl_dict
        (order_by by_versuch_nr_id
           (filter (fun r => pl_modul_id r = id) (pruefungsleistung db)))).

Definition update_pruefungsleistung (pl_id_ : Z) (bezeichnung : option string)
    (datum : option string) (note : option Q) (versuch_nr : option Z) (db : Database)
  : result Database :=
  match bezeichnung, datum, note, versuch_nr with
  | None, None, None, None => Ok db
  | _, _, _, _ =>
      Ok (with_pruefungsleistung
            (map (fun r =>
                    if bool_decide (pl_id r = pl_id_)
                    then mk_pruefungsleistung (pl_id r)
                           (set_if_not_None bezeichnung (pl_bezeichnung r))
                           (set_nullable_if_not_None datum (pl_datum r))
                           (set_nullable_if_not_None note (pl_note r))
                           (set_if_not_None versuch_nr (pl_versuch_nr r))
                           (pl_modul_id r)
                    else r)
                 (pruefungsleistung db))
            db)
  end.

Definition delete_pruefungsleistung (pl_id_ : Z) (db : Database) : result Database :=
  Ok (with_pruefungsleistung
        (filter (fun r => pl_id r <> pl_id_) (pruefungsleistung db)) db).

(** [UPDATE belegung SET ... WHERE semester_id=? AND modul_id=?]: the
    statement fails when a changed row violates the [CHECK] on [art] or the
    [UNIQUE] constraint. *)
Definition update_belegung_rows (art kommentar : option string) (semester_id modul_id : Z)
    (db : Database) : result Database :=
  let hit r := bool_decide (bel_semester_id r = semester_id /\ bel_modul_id r = modul_id) in
  let rows :=
    map (fun r =>
           if hit r
           then mk_belegung (bel_id r)
                  (set_if_not_None art (bel_art r))
                  (set_nullable_if_not_None kommentar (bel_kommentar r))
                  (bel_semester_id r) (bel_modul_id r)
           else r)
        (belegung db) in
  match art with
  | None => Ok (with_belegung rows db)
  | Some a =>
      if existsb hit (belegung db) && negb (check_art a) then Raise IntegrityError
      else if bool_decide (1 < length (filter (fun r => bel_key r = (semester_id, modul_id, a))
                                              rows))%nat
      then Raise IntegrityError
      else Ok (with_belegung rows db)
  end.

Definition update_belegung (semester_nr : Z) (modul_kuerzel : string)
    (art kommentar : option string) (db : Database) : result Database :=
  s ← subscript (select_semester semester_nr db);
  m ← subscript (select_modul modul_kuerzel db);
  match art, kommentar with
  | None, None => Ok db
  | _, _ => update_belegung_rows art kommentar (sem_id s) (mod_id m) db
  end.

Definition delete_belegung (semester_nr : Z) (modul_kuerzel art : string) (db : Database)
  : result Database :=
  s ← subscript (select_semester semester_nr db);
  m ← subscript (select_modul modul_kuerzel db);
  Ok (with_belegung
        (filter (fun r => ~ (bel_semester_id r = sem_id s
                             /\ bel_modul_id r = mod_id m
                             /\ bel_art r = art))
                (belegung db))
        db).

(** ** Read operations *)

(** The second component holds the columns id, nr, bezeichnung of each
    Semester row. *)
Definition get_ids (db : Database)
  : result (studiengang_row * list (Z * Z * string)) :=
  let sg := head (studiengang db) in
  sg_row ← subscript sg;
  Ok (sg_row,
      map (fun r => (sem_id r, sem_nr r, sem_bezeichnung r))
          (filter (fun r => sem_studiengang_id r = sg_id sg_row) (semester db))).

(** [ORDER BY name]: [TEXT] values compare byte by byte. *)
Definition by_mod_name (r1 r2 : modul_row) : bool :=
  String.leb (mod_name r1) (mod_name r2).

(** The dict of a row of [list_module] and of [get_modul]:
    name, kuerzel, ects, pruefungsform. *)
Definition modul_dict (r : modul_row) : string * string * Z * string :=
  (mod_name r, mod_kuerzel r, mod_ects r, mod_pruefungsform r).

Definition list_module (db : Database) : list (string * string * Z * string) :=
  map modul_dict (order_by by_mod_name (modul db)).

Definition list_semester_nrn (db : Database) : list Z :=
  map sem_nr (order_by by_nr (semester db)).

(** The scan of [belegung] in [list_belegungen]: SQLite reads the table
    through the index of [UNIQUE(semester_id, modul_id, art)], that is in
    the order of these three columns. *)
Definition by_unique_index (b1 b2 : belegung_row) : bool :=
  (bel_semester_id b1 <? bel_semester_id b2)
  || ((bel_semester_id b1 =? bel_semester_id b2)
      && ((bel_modul_id b1 <? bel_modul_id b2)
          || ((bel_modul_id b1 =? bel_modul_id b2)
              && String.leb (bel_art b1) (bel_art b2)))).

(** [FROM belegung b JOIN semester s ON s.id=b.semester_id
     JOIN modul m ON m.id=b.modul_id] *)
Definition join_belegung (db : Database)
  : list (belegung_row * semester_row * modul_row) :=
  b ← order_by by_unique_index (belegung db);
  s ← filter (fun s => sem_id s = bel_semester_id b) (semester db);
  m ← filter (fun m => mod_id m = bel_modul_id b) (modul db);
  [(b, s, m)].

(** [ORDER BY s.nr, m.kuerzel, b.art] *)
Definition by_nr_kuerzel_art (x y : belegung_row * semester_row * modul_row) : bool :=
  let '(b1, s1, m1) := x in
  let '(b2, s2, m2) := y in
  (sem_nr s1 <? sem_nr s2)
  || ((sem_nr s1 =? sem_nr s2)
      && (String.ltb (mod_kuerzel m1) (mod_kuerzel m2)
          || (String.eqb (mod_kuerzel m1) (mod_kuerzel m2)
              && String.leb (bel_art b1) (bel_art b2)))).

(** The dict of a row of [list_belegungen]:
    id, art, kommentar, semester_nr, modul. *)
Definition belegung_dict (x : belegung_row * semester_row * modul_row)
  : Z * string * option string * Z * string :=
  let '(b, s, m) := x in
  (bel_id b, bel_art b, bel_kommentar b, sem_nr s, mod_kuerzel m).

Definition list_belegungen (kuerzel : option string) (semester_nr : option Z)
    (db : Database) : list (Z * string * option string * Z * string) :=
  let rows := join_belegung db in
  let rows :=
    match kuerzel with
    | Some k => filter (fun x => mod_kuerzel x.2 = k) rows
    | None => rows
    end in
  let rows :=
    match semester_nr with
    | Some n => filter (fun x => sem_nr x.1.2 = n) rows
    | None => rows
    end in
  map belegung_dict (order_by by_nr_kuerzel_art rows).

End Repo.

(* ===================================================================== *)
(** * app.py: the data of the chart "Zeitplan pro Semester"               *)
(* ===================================================================== *)

Module App.

Definition ZIEL_PRO_SEMESTER : Z := 25.

(** The rows of [daten], each with its values for "Semester", "Typ" and
    "ECTS": two rows for every Semester of the loaded Program. *)
Definition daten (sg : Studiengang.t) : list (Z * string * Z) :=
  sem ← Studiengang.semester sg;
  let erreicht := Semester.erreichte_ects sem in
  let abgeschlossen := Z.min ZIEL_PRO_SEMESTER erreicht in
  let offen := Z.max 0 (ZIEL_PRO_SEMESTER - abgeschlossen) in
  [(Semester.nummer sem, "bestanden", abgeschlossen);
   (Semester.nummer sem, "offen", offen)].

End App.

(* ===================================================================== *)
(** * Vocabulary of the specification                                     *)
(* ===================================================================== *)

Module Spec.

(** Sums by structural recursion. *)
Fixpoint total_Q (xs : list Q) : Q :=
  match xs with
  | [] => (0 # 1)%Q
  | x :: xs' => (x + total_Q xs')%Q
  end.

Fixpoint total_Z (xs : list Z) : Z :=
  match xs with
  | [] => 0
  | x :: xs' => x + total_Z xs'
  end.






(** A Module is passed iff its derived average exists and is at most 4.0. *)
Definition passed (m : Modul.t) : Prop :=
  exists d : Q, Modul.durchschnitt m = Some d /\ (d <= 4 # 1)%Q.

(** The credits of the passed Modules of a list sum to [c]; every Module of
    the list is considered once. *)
Inductive passed_credits : list Modul.t -> Z -> Prop :=
| passed_credits_nil : passed_credits [] 0
| passed_credits_passed m ms c :
    passed m -> passed_credits ms c -> passed_credits (m :: ms) (Modul.ects m + c)
| passed_credits_other m ms c :
    ~ passed m -> passed_credits ms c -> passed_credits (m :: ms) c.

(** [q] is the ratio [a / b] of two integers, [b] not 0. *)
Definition is_ratio (q : Q) (a b : Z) : Prop :=
  b <> 0 /\ (q * inject_Z b == inject_Z a)%Q.







(** The stored state after the first initialization: the default Program and
    its 8 Semesters, numbered 1 through 8. *)
Definition default_database : Db.Database :=
  Db.mk_database
    [Db.mk_studiengang 1 "Bachelor Cybersecurity" 180 8]
    [Db.mk_semester 1 1 "Semester 1" 1; Db.mk_semester 2 2 "Semester 2" 1;
     Db.mk_semester 3 3 "Semester 3" 1; Db.mk_semester 4 4 "Semester 4" 1;
     Db.mk_semester 5 5 "Semester 5" 1; Db.mk_semester 6 6 "Semester 6" 1;
     Db.mk_semester 7 7 "Semester 7" 1; Db.mk_semester 8 8 "Semester 8" 1]
    [] [] [].

(** The [UNIQUE(semester_id, modul_id, art)] constraint of [belegung]. *)
Definition unique_belegung (db : Db.Database) : Prop :=
  NoDup (map Repo.bel_key (Db.belegung db)).

(** The number of stored Enrollments with a given (semester, module, kind). *)
Definition count_belegung (key : Z * Z * string) (db : Db.Database) : nat :=
  length (filter (fun r => Repo.bel_key r = key) (Db.belegung db)).

(** A table in rowid order: the identifiers increase strictly along the
    table, so a row inserted later has a larger one. *)
Definition rowid_order {A : Type} (id : A -> Z) (rows : list A) : Prop :=
  StronglySorted (fun r1 r2 => id r1 < id r2) rows.

(** The [PRIMARY KEY] of [modul]. *)
Definition unique_modul_id (db : Db.Database) : Prop :=
  NoDup (map Db.mod_id (Db.modul db)).

(** [r1] comes before [r2] by attempt number first and, for equal attempt
    numbers, by insertion order. *)
Definition attempt_then_insertion (r1 r2 : Db.pruefungsleistung_row) : Prop :=
  Db.pl_versuch_nr r1 < Db.pl_versuch_nr r2
  \/ (Db.pl_versuch_nr r1 = Db.pl_versuch_nr r2 /\ Db.pl_id r1 < Db.pl_id r2).

(** Referential integrity of the stored state, as seen from the Program that
    [load_domain] reads (the first row of [studiengang]): every Module of
    the Program names a known exam form, every Enrollment references a
    Semester and a Module of the Program, every ExamResult a Module of the
    Program. *)
Definition integrity (db : Db.Database) : Prop :=
  exists sg_row,
    head (Db.studiengang db) = Some sg_row
    /\ (forall r, r ∈ Db.modul db -> Db.mod_studiengang_id r = Db.sg_id sg_row ->
          exists pf, Pruefungsform_.by_name (Db.mod_pruefungsform r) = Ok pf)
    /\ (forall b, b ∈ Db.belegung db ->
          (exists s, s ∈ Db.semester db
                     /\ Db.sem_studiengang_id s = Db.sg_id sg_row
                     /\ Db.sem_id s = Db.bel_semester_id b)
          /\ (exists m, m ∈ Db.modul db
                        /\ Db.mod_studiengang_id m = Db.sg_id sg_row
                        /\ Db.mod_id m = Db.bel_modul_id b))
    /\ (forall p, p ∈ Db.pruefungsleistung db ->
          exists m, m ∈ Db.modul db
                    /\ Db.mod_studiengang_id m = Db.sg_id sg_row
                    /\ Db.mod_id m = Db.pl_modul_id p).

(** The Modules of the Program that [load_domain] reads. *)
Definition owned_module (db : Db.Database) : list Db.modul_row :=
  match head (Db.studiengang db) with
  | Some sg_row =>
      filter (fun r => Db.mod_studiengang_id r = Db.sg_id sg_row) (Db.modul db)
  | None => []
  end.

(** What the second loop has built after the rows [rows]. *)
Definition module_loaded (rows : list Db.modul_row) (st : list Modul.t * gmap Z Repo.addr)
  : Prop :=
  length st.1 = length rows
  /\ (forall i r, rows !! i = Some r ->
        exists pf, Pruefungsform_.by_name (Db.mod_pruefungsform r) = Ok pf
                   /\ st.1 !! i = Some (Modul.init (Db.mod_name r) (Db.mod_kuerzel r)
                                                   (Db.mod_ects r) pf))
  /\ (forall r, r ∈ rows -> is_Some (st.2 !! Db.mod_id r))
  /\ (NoDup (map Db.mod_id rows) ->
      forall k a, st.2 !! k = Some a <-> exists r, rows !! a = Some r /\ Db.mod_id r = k).

(** The constraints of the schema and of the single-Program design, as they
    hold in a stored state: one Program; every Semester and every Module
    belongs to it; every Module names an exam form; tables are in rowid
    order; Enrollments satisfy their [CHECK], [UNIQUE] and foreign keys;
    ExamResults satisfy their foreign key. *)
Definition consistent (db : Db.Database) : Prop :=
  exists sg,
    Db.studiengang db = [sg]
    /\ (forall s, s ∈ Db.semester db -> Db.sem_studiengang_id s = Db.sg_id sg)
    /\ (forall m, m ∈ Db.modul db ->
          Db.mod_studiengang_id m = Db.sg_id sg
          /\ exists pf, Pruefungsform_.by_name (Db.mod_pruefungsform m) = Ok pf)
    /\ rowid_order Db.mod_id (Db.modul db)
    /\ rowid_order Db.pl_id (Db.pruefungsleistung db)
    /\ unique_belegung db
    /\ (forall b, b ∈ Db.belegung db ->
          Db.check_art (Db.bel_art b) = true
          /\ Db.bel_semester_id b ∈ map Db.sem_id (Db.semester db)
          /\ Db.bel_modul_id b ∈ map Db.mod_id (Db.modul db))
    /\ (forall p, p ∈ Db.pruefungsleistung db ->
          Db.pl_modul_id p ∈ map Db.mod_id (Db.modul db)).

(** One successful call of the gateway. *)
Inductive step (db db' : Db.Database) : Prop :=
| step_init_if_needed :
    Db.init_if_needed (Some db) = Ok db' -> step db db'
| step_create_modul name kuerzel ects pruefungsform :
    Repo.create_modul name kuerzel ects pruefungsform db = Ok db' -> step db db'
| step_create_pruefungsleistung kuerzel bezeichnung datum note versuch_nr :
    Repo.create_pruefungsleistung kuerzel bezeichnung datum note versuch_nr db = Ok db' ->
    step db db'
| step_create_belegung nr kuerzel art kommentar :
    Repo.create_belegung nr kuerzel art kommentar db = Ok db' -> step db db'
| step_update_modul kuerzel name new_kuerzel ects pruefungsform :
    Repo.update_modul kuerzel name new_kuerzel ects pruefungsform db = Ok db' ->
    step db db'
| step_delete_modul kuerzel :
    Repo.delete_modul kuerzel db = Ok db' -> step db db'
| step_update_pruefungsleistung id bezeichnung datum note versuch_nr :
    Repo.update_pruefungsleistung id bezeichnung datum note versuch_nr db = Ok db' ->
    step db db'
| step_delete_pruefungsleistung id :
    Repo.delete_pruefungsleistung id db = Ok db' -> step db db'
| step_update_belegung nr kuerzel art kommentar :
    Repo.update_belegung nr kuerzel art kommentar db = Ok db' -> step db db'
| step_delete_belegung nr kuerzel art :
    Repo.delete_belegung nr kuerzel art db = Ok db' -> step db db'.

(** The stored states the application can be in: the first start on a file
    without tables, followed by any number of successful gateway calls. *)
Inductive reachable : Db.Database -> Prop :=
| reachable_first_start db :
    Db.init_if_needed None = Ok db -> reachable db
| reachable_step db db' :
    reachable db -> step db db' -> reachable db'.


(** [a] stands before [b] in the result of a stable sort by [le] of rows
    scanned in the order [R]: [a] is not after [b] in the sort order, and of
    two rows that compare equal the one scanned first comes first. *)
Definition stable_order {A : Type} (le : A -> A -> bool) (R : A -> A -> Prop) (a b : A)
  : Prop :=
  le a b = true /\ (le b a = true -> R a b).

(** Strict order of [TEXT] values. *)
Definition string_lt (a b : string) : Prop := String.le a b /\ a <> b.

(** The order of [list_belegungen] on its dicts (id, art, kommentar,
    semester_nr, modul): by semester number, then module code, then kind. *)
Definition nr_kuerzel_art (d1 d2 : Z * string * option string * Z * string) : Prop :=
  d1.1.2 < d2.1.2
  \/ (d1.1.2 = d2.1.2
      /\ (string_lt d1.2 d2.2 \/ (d1.2 = d2.2 /\ String.le d1.1.1.1.2 d2.1.1.1.2))).

(** The Semesters of the Program that [load_domain] reads. *)
Definition owned_semester (db : Db.Database) : list Db.semester_row :=
  match head (Db.studiengang db) with
  | Some sg_row =>
      filter (fun r => Db.sem_studiengang_id r = Db.sg_id sg_row) (Db.semester db)
  | None => []
  end.

(** [m] is the Module object of the loaded Program [sg] that stands for the
    Module referenced by the Enrollment [b]. *)
Definition module_object (db : Db.Database) (sg : Studiengang.t) (b : Db.belegung_row)
    (m : Modul.t) : Prop :=
  exists i mr,
    owned_module db !! i = Some mr
    /\ Db.mod_id mr = Db.bel_modul_id b
    /\ Studiengang.module sg !! i = Some m.

(** The Semester object [s] of the loaded Program [sg] stands for the stored
    Semester [sr]: its planned list holds the Module objects of the
    Enrollments of [sr] of kind "geplant", its current/passed list those of
    the Enrollments of [sr] of any other kind, each in the order of the
    Enrollments. *)
Definition semester_loaded (db : Db.Database) (sg : Studiengang.t)
    (s : Semester.t Modul.t) (sr : Db.semester_row) : Prop :=
  Semester.nummer s = Db.sem_nr sr
  /\ Semester.bezeichnung s = Db.sem_bezeichnung sr
  /\ Forall2 (module_object db sg)
       (filter (fun b => Db.bel_semester_id b = Db.sem_id sr /\ Db.bel_art b = "geplant")
               (Db.belegung db))
       (Semester.geplante_module s)
  /\ Forall2 (module_object db sg)
       (filter (fun b => Db.bel_semester_id b = Db.sem_id sr /\ Db.bel_art b <> "geplant")
               (Db.belegung db))
       (Semester.bestandene_module s).

End Spec.

(* ===================================================================== *)
(** * Concrete Modules, Programs and stored states                        *)
(* ===================================================================== *)

Module Example.

(** "Algorithms" (ALG1, 5 credits, written exam) with one ExamResult graded
    1.7 at the first attempt. *)
Definition alg1 : Modul.t :=
  Modul.mk "Algorithms" "ALG1" 5 KLAUSUR
           [Pruefungsleistung.mk "Klausur" None (Some (17 # 10)%Q) 1].

(** The same Module while its only ExamResult is not graded yet. *)
Definition alg1_ungraded : Modul.t :=
  Modul.mk "Algorithms" "ALG1" 5 KLAUSUR
           [Pruefungsleistung.mk "Klausur" None None 1].

(** Modules A (5 credits, average 2.0) and B (10 credits, average 3.0). *)
Definition mod_A : Modul.t :=
  Modul.mk "A" "A" 5 KLAUSUR [Pruefungsleistung.mk "Klausur" None (Some (2 # 1)%Q) 1].

Definition mod_B : Modul.t :=
  Modul.mk "B" "B" 10 PROJEKT
           [Pruefungsleistung.mk "Projekt" None (Some (27 # 10)%Q) 1;
            Pruefungsleistung.mk "Vortrag" None (Some (33 # 10)%Q) 1].


Definition sg_before : Studiengang.t :=
  Studiengang.mk "Bachelor Cybersecurity" 180 8 [] [mod_A; alg1_ungraded; mod_B].

Definition sg_after : Studiengang.t :=
  Studiengang.mk "Bachelor Cybersecurity" 180 8 [] [mod_A; alg1; mod_B].

(** A Semester with A and ALG1 planned, and A and the ungraded ALG1 in its
    current/passed list. *)
Definition sem_1 : Semester.t Modul.t :=
  Semester.mk 1 "Semester 1" [mod_A; alg1] [mod_A; alg1_ungraded].

(** The stored state after the first start, the creation of ALG1 and of a
    second Module, four ExamResults of ALG1 entered out of attempt order, one
    ExamResult of the second Module, and two Enrollments of ALG1. *)
Definition db_alg1 : Db.Database :=
  Db.mk_database
    (Db.studiengang Spec.default_database)
    (Db.semester Spec.default_database)
    [Db.mk_modul 1 "Algorithms" "ALG1" 5 "KLAUSUR" 1;
     Db.mk_modul 2 "Networks" "NET1" 5 "PROJEKT" 1]
    [Db.mk_belegung 1 "geplant" (Some "") 1 1;
     Db.mk_belegung 2 "aktuell" (Some "") 2 1]
    [Db.mk_pruefungsleistung 1 "Klausur, zweiter Versuch" None (Some (17 # 10)%Q) 2 1;
     Db.mk_pruefungsleistung 2 "Klausur" (Some "2024-02-01") (Some (5 # 1)%Q) 1 1;
     Db.mk_pruefungsleistung 3 "Projekt" None None 1 2;
     Db.mk_pruefungsleistung 4 "Testat" None None 1 1;
     Db.mk_pruefungsleistung 5 "Nachtrag" None None 2 1].



(** Module B with its two ExamResults in the other order. *)
Definition mod_B_umgekehrt : Modul.t :=
  Modul.mk "B" "B" 10 PROJEKT
           [Pruefungsleistung.mk "Vortrag" None (Some (33 # 10)%Q) 1;
            Pruefungsleistung.mk "Projekt" None (Some (27 # 10)%Q) 1].

End Example.

(* ===================================================================== *)
(** * Theorems                                                            *)
(* ===================================================================== *)

Import Spec.

(** ** Sums, mean and rounding *)

Lemma fold_left_Zadd (xs : list Z) (a : Z) : fold_left Z.add xs a = a + total_Z xs.
Proof.
  revert a. induction xs as [|x xs IH]; intros a; simpl; [lia|].
  rewrite IH. lia.
Qed.

Lemma sum_int_total (xs : list Z) : sum_int xs = total_Z xs.
Proof. unfold sum_int. rewrite fold_left_Zadd. lia. Qed.

Lemma fold_left_Qplus (xs : list Q) (a : Q) :
  (fold_left Qplus xs a == a + total_Q xs)%Q.
Proof.
  revert a. induction xs as [|x xs IH]; intros a; simpl.
  - ring.
  - rewrite IH. ring.
Qed.

Lemma sum_float_total (xs : list Q) : (sum_float xs == total_Q xs)%Q.
Proof. unfold sum_float. rewrite fold_left_Qplus. ring. Qed.





(** ** Modul *)


Lemma ist_bestanden_passed (m : Modul.t) : Modul.ist_bestanden m = true <-> passed m.
Proof.
  unfold Modul.ist_bestanden, passed.
  destruct (Modul.durchschnitt m) as [d|]; split.
  - intros H. exists d. split; [reflexivity|]. apply Qle_bool_iff, H.
  - intros (d' & [= <-] & H). apply Qle_bool_iff, H.
  - discriminate.
  - intros (d' & [=] & _).
Qed.

Lemma floor_unique (n d f : Z) : 0 < d -> f * d <= n < (f + 1) * d -> n / d = f.
Proof.
  intros Hd H. symmetry. apply (Z.div_unique_pos n d f (n - f * d)); lia.
Qed.

(** Rounding depends on the value of the rational only, not on the fraction
    that represents it. *)
Lemma round_half_even_proper (x y : Q) :
  (x == y)%Q -> round_half_even x = round_half_even y.
Proof.
  destruct x as [n1 d1], y as [n2 d2]. unfold Qeq, round_half_even. simpl. intros E.
  pose proof (Z.div_mod n1 (Z.pos d1) ltac:(lia)) as E1.
  pose proof (Z.mod_pos_bound n1 (Z.pos d1) ltac:(lia)) as B1.
  pose proof (Z.div_mod n2 (Z.pos d2) ltac:(lia)) as E2.
  pose proof (Z.mod_pos_bound n2 (Z.pos d2) ltac:(lia)) as B2.
  assert (F : n2 / Z.pos d2 = n1 / Z.pos d1).
  { apply floor_unique; [lia|].
    set (f := n1 / Z.pos d1) in *. set (r := n1 mod Z.pos d1) in *.
    clearbody f r. clear E2 B2.
    split;
      apply (Z.mul_le_mono_pos_r _ _ (Z.pos d1))
      || apply (Z.mul_lt_mono_pos_r (Z.pos d1)); try lia; nia. }
  rewrite F in *.
  set (f := n1 / Z.pos d1) in *. set (r1 := n1 mod Z.pos d1) in *.
  set (r2 := n2 mod Z.pos d2) in *. clearbody f r1 r2.
  assert (R : r1 * Z.pos d2 = r2 * Z.pos d1) by nia.
  destruct (Z.compare_spec (2 * r1) (Z.pos d1)), (Z.compare_spec (2 * r2) (Z.pos d2));
    try reflexivity; exfalso; nia.
Qed.

Lemma round2_proper (x y : Q) : (x == y)%Q -> round2 x = round2 y.
Proof.
  intros E. unfold round2. f_equal. apply round_half_even_proper.
  rewrite E. reflexivity.
Qed.



Lemma omap_note_all_None (ps : list Pruefungsleistung.t) :
  (forall p, p ∈ ps -> Pruefungsleistung.note p = None) ->
  omap Pruefungsleistung.note ps = [].
Proof.
  induction ps as [|q qs IH]; intros Hall; [reflexivity|].
  simpl. rewrite (Hall q) by left. apply IH.
  intros r Hr. apply Hall. right. exact Hr.
Qed.

Lemma durchschnitt_ungraded (m : Modul.t) :
  (forall p, p ∈ Modul.leistungen m -> Pruefungsleistung.note p = None) ->
  Modul.durchschnitt m = None.
Proof.
  intros Hall. unfold Modul.durchschnitt, Modul.noten.
  rewrite omap_note_all_None by exact Hall. reflexivity.
Qed.

Lemma not_passed_ungraded (m : Modul.t) :
  (forall p, p ∈ Modul.leistungen m -> Pruefungsleistung.note p = None) ->
  ~ passed m.
Proof.
  intros Hall (d & Hd & _). rewrite durchschnitt_ungraded in Hd by exact Hall.
  discriminate.
Qed.

(** C2.  The status of a Module is "offen" exactly when it has no
    ExamResults, "abgeschlossen" exactly when its average exists and is at
    most 4.0, and "laufend" otherwise; a Module with ExamResults that are
    all ungraded has no average and is "laufend". *)
Theorem modul_status_cases (m : Modul.t) :
  (Modul.status m = "offen" <-> Modul.leistungen m = [])
  /\ (Modul.status m = "abgeschlossen" <-> passed m)
  /\ (Modul.status m = "laufend" <-> Modul.leistungen m <> [] /\ ~ passed m)
  /\ (Modul.leistungen m <> [] ->
      (forall p, p ∈ Modul.leistungen m -> Pruefungsleistung.note p = None) ->
      Modul.durchschnitt m = None /\ Modul.status m = "laufend").
Proof.
  pose proof (ist_bestanden_passed m) as Hp.
  pose proof (not_passed_ungraded m) as Hu.
  pose proof (durchschnitt_ungraded m) as Hd.
  unfold Modul.status.
  destruct (Modul.leistungen m) as [|p ps] eqn:E.
  - assert (~ passed m) as Hn by (apply Hu; intros q Hq; inversion Hq).
    split; [tauto|]. split; [split; [discriminate | tauto]|].
    split; [split; [discriminate | tauto]|]. tauto.
  - destruct (Modul.ist_bestanden m) eqn:B.
    + assert (passed m) as Hy by (apply Hp; reflexivity).
      split; [split; discriminate|]. split; [tauto|].
      split; [split; [discriminate | tauto]|].
      intros _ Hall. exfalso. apply (Hu Hall), Hy.
    + assert (~ passed m) as Hn by (intros H; apply Hp in H; congruence).
      split; [split; discriminate|]. split; [split; [discriminate | tauto]|].
      split; [split; [intros _; split; [discriminate | exact Hn] | reflexivity]|].
      intros _ Hall. split; [apply Hd, Hall | reflexivity].
Qed.

(** ** Credits and progress *)

Lemma passed_credits_sum (ms : list Modul.t) :
  passed_credits ms
    (sum_int (map Modul.ects (filter (fun m => Modul.ist_bestanden m = true) ms))).
Proof.
  rewrite sum_int_total.
  induction ms as [|m ms IH]; [constructor|].
  rewrite filter_cons.
  destruct (decide (Modul.ist_bestanden m = true)) as [B|B]; simpl.
  - apply passed_credits_passed; [apply ist_bestanden_passed, B | exact IH].
  - apply passed_credits_other; [|exact IH].
    intros H. apply B, ist_bestanden_passed, H.
Qed.

Lemma passed_credits_functional (ms : list Modul.t) (c c' : Z) :
  passed_credits ms c -> passed_credits ms c' -> c = c'.
Proof.
  intros H. revert c'.
  induction H as [|m ms c Hp _ IH|m ms c Hp _ IH]; intros c' H';
    inversion H'; subst; try reflexivity; try contradiction.
  - f_equal. apply IH. assumption.
  - apply IH. assumption.
Qed.

Lemma truediv_nonzero (a : Q) (b : Z) :
  b <> 0 -> truediv a (inject_Z b) = Ok (a / inject_Z b)%Q.
Proof.
  intros Hb. unfold truediv.
  destruct (Qeq_bool (inject_Z b) (0 # 1)) eqn:E; [|reflexivity].
  apply Qeq_bool_iff in E. unfold Qeq in E. simpl in E. lia.
Qed.

Lemma is_ratio_div (a b : Z) : b <> 0 -> is_ratio (inject_Z a / inject_Z b) a b.
Proof.
  intros Hb. split; [exact Hb|]. field.
  intros H. unfold Qeq in H. simpl in H. lia.
Qed.

(** The ratio computed by both [fortschritt] properties. *)
Lemma progress_ratio (earned target : Z) :
  let r := if negb (target =? 0)
           then truediv (inject_Z earned) (inject_Z target)
           else Ok (0 # 1)%Q in
  (target <> 0 -> exists q, r = Ok q /\ is_ratio q earned target)
  /\ (target = 0 -> r = Ok (0 # 1)%Q)
  /\ (forall e, r <> Raise e).
Proof.
  simpl. destruct (Z.eqb_spec target 0) as [E|E]; simpl.
  - split; [tauto|]. split; [reflexivity | discriminate].
  - rewrite truediv_nonzero by exact E.
    split; [|split; [tauto | discriminate]].
    intros _. eexists. split; [reflexivity | apply is_ratio_div, E].
Qed.


Lemma load_domain_module_belegung (db : Db.Database) (bs : list Db.belegung_row)
    (sg sg' : Studiengang.t) :
  Repo.load_domain db = Ok sg ->
  Repo.load_domain (Repo.with_belegung bs db) = Ok sg' ->
  Studiengang.module sg' = Studiengang.module sg.
Proof.
  unfold Repo.load_domain. simpl.
  destruct (subscript (head (Db.studiengang db))) as [sg_row|]; simpl; [|discriminate].
  destruct (Repo.load_semester _) as [sems sem_map].
  destruct (Repo.load_module _) as [[mods mod_map]|]; simpl; [|discriminate].
  destruct (Repo.load_belegung sem_map mod_map (Db.belegung db) sems); simpl;
    [|discriminate].
  destruct (Repo.load_belegung sem_map mod_map bs sems); simpl; [|discriminate].
  destruct (Repo.load_pruefungsleistung _ _ _); simpl; [|discriminate].
  intros [= <-] [= <-]. reflexivity.
Qed.

Lemma ects_bestanden_replace (ms1 ms2 : list Modul.t) (m m' : Modul.t) :
  ~ passed m -> passed m' ->
  sum_int (map Modul.ects
             (filter (fun x => Modul.ist_bestanden x = true) (ms1 ++ m' :: ms2)))
  = sum_int (map Modul.ects
               (filter (fun x => Modul.ist_bestanden x = true) (ms1 ++ m :: ms2)))
    + Modul.ects m'.
Proof.
  intros Hm Hm'.
  rewrite !sum_int_total, !filter_app, !filter_cons.
  rewrite decide_True by (apply ist_bestanden_passed, Hm').
  rewrite decide_False by (intros B; apply Hm, ist_bestanden_passed, B).
  rewrite !map_app. simpl.
  induction (map Modul.ects (filter _ ms1)) as [|x xs IH]; simpl; lia.
Qed.

Lemma ratio_monotone (a b g : Z) :
  a <= b -> 0 < g -> (inject_Z a / inject_Z g <= inject_Z b / inject_Z g)%Q.
Proof.
  intros Hab Hg. unfold Qdiv. apply Qmult_le_compat_r.
  - rewrite <- Zle_Qle. exact Hab.
  - apply Qinv_le_0_compat. unfold Qle. simpl. lia.
Qed.

(** C5.  Earned credits of a Program are the sum of the credits of its passed
    Modules, each owned Module counted once and independently of the
    Enrollments; progress is earned/target (0 when the target is 0); and
    progress does not decrease when one more Module becomes passed. *)
Theorem studiengang_credits_and_progress (sg : Studiengang.t) :
  passed_credits (Studiengang.module sg) (Studiengang.ects_bestanden sg)
  /\ (forall db bs sg',
        Repo.load_domain db = Ok sg ->
        Repo.load_domain (Repo.with_belegung bs db) = Ok sg' ->
        Studiengang.ects_bestanden sg' = Studiengang.ects_bestanden sg)
  /\ (Studiengang.gesamt_ects sg <> 0 ->
      exists q, Studiengang.fortschritt sg = Ok q
                /\ is_ratio q (Studiengang.ects_bestanden sg) (Studiengang.gesamt_ects sg))
  /\ (Studiengang.gesamt_ects sg = 0 -> Studiengang.fortschritt sg = Ok (0 # 1)%Q)
  /\ (forall sg' ms1 m m' ms2,
        Studiengang.module sg = ms1 ++ m :: ms2 ->
        Studiengang.module sg' = ms1 ++ m' :: ms2 ->
        Studiengang.gesamt_ects sg' = Studiengang.gesamt_ects sg ->
        Modul.ects m' = Modul.ects m ->
        ~ passed m -> passed m' ->
        0 <= Modul.ects m -> 0 <= Studiengang.gesamt_ects sg ->
        exists q q', Studiengang.fortschritt sg = Ok q
                     /\ Studiengang.fortschritt sg' = Ok q'
                     /\ (q <= q')%Q).
Proof.
  split; [apply passed_credits_sum|].
  split.
  { intros db bs sg' H H'. unfold Studiengang.ects_bestanden.
    rewrite (load_domain_module_belegung db bs sg sg' H H'). reflexivity. }
  split; [apply (progress_ratio (Studiengang.ects_bestanden sg)
                                (Studiengang.gesamt_ects sg))|].
  split; [apply (progress_ratio (Studiengang.ects_bestanden sg)
                                (Studiengang.gesamt_ects sg))|].
  intros sg' ms1 m m' ms2 Hsg Hsg' Hg Hects Hm Hm' Hpos Hgpos.
  assert (He : Studiengang.ects_bestanden sg'
               = Studiengang.ects_bestanden sg + Modul.ects m').
  { unfold Studiengang.ects_bestanden. rewrite Hsg, Hsg'.
    apply ects_bestanden_replace; assumption. }
  unfold Studiengang.fortschritt. rewrite Hg, He.
  destruct (Z.eqb_spec (Studiengang.gesamt_ects sg) 0) as [E|E]; simpl.
  - exists (0 # 1)%Q, (0 # 1)%Q. repeat split. apply Qle_refl.
  - rewrite !truediv_nonzero by exact E.
    eexists _, _. split; [reflexivity|]. split; [reflexivity|].
    apply ratio_monotone; lia.
Qed.

(** ** Weighted average of the Program *)







(** ** Initialization of the storage *)

Lemma init_if_needed_nonempty (db : Db.Database) :
  Db.studiengang db <> [] -> Db.init_if_needed (Some db) = Ok db.
Proof.
  intros Hne. unfold Db.init_if_needed. simpl.
  destruct (Db.studiengang db) as [|r rs]; [congruence | reflexivity].
Qed.

Lemma init_if_needed_total (f : Db.File) :
  exists db, Db.init_if_needed f = Ok db /\ Db.studiengang db <> [].
Proof.
  unfold Db.init_if_needed.
  destruct (Db.studiengang (Db.executescript_DDL f)) as [|r rs] eqn:E; simpl.
  - unfold Db.insert_studiengang. rewrite E. simpl.
    unfold Db.range_1_9, for_each, Db.insert_semester. simpl.
    eexists. split; [reflexivity | discriminate].
  - eexists. split; [reflexivity|]. rewrite E. discriminate.
Qed.

(** C8.  Initialization changes nothing in a state that already contains a
    Program, so running it again after any run is a no-op; on an empty state
    it creates the default Program and the Semesters 1 through 8. *)
Theorem init_if_needed_idempotent :
  (forall db, Db.studiengang db <> [] -> Db.init_if_needed (Some db) = Ok db)
  /\ (forall f, exists db,
        Db.init_if_needed f = Ok db /\ Db.init_if_needed (Some db) = Ok db)
  /\ Db.init_if_needed None = Ok default_database
  /\ Db.init_if_needed (Some Db.empty) = Ok default_database
  /\ length (Db.studiengang Spec.default_database) = 1%nat
  /\ map Db.sem_nr (Db.semester Spec.default_database) = [1; 2; 3; 4; 5; 6; 7; 8].
Proof.
  split; [exact init_if_needed_nonempty|].
  split.
  { intros f. destruct (init_if_needed_total f) as (db & H & Hne).
    exists db. split; [exact H | apply init_if_needed_nonempty, Hne]. }
  repeat split; reflexivity.
Qed.

(** ** Updates and deletions of ExamResults *)

Lemma database_eta (db : Db.Database) :
  Db.mk_database (Db.studiengang db) (Db.semester db) (Db.modul db)
                 (Db.belegung db) (Db.pruefungsleistung db) = db.
Proof. destruct db; reflexivity. Qed.

Lemma map_id_on {A : Type} (f : A -> A) (xs : list A) :
  (forall x, x ∈ xs -> f x = x) -> map f xs = xs.
Proof.
  induction xs as [|x xs IH]; intros H; [reflexivity|]. simpl.
  rewrite (H x) by left. f_equal. apply IH. intros y Hy. apply H. right. exact Hy.
Qed.



(** ** Lookups by module code and semester number *)

Lemma head_filter_None {A : Type} (P : A -> Prop) `{forall x, Decision (P x)}
    (xs : list A) :
  (forall x, x ∈ xs -> ~ P x) -> head (filter P xs) = None.
Proof.
  induction xs as [|x xs IH]; intros Hall; [reflexivity|].
  rewrite filter_cons, decide_False by (apply Hall; left).
  apply IH. intros y Hy. apply Hall. right. exact Hy.
Qed.

Lemma head_filter_Some {A : Type} (P : A -> Prop) `{forall x, Decision (P x)}
    (xs : list A) (x : A) :
  head (filter P xs) = Some x -> x ∈ xs /\ P x.
Proof.
  intros Hx. assert (Hin : x ∈ filter P xs).
  { destruct (filter P xs) as [|y ys]; [discriminate|]. injection Hx as ->. left. }
  apply list_elem_of_filter in Hin. tauto.
Qed.

Lemma filter_all {A : Type} (P : A -> Prop) `{forall x, Decision (P x)} (xs : list A) :
  (forall x, x ∈ xs -> P x) -> filter P xs = xs.
Proof.
  induction xs as [|x xs IH]; intros Hall; [reflexivity|].
  rewrite filter_cons, decide_True by (apply Hall; left).
  f_equal. apply IH. intros y Hy. apply Hall. right. exact Hy.
Qed.

Lemma select_modul_missing (k : string) (db : Db.Database) :
  k ∉ map Db.mod_kuerzel (Db.modul db) -> Repo.select_modul k db = None.
Proof.
  intros Hk. apply head_filter_None. intros r Hr E. apply Hk.
  rewrite <- E. apply list_elem_of_fmap. eauto.
Qed.



(** ** Enrollments *)

Lemma count_key_absent (key : Z * Z * string) (rows : list Db.belegung_row) :
  key ∉ map Repo.bel_key rows ->
  length (filter (fun r => Repo.bel_key r = key) rows) = 0%nat.
Proof.
  intros Hk. induction rows as [|r rows IH]; [reflexivity|].
  simpl in Hk. apply not_elem_of_cons in Hk as [Hr Hk].
  rewrite filter_cons, decide_False by congruence. apply IH, Hk.
Qed.

Lemma count_key_unique (key : Z * Z * string) (rows : list Db.belegung_row) :
  NoDup (map Repo.bel_key rows) -> key ∈ map Repo.bel_key rows ->
  length (filter (fun r => Repo.bel_key r = key) rows) = 1%nat.
Proof.
  induction rows as [|r rows IH]; intros Hnd Hin; [inversion Hin|].
  simpl in Hnd. apply NoDup_cons in Hnd as [Hr Hnd].
  rewrite filter_cons. destruct (decide (Repo.bel_key r = key)) as [E|E]; simpl.
  - rewrite count_key_absent; [reflexivity|]. rewrite <- E. exact Hr.
  - apply IH; [exact Hnd|]. simpl in Hin. apply elem_of_cons in Hin as [Hin|Hin];
      [congruence | exact Hin].
Qed.

Lemma create_belegung_stored (db : Db.Database) (nr : Z) (kuerzel art kommentar : string)
    (s : Db.semester_row) (m : Db.modul_row) :
  Repo.select_semester_join nr db = Some s ->
  Repo.select_modul kuerzel db = Some m ->
  (Db.sem_id s, Db.mod_id m, art) ∈ map Repo.bel_key (Db.belegung db) ->
  Repo.create_belegung nr kuerzel art kommentar db = Ok db.
Proof.
  intros Hs Hm Hin. unfold Repo.create_belegung. rewrite Hs, Hm. simpl.
  unfold Repo.insert_or_ignore_belegung.
  destruct (negb (Db.check_art art)); [reflexivity|].
  rewrite bool_decide_eq_true_2 by exact Hin. reflexivity.
Qed.

(** C6.  In a stored state that satisfies the uniqueness constraint of
    Enrollments, [create_belegung] for a (semester, module, kind) that is
    already stored returns normally and leaves the state unchanged, with
    exactly one row of that triple; and of two successive inserts of the
    same triple the second changes nothing. *)
Theorem create_belegung_duplicate_noop (db : Db.Database) (nr : Z) (kuerzel art : string)
    (s : Db.semester_row) (m : Db.modul_row) :
  unique_belegung db ->
  Repo.select_semester_join nr db = Some s ->
  Repo.select_modul kuerzel db = Some m ->
  ((Db.sem_id s, Db.mod_id m, art) ∈ map Repo.bel_key (Db.belegung db) ->
   forall kommentar,
     Repo.create_belegung nr kuerzel art kommentar db = Ok db
     /\ count_belegung (Db.sem_id s, Db.mod_id m, art) db = 1%nat)
  /\ (Db.check_art art = true ->
      forall kommentar kommentar',
      exists db1,
        Repo.create_belegung nr kuerzel art kommentar db = Ok db1
        /\ Repo.create_belegung nr kuerzel art kommentar' db1 = Ok db1
        /\ count_belegung (Db.sem_id s, Db.mod_id m, art) db1 = 1%nat).
Proof.
  intros Hu Hs Hm.
  assert (Hdup : (Db.sem_id s, Db.mod_id m, art) ∈ map Repo.bel_key (Db.belegung db) ->
                 forall kommentar,
                   Repo.create_belegung nr kuerzel art kommentar db = Ok db
                   /\ count_belegung (Db.sem_id s, Db.mod_id m, art) db = 1%nat).
  { intros Hin kommentar. split.
    - apply (create_belegung_stored db nr kuerzel art kommentar s m); assumption.
    - apply count_key_unique; assumption. }
  split; [exact Hdup|].
  intros Hc kommentar kommentar'.
  destruct (decide ((Db.sem_id s, Db.mod_id m, art) ∈ map Repo.bel_key (Db.belegung db)))
    as [Hin|Hin].
  { exists db. destruct (Hdup Hin kommentar) as [H1 H2].
    destruct (Hdup Hin kommentar') as [H3 _]. auto. }
  assert (Hfk : Db.sem_id s ∈ map Db.sem_id (Db.semester db)
                /\ Db.mod_id m ∈ map Db.mod_id (Db.modul db)).
  { apply head_filter_Some in Hs as [Hs _]. apply head_filter_Some in Hm as [Hm _].
    split; apply list_elem_of_fmap; eauto. }
  eexists. split; [|split].
  - unfold Repo.create_belegung. rewrite Hs, Hm. simpl.
    unfold Repo.insert_or_ignore_belegung. rewrite Hc. simpl.
    rewrite bool_decide_eq_false_2 by exact Hin.
    rewrite bool_decide_eq_true_2 by exact Hfk. reflexivity.
  - apply (create_belegung_stored _ nr kuerzel art kommentar' s m).
    + exact Hs.
    + exact Hm.
    + simpl. rewrite map_app. apply elem_of_app. right. simpl. left.
  - unfold count_belegung. simpl. rewrite filter_app, length_app.
    rewrite count_key_absent by exact Hin.
    rewrite filter_cons, decide_True by reflexivity. reflexivity.
Qed.

(** ** Graph construction: ORDER BY *)

Section OrderBy.
Context {A : Type} (le : A -> A -> bool).

Lemma insert_sorted_perm (x : A) (l : list A) : Repo.insert_sorted le x l ≡ₚ x :: l.
Proof.
  induction l as [|y l IH]; simpl; [reflexivity|].
  destruct (le x y); [reflexivity|].
  rewrite IH. apply Permutation_swap.
Qed.

Lemma order_by_perm (rows : list A) : Repo.order_by le rows ≡ₚ rows.
Proof.
  induction rows as [|x rows IH]; simpl; [reflexivity|].
  rewrite insert_sorted_perm, IH. reflexivity.
Qed.

Lemma elem_of_order_by (rows : list A) (x : A) : x ∈ Repo.order_by le rows <-> x ∈ rows.
Proof. rewrite order_by_perm. reflexivity. Qed.

End OrderBy.

Lemma insert_sorted_attempt (x : Db.pruefungsleistung_row) (l : list Db.pruefungsleistung_row) :
  StronglySorted attempt_then_insertion l ->
  (forall y, y ∈ l -> Db.pl_id x < Db.pl_id y) ->
  StronglySorted attempt_then_insertion (Repo.insert_sorted Repo.by_versuch_nr x l).
Proof.
  induction l as [|y l IH]; intros Hs Hid; simpl.
  - repeat constructor.
  - apply StronglySorted_inv in Hs as [Hs Hy].
    unfold Repo.by_versuch_nr at 1.
    destruct (Z.leb_spec (Db.pl_versuch_nr x) (Db.pl_versuch_nr y)) as [L|L].
    + constructor; [constructor; assumption|].
      apply Forall_forall. intros z Hz.
      assert (Db.pl_id x < Db.pl_id z) by (apply Hid, Hz).
      apply elem_of_cons in Hz as [->|Hz]; [unfold attempt_then_insertion; lia|].
      rewrite Forall_forall in Hy. specialize (Hy z Hz).
      unfold attempt_then_insertion in *. lia.
    + constructor.
      * apply IH; [exact Hs|]. intros z Hz. apply Hid. right. exact Hz.
      * apply Forall_forall. intros z Hz.
        rewrite insert_sorted_perm in Hz.
        apply elem_of_cons in Hz as [->|Hz]; [left; lia|].
        rewrite Forall_forall in Hy. apply Hy, Hz.
Qed.

Lemma order_by_attempt (rows : list Db.pruefungsleistung_row) :
  rowid_order Db.pl_id rows ->
  StronglySorted attempt_then_insertion (Repo.order_by Repo.by_versuch_nr rows).
Proof.
  unfold rowid_order. induction rows as [|x rows IH]; intros Hs; simpl; [constructor|].
  apply StronglySorted_inv in Hs as [Hs Hx].
  apply insert_sorted_attempt; [apply IH, Hs|].
  intros y Hy. apply elem_of_order_by in Hy.
  rewrite Forall_forall in Hx. apply Hx, Hy.
Qed.

Lemma StronglySorted_filter {A : Type} (R : A -> A -> Prop) (P : A -> Prop)
    `{forall x, Decision (P x)} (l : list A) :
  StronglySorted R l -> StronglySorted R (filter P l).
Proof.
  induction l as [|x l IH]; intros Hs; [constructor|].
  apply StronglySorted_inv in Hs as [Hs Hx].
  rewrite filter_cons. destruct (decide (P x)); [|apply IH, Hs].
  constructor; [apply IH, Hs|].
  rewrite Forall_forall in *. intros y Hy. apply Hx.
  apply list_elem_of_filter in Hy. tauto.
Qed.

(** ** Loops of [load_domain] *)

Lemma for_each_app {A S : Type} (body : S -> A -> result S) (xs ys : list A) (s : S) :
  for_each body (xs ++ ys) s = (s' ← for_each body xs s; for_each body ys s').
Proof.
  revert s. induction xs as [|x xs IH]; intros s; simpl; [reflexivity|].
  destruct (body s x) as [s1|e]; simpl; [apply IH | reflexivity].
Qed.

Lemma for_each_total {A S : Type} (body : S -> A -> result S) (xs : list A) (s : S) :
  (forall s x, x ∈ xs -> exists s', body s x = Ok s') ->
  exists s', for_each body xs s = Ok s'.
Proof.
  revert s. induction xs as [|x xs IH]; intros s Hall; simpl; [eauto|].
  destruct (Hall s x ltac:(left)) as [s1 ->]. simpl.
  apply IH. intros s2 y Hy. apply Hall. right. exact Hy.
Qed.

Lemma getitem_Ok {A : Type} (d : gmap Z A) (k : Z) (v : A) :
  getitem d k = Ok v <-> d !! k = Some v.
Proof.
  unfold getitem. destruct (d !! k); split; intros H; congruence.
Qed.

Lemma load_module_loaded (rows : list Db.modul_row) (st : list Modul.t * gmap Z Repo.addr) :
  Repo.load_module rows = Ok st -> module_loaded rows st.
Proof.
  unfold Repo.load_module. revert st.
  induction rows as [|r rows IH] using rev_ind; intros st.
  - simpl. intros [= <-]. repeat split; simpl.
    + intros i r Hr. rewrite lookup_nil in Hr. discriminate.
    + intros r Hr. inversion Hr.
    + rewrite lookup_empty. discriminate.
    + intros (r & Hr & _). rewrite lookup_nil in Hr. discriminate.
  - rewrite for_each_app.
    destruct (for_each _ rows ([], ∅)) as [[mods mod_map]|e] eqn:E; simpl; [|discriminate].
    destruct (IH _ eq_refl) as (Hlen & Hmods & Hdom & Hmap). simpl in *.
    destruct (Pruefungsform_.by_name (Db.mod_pruefungsform r)) as [pf|e] eqn:Epf; simpl;
      [|discriminate].
    intros [= <-]. repeat split; simpl.
    + rewrite !length_app, Hlen. reflexivity.
    + intros i r' Hr'. apply lookup_app_Some in Hr' as [Hr'|[Hi Hr']].
      * destruct (Hmods i r' Hr') as (pf' & Hpf' & Hm). exists pf'. split; [exact Hpf'|].
        apply lookup_app_l_Some, Hm.
      * apply list_lookup_singleton_Some in Hr' as [Hi' <-].
        exists pf. split; [exact Epf|].
        assert (i = length mods) as -> by lia.
        rewrite lookup_app_r, Nat.sub_diag by lia. reflexivity.
    + intros r' Hr'. apply elem_of_app in Hr' as [Hr'|Hr'].
      * destruct (decide (Db.mod_id r = Db.mod_id r')) as [->|Hne].
        -- rewrite lookup_insert_eq. eauto.
        -- rewrite lookup_insert_ne by exact Hne. apply Hdom, Hr'.
      * apply list_elem_of_singleton in Hr' as ->. rewrite lookup_insert_eq. eauto.
    + rewrite map_app in H. apply NoDup_app in H as (Hnd & Hfresh & _).
      specialize (Hmap Hnd).
      destruct (decide (Db.mod_id r = k)) as [<-|Hne].
      * rewrite lookup_insert_eq. intros [= <-]. exists r. split; [|reflexivity].
        rewrite lookup_app_r, Hlen, Nat.sub_diag by lia. reflexivity.
      * rewrite lookup_insert_ne by exact Hne. intros Hk.
        apply Hmap in Hk as (r' & Hr' & Hk). exists r'. split; [|exact Hk].
        apply lookup_app_l_Some, Hr'.
    + rewrite map_app in H. apply NoDup_app in H as (Hnd & Hfresh & _).
      specialize (Hmap Hnd).
      intros (r' & Hr' & Hk). apply lookup_app_Some in Hr' as [Hr'|[Hi Hr']].
      * assert (Db.mod_id r <> k).
        { intros Heq. apply (Hfresh k).
          - rewrite <- Hk. apply list_elem_of_fmap_2. eapply list_elem_of_lookup_2, Hr'.
          - rewrite <- Heq. simpl. left. }
        rewrite lookup_insert_ne by assumption. apply Hmap. eauto.
      * apply list_lookup_singleton_Some in Hr' as [Hi' <-]. subst k.
        rewrite lookup_insert_eq. f_equal. lia.
Qed.

Lemma load_pruefungsleistung_attached (mod_map : gmap Z Repo.addr)
    (rows : list Db.pruefungsleistung_row) (mods mods' : list Modul.t) :
  Repo.load_pruefungsleistung mod_map rows mods = Ok mods' ->
  length mods' = length mods
  /\ forall a m0, mods !! a = Some m0 ->
       mods' !! a
       = Some (Modul.mk (Modul.name m0) (Modul.kuerzel m0) (Modul.ects m0)
                 (Modul.pruefungsform m0)
                 (Modul.leistungen m0
                  ++ map Repo.pl_of_row
                       (filter (fun r => mod_map !! Db.pl_modul_id r = Some a) rows))).
Proof.
  unfold Repo.load_pruefungsleistung. revert mods.
  induction rows as [|r rows IH]; intros mods; simpl.
  - intros [= <-]. split; [reflexivity|]. intros a m0 Hm.
    simpl. rewrite app_nil_r, Hm. destruct m0; reflexivity.
  - destruct (getitem mod_map (Db.pl_modul_id r)) as [a'|e] eqn:G; simpl; [|discriminate].
    apply getitem_Ok in G. intros Hrest.
    destruct (IH _ Hrest) as [Hlen Hat]. split.
    + rewrite Hlen. apply length_alter.
    + intros a m0 Hm. rewrite filter_cons.
      destruct (decide (a = a')) as [->|Hne].
      * rewrite decide_True by exact G.
        rewrite (Hat a' (Modul.add_pruefungsleistung (Repo.pl_of_row r) m0)).
        -- simpl. rewrite <- app_assoc. reflexivity.
        -- rewrite list_lookup_alter_eq, Hm. reflexivity.
      * rewrite decide_False by congruence.
        apply Hat. rewrite list_lookup_alter_ne by congruence. exact Hm.
Qed.

Lemma NoDup_fmap_filter {A B : Type} (f : A -> B) (P : A -> Prop)
    `{forall x, Decision (P x)} (l : list A) :
  NoDup (map f l) -> NoDup (map f (filter P l)).
Proof.
  induction l as [|x l IH]; intros Hnd; [constructor|].
  simpl in Hnd. apply NoDup_cons in Hnd as [Hx Hnd].
  rewrite filter_cons. destruct (decide (P x)); [|apply IH, Hnd].
  simpl. apply NoDup_cons. split; [|apply IH, Hnd].
  intros Hin. apply Hx. apply list_elem_of_fmap in Hin as (y & -> & Hy).
  apply list_elem_of_fmap_2. apply list_elem_of_filter in Hy. tauto.
Qed.

Lemma load_semester_dom (rows : list Db.semester_row) (r : Db.semester_row) :
  r ∈ rows -> is_Some ((Repo.load_semester rows).2 !! Db.sem_id r).
Proof.
  unfold Repo.load_semester.
  induction rows as [|x rows IH] using rev_ind; intros Hr; [inversion Hr|].
  rewrite fold_left_app. simpl.
  destruct (fold_left _ rows ([], ∅)) as [sems sem_map]. simpl in *.
  destruct (decide (Db.sem_id x = Db.sem_id r)) as [->|Hne].
  - rewrite lookup_insert_eq. eauto.
  - rewrite lookup_insert_ne by exact Hne.
    apply elem_of_app in Hr as [Hr|Hr]; [apply IH, Hr|].
    apply list_elem_of_singleton in Hr. congruence.
Qed.

Lemma getitem_is_Some {A : Type} (d : gmap Z A) (k : Z) :
  is_Some (d !! k) -> exists v, getitem d k = Ok v.
Proof. intros [v Hv]. exists v. apply getitem_Ok, Hv. Qed.

Lemma load_domain_total (db : Db.Database) :
  integrity db -> exists sg, Repo.load_domain db = Ok sg.
Proof.
  intros (sg_row & Hsg & Hpf & Hbel & Hpl).
  unfold Repo.load_domain. rewrite Hsg. simpl.
  pose proof (load_semester_dom
    (Repo.order_by Repo.by_nr
       (filter (fun r => Db.sem_studiengang_id r = Db.sg_id sg_row) (Db.semester db))))
    as Hsem.
  destruct (Repo.load_semester _) as [sems sem_map]. simpl in Hsem.
  assert (exists st,
            Repo.load_module
              (filter (fun r => Db.mod_studiengang_id r = Db.sg_id sg_row) (Db.modul db))
            = Ok st) as [[mods mod_map] Hmods].
  { unfold Repo.load_module. apply for_each_total.
    intros [mods mod_map] r Hr. apply list_elem_of_filter in Hr as [Hr1 Hr2].
    destruct (Hpf r Hr2 Hr1) as [pf ->]. simpl. eauto. }
  rewrite Hmods. simpl.
  destruct (load_module_loaded _ _ Hmods) as (_ & _ & Hdom & _). simpl in Hdom.
  assert (Hmod : forall k, (exists m, m ∈ Db.modul db
                              /\ Db.mod_studiengang_id m = Db.sg_id sg_row
                              /\ Db.mod_id m = k) ->
                 exists a, getitem mod_map k = Ok a).
  { intros k (m & Hm1 & Hm2 & <-). apply getitem_is_Some, Hdom.
    apply list_elem_of_filter. split; assumption. }
  assert (exists sems',
            Repo.load_belegung sem_map mod_map (Db.belegung db) sems = Ok sems')
    as [sems' Hsems].
  { unfold Repo.load_belegung. apply for_each_total.
    intros s b Hb. destruct (Hbel b Hb) as [(x & Hx1 & Hx2 & Hx3) Hm].
    destruct (getitem_is_Some sem_map (Db.bel_semester_id b)) as [a ->].
    { rewrite <- Hx3. apply Hsem. apply elem_of_order_by.
      apply list_elem_of_filter. split; assumption. }
    destruct (Hmod _ Hm) as [a' ->]. simpl. eauto. }
  rewrite Hsems. simpl.
  assert (exists mods',
            Repo.load_pruefungsleistung mod_map
              (Repo.order_by Repo.by_versuch_nr (Db.pruefungsleistung db)) mods
            = Ok mods') as [mods' Hmods'].
  { unfold Repo.load_pruefungsleistung. apply for_each_total.
    intros s p Hp. apply elem_of_order_by in Hp.
    destruct (Hmod _ (Hpl p Hp)) as [a ->]. simpl. eauto. }
  rewrite Hmods'. simpl. eauto.
Qed.

Lemma load_domain_attached (db : Db.Database) (sg : Studiengang.t) :
  rowid_order Db.pl_id (Db.pruefungsleistung db) ->
  unique_modul_id db ->
  Repo.load_domain db = Ok sg ->
  length (Studiengang.module sg) = length (owned_module db)
  /\ forall i mr, owned_module db !! i = Some mr ->
       exists m rows,
         Studiengang.module sg !! i = Some m
         /\ Modul.kuerzel m = Db.mod_kuerzel mr
         /\ Modul.leistungen m = map Repo.pl_of_row rows
         /\ rows ≡ₚ filter (fun r => Db.pl_modul_id r = Db.mod_id mr)
                           (Db.pruefungsleistung db)
         /\ StronglySorted attempt_then_insertion rows.
Proof.
  intros Hrow Huniq. unfold Repo.load_domain, owned_module.
  destruct (head (Db.studiengang db)) as [sg_row|]; simpl; [|discriminate].
  destruct (Repo.load_semester _) as [sems sem_map].
  destruct (Repo.load_module _) as [[mods mod_map]|] eqn:Hmods; simpl; [|discriminate].
  destruct (Repo.load_belegung _ _ _ _) as [sems'|]; simpl; [|discriminate].
  destruct (Repo.load_pruefungsleistung _ _ _) as [mods'|] eqn:Hmods'; simpl;
    [|discriminate].
  intros [= <-]. simpl.
  destruct (load_module_loaded _ _ Hmods) as (Hlen & Hinit & _ & Hmap). simpl in *.
  specialize (Hmap (NoDup_fmap_filter _ _ _ Huniq)).
  destruct (load_pruefungsleistung_attached _ _ _ _ Hmods') as [Hlen' Hat].
  split; [congruence|].
  intros i mr Hmr. destruct (Hinit i mr Hmr) as (pf & _ & Hm).
  eexists _, _. split; [apply Hat, Hm|]. simpl.
  split; [reflexivity|]. split; [reflexivity|]. split.
  - rewrite (order_by_perm Repo.by_versuch_nr (Db.pruefungsleistung db)).
    erewrite list_filter_iff; [reflexivity|].
    intros p. rewrite Hmap. split.
    + intros (r & Hr & Hk). congruence.
    + intros Hk. eauto.
  - apply StronglySorted_filter, order_by_attempt, Hrow.
Qed.

(** C9.  On a stored state whose referential integrity holds, graph
    construction returns a Program.  Whenever it returns one, the list of
    each Module holds exactly the stored ExamResults of that Module, ordered
    by attempt number first and by insertion order among equal attempt
    numbers. *)
Theorem load_domain_leistungen_ordered (db : Db.Database) :
  rowid_order Db.pl_id (Db.pruefungsleistung db) ->
  unique_modul_id db ->
  (integrity db -> exists sg, Repo.load_domain db = Ok sg)
  /\ (forall sg, Repo.load_domain db = Ok sg ->
        length (Studiengang.module sg) = length (owned_module db)
        /\ forall i mr, owned_module db !! i = Some mr ->
             exists m rows,
               Studiengang.module sg !! i = Some m
               /\ Modul.kuerzel m = Db.mod_kuerzel mr
               /\ Modul.leistungen m = map Repo.pl_of_row rows
               /\ rows ≡ₚ filter (fun r => Db.pl_modul_id r = Db.mod_id mr)
                                 (Db.pruefungsleistung db)
               /\ StronglySorted attempt_then_insertion rows).
Proof.
  intros Hrow Huniq. split.
  - apply load_domain_total.
  - intros sg Hsg. apply load_domain_attached; assumption.
Qed.

(** ** The claims at concrete inputs *)



Lemma modul_status_cases_witness :
  Modul.durchschnitt Example.alg1_ungraded = None
  /\ Modul.status Example.alg1_ungraded = "laufend".
Proof.
  apply (proj2 (proj2 (proj2 (modul_status_cases Example.alg1_ungraded)))).
  - discriminate.
  - intros p Hp. apply list_elem_of_singleton in Hp. rewrite Hp. reflexivity.
Defined.





Lemma not_passed_alg1_ungraded : ~ passed Example.alg1_ungraded.
Proof. intros (d & Hd & _). discriminate Hd. Qed.

Lemma passed_alg1 : passed Example.alg1.
Proof. exists (170 # 100)%Q. split; [reflexivity|]. unfold Qle. simpl. lia. Qed.

Lemma studiengang_credits_and_progress_witness :
  exists q q', Studiengang.fortschritt Example.sg_before = Ok q
               /\ Studiengang.fortschritt Example.sg_after = Ok q'
               /\ (q <= q')%Q.
Proof.
  apply (proj2 (proj2 (proj2 (proj2 (studiengang_credits_and_progress Example.sg_before))))
           Example.sg_after [Example.mod_A] Example.alg1_ungraded Example.alg1
           [Example.mod_B]).
  - reflexivity.
  - reflexivity.
  - reflexivity.
  - reflexivity.
  - exact not_passed_alg1_ungraded.
  - exact passed_alg1.
  - simpl. lia.
  - simpl. lia.
Defined.

Lemma create_belegung_duplicate_noop_witness :
  Repo.create_belegung 2 "ALG1" "aktuell" "noch einmal" Example.db_alg1
  = Ok Example.db_alg1
  /\ count_belegung (2, 1, "aktuell") Example.db_alg1 = 1%nat.
Proof.
  apply (proj1 (create_belegung_duplicate_noop Example.db_alg1 2 "ALG1" "aktuell"
                  (Db.mk_semester 2 2 "Semester 2" 1)
                  (Db.mk_modul 1 "Algorithms" "ALG1" 5 "KLAUSUR" 1)
                  ltac:(unfold unique_belegung; compute_done)
                  ltac:(reflexivity) ltac:(reflexivity))).
  compute_done.
Defined.



Lemma init_if_needed_idempotent_witness :
  Db.init_if_needed (Some Example.db_alg1) = Ok Example.db_alg1.
Proof.
  apply (proj1 init_if_needed_idempotent Example.db_alg1). discriminate.
Defined.

Lemma rowid_order_db_alg1 : rowid_order Db.pl_id (Db.pruefungsleistung Example.db_alg1).
Proof.
  unfold rowid_order. simpl.
  repeat (constructor; [|repeat (constructor; [simpl; lia|]); constructor]).
  constructor.
Qed.

Lemma load_domain_leistungen_ordered_witness :
  (integrity Example.db_alg1 -> exists sg, Repo.load_domain Example.db_alg1 = Ok sg)
  /\ (forall sg, Repo.load_domain Example.db_alg1 = Ok sg ->
        length (Studiengang.module sg) = length (owned_module Example.db_alg1)
        /\ forall i mr, owned_module Example.db_alg1 !! i = Some mr ->
             exists m rows,
               Studiengang.module sg !! i = Some m
               /\ Modul.kuerzel m = Db.mod_kuerzel mr
               /\ Modul.leistungen m = map Repo.pl_of_row rows
               /\ rows ≡ₚ filter (fun r => Db.pl_modul_id r = Db.mod_id mr)
                                 (Db.pruefungsleistung Example.db_alg1)
               /\ StronglySorted attempt_then_insertion rows).
Proof.
  apply (load_domain_leistungen_ordered Example.db_alg1).
  - exact rowid_order_db_alg1.
  - unfold unique_modul_id. compute_done.
Defined.


(** ** End-to-end runs *)

(** First start, creation of "Algorithms" and of one ExamResult graded 1.7,
    then loading the graph: the average is 1.70 and the status
    "abgeschlossen". *)
Example end_to_end_alg1 :
  (db ← Db.init_if_needed None;
   db ← Repo.create_modul "Algorithms" "ALG1" 5 KLAUSUR db;
   db ← Repo.create_pruefungsleistung "ALG1" "Klausur" None (Some (17 # 10)%Q) 1 db;
   sg ← Repo.load_domain db;
   Ok (map (fun m => (Modul.durchschnitt m, Modul.status m)) (Studiengang.module sg)))
  = Ok [(Some (170 # 100)%Q, "abgeschlossen")].
Proof. reflexivity. Qed.

(** ALG1 planned in semester 1 and current in semester 2: semester 1 has 5
    planned and no earned credits, semester 2 has 5 earned credits. *)
Example end_to_end_belegung :
  (db ← Db.init_if_needed None;
   db ← Repo.create_modul "Algorithms" "ALG1" 5 KLAUSUR db;
   db ← Repo.create_pruefungsleistung "ALG1" "Klausur" None (Some (17 # 10)%Q) 1 db;
   db ← Repo.create_belegung 1 "ALG1" "geplant" "" db;
   db ← Repo.create_belegung 2 "ALG1" "aktuell" "" db;
   sg ← Repo.load_domain db;
   Ok (map (fun s => (Semester.geplante_ects s, Semester.erreichte_ects s,
                      Semester.fortschritt s))
           (take 2 (Studiengang.semester sg))))
  = Ok [(5, 0, Ok (0 # 5)%Q); (0, 5, Ok (0 # 1)%Q)].
Proof. reflexivity. Qed.

(** The ExamResults of ALG1 in the stored state [db_alg1], as loaded. *)
Example load_domain_db_alg1 :
  (sg ← Repo.load_domain Example.db_alg1;
   Ok (map (fun m => map Pruefungsleistung.bezeichnung (Modul.leistungen m))
           (Studiengang.module sg)))
  = Ok [["Klausur"; "Testat"; "Klausur, zweiter Versuch"; "Nachtrag"]; ["Projekt"]].
Proof. reflexivity. Qed.

(** ** The schema constraints are invariants of the gateway *)

Lemma fold_left_max_le (ids : list Z) (a : Z) :
  a <= fold_left Z.max ids a /\ forall i, i ∈ ids -> i <= fold_left Z.max ids a.
Proof.
  revert a. induction ids as [|j ids IH]; intros a; simpl.
  - split; [lia|]. intros i Hi. inversion Hi.
  - destruct (IH (Z.max a j)) as [Ha Hall]. split; [lia|].
    intros i Hi. apply elem_of_cons in Hi as [->|Hi]; [lia | apply Hall, Hi].
Qed.

Lemma next_rowid_fresh (ids : list Z) (i : Z) : i ∈ ids -> i < Db.next_rowid ids.
Proof.
  destruct ids as [|j ids]; intros Hi; [inversion Hi|]. simpl.
  destruct (fold_left_max_le ids j) as [Hj Hall].
  apply elem_of_cons in Hi as [->|Hi]; [lia|]. specialize (Hall i Hi). lia.
Qed.

Section RowidOrder.
Context {A : Type} (id : A -> Z).

Lemma rowid_order_snoc (rows : list A) (x : A) :
  rowid_order id rows -> id x = Db.next_rowid (map id rows) ->
  rowid_order id (rows ++ [x]).
Proof.
  unfold rowid_order. intros Hs Hx.
  assert (Hfresh : forall r, r ∈ rows -> id r < id x).
  { intros r Hr. rewrite Hx. apply next_rowid_fresh, list_elem_of_fmap_2, Hr. }
  clear Hx. induction rows as [|r rows IH]; simpl.
  - repeat constructor.
  - apply StronglySorted_inv in Hs as [Hs Hr]. constructor.
    + apply IH; [exact Hs|]. intros y Hy. apply Hfresh. right. exact Hy.
    + apply Forall_app. split; [exact Hr|].
      constructor; [apply Hfresh; left | constructor].
Qed.

Lemma rowid_order_map (f : A -> A) (rows : list A) :
  (forall r, id (f r) = id r) -> rowid_order id rows -> rowid_order id (map f rows).
Proof.
  unfold rowid_order. intros Hf. induction rows as [|r rows IH]; intros Hs; simpl;
    [constructor|].
  apply StronglySorted_inv in Hs as [Hs Hr]. constructor; [apply IH, Hs|].
  rewrite Forall_forall in *. intros y Hy.
  apply list_elem_of_fmap in Hy as (z & -> & Hz). rewrite !Hf. apply Hr, Hz.
Qed.

Lemma rowid_order_NoDup (rows : list A) : rowid_order id rows -> NoDup (map id rows).
Proof.
  unfold rowid_order. induction rows as [|r rows IH]; intros Hs; simpl; [constructor|].
  apply StronglySorted_inv in Hs as [Hs Hr]. apply NoDup_cons. split; [|apply IH, Hs].
  intros Hin. apply list_elem_of_fmap in Hin as (y & Hy & Hin).
  rewrite Forall_forall in Hr. specialize (Hr y Hin). lia.
Qed.

End RowidOrder.

Lemma by_name_name (pf : Pruefungsform) :
  Pruefungsform_.by_name (Pruefungsform_.name pf) = Ok pf.
Proof. destruct pf; reflexivity. Qed.

Lemma map_map_same {A B : Type} (f : A -> A) (g : A -> B) (rows : list A) :
  (forall r, g (f r) = g r) -> map g (map f rows) = map g rows.
Proof.
  intros H. rewrite map_map. apply map_ext. exact H.
Qed.

Lemma consistent_default : consistent default_database.
Proof.
  exists (Db.mk_studiengang 1 "Bachelor Cybersecurity" 180 8).
  split; [reflexivity|].
  split.
  { intros s Hs. simpl in Hs.
    repeat (apply elem_of_cons in Hs as [->|Hs]; [reflexivity|]). inversion Hs. }
  split. { intros m Hm. inversion Hm. }
  split; [constructor|]. split; [constructor|]. split; [constructor|].
  split; intros x Hx; inversion Hx.
Qed.

Lemma consistent_create_modul (db db' : Db.Database) name kuerzel ects pruefungsform :
  consistent db ->
  Repo.create_modul name kuerzel ects pruefungsform db = Ok db' -> consistent db'.
Proof.
  intros (sg & Hsg & Hsem & Hmod & Hmo & Hpo & Hu & Hbel & Hpl).
  unfold Repo.create_modul, Repo.insert_modul. rewrite Hsg. simpl.
  destruct (bool_decide _); [|discriminate]. intros [= <-].
  exists sg. simpl. split; [exact Hsg|]. split; [exact Hsem|].
  split.
  { intros m Hm. apply elem_of_app in Hm as [Hm|Hm]; [apply Hmod, Hm|].
    apply list_elem_of_singleton in Hm as ->. simpl.
    split; [reflexivity|]. eexists. apply by_name_name. }
  split; [apply rowid_order_snoc; [exact Hmo | reflexivity]|].
  split; [exact Hpo|]. split; [exact Hu|].
  split.
  { intros b Hb. destruct (Hbel b Hb) as (H1 & H2 & H3).
    split; [exact H1|]. split; [exact H2|].
    rewrite map_app. apply elem_of_app. left. exact H3. }
  intros p Hp. rewrite map_app. apply elem_of_app. left. apply Hpl, Hp.
Qed.

Lemma consistent_create_pruefungsleistung (db db' : Db.Database)
    kuerzel bezeichnung datum note versuch_nr :
  consistent db ->
  Repo.create_pruefungsleistung kuerzel bezeichnung datum note versuch_nr db = Ok db' ->
  consistent db'.
Proof.
  intros (sg & Hsg & Hsem & Hmod & Hmo & Hpo & Hu & Hbel & Hpl).
  unfold Repo.create_pruefungsleistung, Repo.insert_pruefungsleistung.
  destruct (Repo.select_modul kuerzel db) as [m|]; simpl; [|discriminate].
  destruct (bool_decide _) eqn:Hfk; [|discriminate]. intros [= <-].
  apply bool_decide_eq_true in Hfk.
  exists sg. simpl. repeat (split; [assumption|]).
  split; [apply rowid_order_snoc; [exact Hpo | reflexivity]|].
  split; [exact Hu|]. split; [exact Hbel|].
  intros p Hp. apply elem_of_app in Hp as [Hp|Hp]; [apply Hpl, Hp|].
  apply list_elem_of_singleton in Hp as ->. exact Hfk.
Qed.

Lemma consistent_create_belegung (db db' : Db.Database) nr kuerzel art kommentar :
  consistent db ->
  Repo.create_belegung nr kuerzel art kommentar db = Ok db' -> consistent db'.
Proof.
  intros Hc. pose proof Hc as (sg & Hsg & Hsem & Hmod & Hmo & Hpo & Hu & Hbel & Hpl).
  unfold Repo.create_belegung, Repo.insert_or_ignore_belegung.
  destruct (Repo.select_semester_join nr db) as [s|]; simpl; [|discriminate].
  destruct (Repo.select_modul kuerzel db) as [m|]; simpl; [|discriminate].
  destruct (Db.check_art art) eqn:Hart; simpl; [|intros [= <-]; exact Hc].
  destruct (bool_decide _) eqn:Hdup; [intros [= <-]; exact Hc|].
  apply bool_decide_eq_false in Hdup.
  destruct (bool_decide _) eqn:Hfk; [|discriminate]. intros [= <-].
  apply bool_decide_eq_true in Hfk as [Hfs Hfm].
  exists sg. simpl. repeat (split; [assumption|]).
  split.
  { unfold unique_belegung. simpl. rewrite map_app. apply NoDup_app.
    split; [exact Hu|]. split; [|apply NoDup_singleton].
    intros k Hk Hk'. apply list_elem_of_singleton in Hk'. subst k. exact (Hdup Hk). }
  split; [|exact Hpl].
  intros b Hb. apply elem_of_app in Hb as [Hb|Hb]; [apply Hbel, Hb|].
  apply list_elem_of_singleton in Hb as ->. simpl. auto.
Qed.

Lemma consistent_update_modul (db db' : Db.Database)
    kuerzel name new_kuerzel ects pruefungsform :
  consistent db ->
  Repo.update_modul kuerzel name new_kuerzel ects pruefungsform db = Ok db' ->
  consistent db'.
Proof.
  intros Hc. pose proof Hc as (sg & Hsg & Hsem & Hmod & Hmo & Hpo & Hu & Hbel & Hpl).
  unfold Repo.update_modul.
  destruct (Repo._get_modul_id kuerzel db) as [id|]; simpl; [|discriminate].
  set (upd := fun r : Db.modul_row =>
    if bool_decide (Db.mod_id r = id)
    then Db.mk_modul (Db.mod_id r)
           (Repo.set_if_not_None name (Db.mod_name r))
           (Repo.set_if_not_None new_kuerzel (Db.mod_kuerzel r))
           (Repo.set_if_not_None ects (Db.mod_ects r))
           (Repo.set_if_not_None (Pruefungsform_.name <$> pruefungsform)
                                 (Db.mod_pruefungsform r))
           (Db.mod_studiengang_id r)
    else r).
  assert (Hid : forall r, Db.mod_id (upd r) = Db.mod_id r)
    by (intros r; unfold upd; destruct (bool_decide _); reflexivity).
  assert (Hgoal : consistent (Repo.with_modul (map upd (Db.modul db)) db)).
  { exists sg. simpl. split; [exact Hsg|]. split; [exact Hsem|].
    split.
    { intros m Hm. apply list_elem_of_fmap in Hm as (r & -> & Hr).
      destruct (Hmod r Hr) as [H1 [pf H2]]. unfold upd.
      destruct (bool_decide _); simpl; [|eauto].
      split; [exact H1|]. destruct pruefungsform as [pf'|]; simpl; [|eauto].
      eexists. apply by_name_name. }
    split; [apply rowid_order_map; assumption|].
    split; [exact Hpo|]. split; [exact Hu|].
    rewrite (map_map_same upd Db.mod_id) by exact Hid. split; assumption. }
  destruct name, new_kuerzel, ects, pruefungsform; intros [= <-];
    first [exact Hgoal | exact Hc].
Qed.

Lemma elem_of_map_filter_ne {A : Type} (f : A -> Z) (g : A -> Z) (rows : list A) (id k : Z) :
  k ∈ map f rows -> k <> id -> (forall r, f r = g r) ->
  k ∈ map f (filter (fun r => g r <> id) rows).
Proof.
  intros Hk Hne Hfg. apply list_elem_of_fmap in Hk as (r & -> & Hr).
  apply list_elem_of_fmap_2. apply list_elem_of_filter. split; [|exact Hr].
  rewrite <- Hfg. exact Hne.
Qed.

Lemma consistent_delete_modul (db db' : Db.Database) kuerzel :
  consistent db -> Repo.delete_modul kuerzel db = Ok db' -> consistent db'.
Proof.
  intros (sg & Hsg & Hsem & Hmod & Hmo & Hpo & Hu & Hbel & Hpl).
  unfold Repo.delete_modul.
  destruct (Repo._get_modul_id kuerzel db) as [id|]; simpl; [|discriminate].
  intros [= <-]. exists sg. simpl. split; [exact Hsg|]. split; [exact Hsem|].
  split. { intros m Hm. apply list_elem_of_filter in Hm as [_ Hm]. apply Hmod, Hm. }
  split; [apply StronglySorted_filter, Hmo|].
  split; [apply StronglySorted_filter, Hpo|].
  split; [apply NoDup_fmap_filter, Hu|].
  split.
  - intros b Hb. apply list_elem_of_filter in Hb as [Hne Hb].
    destruct (Hbel b Hb) as (H1 & H2 & H3). split; [exact H1|]. split; [exact H2|].
    apply (elem_of_map_filter_ne Db.mod_id Db.mod_id); auto.
  - intros p Hp. apply list_elem_of_filter in Hp as [Hne Hp].
    apply (elem_of_map_filter_ne Db.mod_id Db.mod_id); auto.
Qed.

Lemma consistent_update_pruefungsleistung (db db' : Db.Database)
    id bezeichnung datum note versuch_nr :
  consistent db ->
  Repo.update_pruefungsleistung id bezeichnung datum note versuch_nr db = Ok db' ->
  consistent db'.
Proof.
  intros Hc. pose proof Hc as (sg & Hsg & Hsem & Hmod & Hmo & Hpo & Hu & Hbel & Hpl).
  unfold Repo.update_pruefungsleistung.
  set (upd := fun r : Db.pruefungsleistung_row =>
    if bool_decide (Db.pl_id r = id)
    then Db.mk_pruefungsleistung (Db.pl_id r)
           (Repo.set_if_not_None bezeichnung (Db.pl_bezeichnung r))
           (Repo.set_nullable_if_not_None datum (Db.pl_datum r))
           (Repo.set_nullable_if_not_None note (Db.pl_note r))
           (Repo.set_if_not_None versuch_nr (Db.pl_versuch_nr r))
           (Db.pl_modul_id r)
    else r).
  assert (Hid : forall r, Db.pl_id (upd r) = Db.pl_id r)
    by (intros r; unfold upd; destruct (bool_decide _); reflexivity).
  assert (Hmid : forall r, Db.pl_modul_id (upd r) = Db.pl_modul_id r)
    by (intros r; unfold upd; destruct (bool_decide _); reflexivity).
  assert (Hgoal : consistent
            (Repo.with_pruefungsleistung (map upd (Db.pruefungsleistung db)) db)).
  { exists sg. simpl. repeat (split; [assumption|]).
    split; [apply rowid_order_map; assumption|].
    split; [exact Hu|]. split; [exact Hbel|].
    intros p Hp. apply list_elem_of_fmap in Hp as (r & -> & Hr).
    rewrite Hmid. apply Hpl, Hr. }
  destruct bezeichnung, datum, note, versuch_nr; intros [= <-];
    first [exact Hgoal | exact Hc].
Qed.

Lemma consistent_delete_pruefungsleistung (db db' : Db.Database) id :
  consistent db -> Repo.delete_pruefungsleistung id db = Ok db' -> consistent db'.
Proof.
  intros (sg & Hsg & Hsem & Hmod & Hmo & Hpo & Hu & Hbel & Hpl).
  unfold Repo.delete_pruefungsleistung. intros [= <-].
  exists sg. simpl. repeat (split; [assumption|]).
  split; [apply StronglySorted_filter, Hpo|].
  split; [exact Hu|]. split; [exact Hbel|].
  intros p Hp. apply list_elem_of_filter in Hp as [_ Hp]. apply Hpl, Hp.
Qed.

Lemma consistent_delete_belegung (db db' : Db.Database) nr kuerzel art :
  consistent db -> Repo.delete_belegung nr kuerzel art db = Ok db' -> consistent db'.
Proof.
  intros (sg & Hsg & Hsem & Hmod & Hmo & Hpo & Hu & Hbel & Hpl).
  unfold Repo.delete_belegung.
  destruct (Repo.select_semester nr db) as [s|]; simpl; [|discriminate].
  destruct (Repo.select_modul kuerzel db) as [m|]; simpl; [|discriminate].
  intros [= <-]. exists sg. simpl. repeat (split; [assumption|]).
  split; [apply NoDup_fmap_filter, Hu|].
  split; [|exact Hpl].
  intros b Hb. apply list_elem_of_filter in Hb as [_ Hb]. apply Hbel, Hb.
Qed.

Lemma count_key_zero (key : Z * Z * string) (rows : list Db.belegung_row) :
  length (filter (fun r => Repo.bel_key r = key) rows) = 0%nat ->
  key ∉ map Repo.bel_key rows.
Proof.
  induction rows as [|r rows IH]; intros Hc Hin; [inversion Hin|].
  rewrite filter_cons in Hc.
  destruct (decide (Repo.bel_key r = key)) as [E|E]; [discriminate|].
  simpl in Hin. apply elem_of_cons in Hin as [Hin|Hin]; [congruence|].
  exact (IH Hc Hin).
Qed.

(** Setting [art] on the rows of one (semester, module) keeps the keys
    distinct when the new key occurs at most once afterwards. *)
Lemma update_art_NoDup (upd : Db.belegung_row -> Db.belegung_row) (s m : Z) (a : string)
    (rows : list Db.belegung_row) :
  (forall r, Db.bel_semester_id r = s /\ Db.bel_modul_id r = m ->
             Repo.bel_key (upd r) = (s, m, a)) ->
  (forall r, ~ (Db.bel_semester_id r = s /\ Db.bel_modul_id r = m) -> upd r = r) ->
  NoDup (map Repo.bel_key rows) ->
  (length (filter (fun r => Repo.bel_key r = (s, m, a)) (map upd rows)) <= 1)%nat ->
  NoDup (map Repo.bel_key (map upd rows)).
Proof.
  intros Hhit Hmiss. induction rows as [|r rows IH]; intros Hnd Hcount; [constructor|].
  simpl in *. apply NoDup_cons in Hnd as [Hr Hnd]. rewrite filter_cons in Hcount.
  apply NoDup_cons.
  destruct (decide (Db.bel_semester_id r = s /\ Db.bel_modul_id r = m)) as [Hh|Hh].
  - rewrite (Hhit r Hh) in *. rewrite decide_True in Hcount by reflexivity.
    simpl in Hcount. split; [apply count_key_zero; lia | apply IH; [exact Hnd | lia]].
  - rewrite (Hmiss r Hh) in *. split.
    + intros Hin. apply list_elem_of_fmap in Hin as (y & Hy & Hin).
      apply list_elem_of_fmap in Hin as (r' & -> & Hr').
      destruct (decide (Db.bel_semester_id r' = s /\ Db.bel_modul_id r' = m)) as [Hh'|Hh'].
      * rewrite (Hhit r' Hh') in Hy. apply Hh. unfold Repo.bel_key in Hy.
        injection Hy as -> -> _. split; reflexivity.
      * rewrite (Hmiss r' Hh') in Hy. apply Hr. rewrite Hy.
        apply list_elem_of_fmap_2, Hr'.
    + apply IH; [exact Hnd|].
      destruct (decide (Repo.bel_key r = (s, m, a))); simpl in Hcount; lia.
Qed.

Lemma consistent_update_belegung (db db' : Db.Database) nr kuerzel art kommentar :
  consistent db ->
  Repo.update_belegung nr kuerzel art kommentar db = Ok db' -> consistent db'.
Proof.
  intros Hc. pose proof Hc as (sg & Hsg & Hsem & Hmod & Hmo & Hpo & Hu & Hbel & Hpl).
  unfold Repo.update_belegung, Repo.update_belegung_rows.
  destruct (Repo.select_semester nr db) as [s|]; simpl; [|discriminate].
  destruct (Repo.select_modul kuerzel db) as [m|]; simpl; [|discriminate].
  set (hit := fun r : Db.belegung_row =>
    bool_decide (Db.bel_semester_id r = Db.sem_id s /\ Db.bel_modul_id r = Db.mod_id m)).
  set (upd := fun r : Db.belegung_row =>
    if hit r
    then Db.mk_belegung (Db.bel_id r)
           (Repo.set_if_not_None art (Db.bel_art r))
           (Repo.set_nullable_if_not_None kommentar (Db.bel_kommentar r))
           (Db.bel_semester_id r) (Db.bel_modul_id r)
    else r).
  assert (Hfk : forall r, Db.bel_semester_id (upd r) = Db.bel_semester_id r
                          /\ Db.bel_modul_id (upd r) = Db.bel_modul_id r)
    by (intros r; unfold upd; destruct (hit r); split; reflexivity).
  assert (Hgoal : unique_belegung (Repo.with_belegung (map upd (Db.belegung db)) db) ->
            (forall r, r ∈ Db.belegung db -> Db.check_art (Db.bel_art (upd r)) = true) ->
            consistent (Repo.with_belegung (map upd (Db.belegung db)) db)).
  { intros Hu' Hart. exists sg. simpl.
    split; [exact Hsg|]. split; [exact Hsem|]. split; [exact Hmod|].
    split; [exact Hmo|]. split; [exact Hpo|]. split; [exact Hu'|]. split; [|exact Hpl].
    intros b Hb. apply list_elem_of_fmap in Hb as (r & -> & Hr).
    destruct (Hbel r Hr) as (H1 & H2 & H3). destruct (Hfk r) as [-> ->].
    split; [apply Hart, Hr|]. split; assumption. }
  destruct art as [a|].
  - destruct (existsb hit (Db.belegung db) && negb (Db.check_art a)) eqn:Hchk;
      [destruct kommentar; discriminate|].
    destruct (bool_decide _) eqn:Hcount; [destruct kommentar; discriminate|].
    apply bool_decide_eq_false in Hcount.
    assert (consistent (Repo.with_belegung (map upd (Db.belegung db)) db)) as Hres.
    { apply Hgoal.
      - unfold unique_belegung. simpl.
        apply (update_art_NoDup upd (Db.sem_id s) (Db.mod_id m) a).
        + intros r Hr. unfold upd, hit. rewrite bool_decide_eq_true_2 by exact Hr.
          unfold Repo.bel_key. simpl. destruct Hr as [-> ->]. reflexivity.
        + intros r Hr. unfold upd, hit. rewrite bool_decide_eq_false_2 by exact Hr.
          reflexivity.
        + exact Hu.
        + exact (proj1 (Nat.nlt_ge _ _) Hcount).
      - intros r Hr. unfold upd. destruct (hit r) eqn:Hh; [|apply Hbel, Hr].
        simpl. apply andb_false_iff in Hchk as [Hchk|Hchk].
        + exfalso. apply not_true_iff_false in Hchk. apply Hchk.
          apply existsb_exists. exists r. split; [apply list_elem_of_In, Hr | exact Hh].
        + apply negb_false_iff, Hchk. }
    destruct kommentar; intros [= <-]; exact Hres.
  - destruct kommentar as [c|]; intros [= <-]; [|exact Hc].
    apply Hgoal.
    + unfold unique_belegung. simpl. rewrite (map_map_same upd Repo.bel_key); [exact Hu|].
      intros r. unfold upd. destruct (hit r); reflexivity.
    + intros r Hr. unfold upd. destruct (hit r); simpl; apply Hbel, Hr.
Qed.

Lemma consistent_step (db db' : Db.Database) : consistent db -> step db db' -> consistent db'.
Proof.
  intros Hc Hstep. destruct Hstep as [H|? ? ? ? H|? ? ? ? ? H|? ? ? ? H|? ? ? ? ? H|? H
                                      |? ? ? ? ? H|? H|? ? ? ? H|? ? ? H].
  - rewrite init_if_needed_nonempty in H.
    + injection H as <-. exact Hc.
    + destruct Hc as (sg & -> & _). discriminate.
  - eapply consistent_create_modul; eassumption.
  - eapply consistent_create_pruefungsleistung; eassumption.
  - eapply consistent_create_belegung; eassumption.
  - eapply consistent_update_modul; eassumption.
  - eapply consistent_delete_modul; eassumption.
  - eapply consistent_update_pruefungsleistung; eassumption.
  - eapply consistent_delete_pruefungsleistung; eassumption.
  - eapply consistent_update_belegung; eassumption.
  - eapply consistent_delete_belegung; eassumption.
Qed.

Lemma Ok_inj {A : Type} (a b : A) : Ok a = Ok b -> a = b.
Proof. intros H. injection H as H. exact H. Qed.

Lemma init_if_needed_first_start : Db.init_if_needed None = Ok default_database.
Proof. reflexivity. Qed.

Lemma reachable_consistent (db : Db.Database) : reachable db -> consistent db.
Proof.
  induction 1 as [db H|db db' _ IH Hstep].
  - rewrite init_if_needed_first_start in H. apply Ok_inj in H. rewrite <- H.
    exact consistent_default.
  - exact (consistent_step db db' IH Hstep).
Qed.

Lemma consistent_integrity (db : Db.Database) : consistent db -> integrity db.
Proof.
  intros (sg & Hsg & Hsem & Hmod & Hmo & Hpo & Hu & Hbel & Hpl).
  assert (Hm : forall k, k ∈ map Db.mod_id (Db.modul db) ->
            exists m, m ∈ Db.modul db /\ Db.mod_studiengang_id m = Db.sg_id sg
                      /\ Db.mod_id m = k).
  { intros k Hk. apply list_elem_of_fmap in Hk as (m & -> & Hm).
    exists m. split; [exact Hm|]. split; [apply Hmod, Hm | reflexivity]. }
  exists sg. rewrite Hsg. split; [reflexivity|].
  split; [intros r Hr _; apply Hmod, Hr|].
  split.
  - intros b Hb. destruct (Hbel b Hb) as (_ & H2 & H3). split; [|apply Hm, H3].
    apply list_elem_of_fmap in H2 as (s & Hs & Hin).
    exists s. split; [exact Hin|]. split; [apply Hsem, Hin | symmetry; exact Hs].
  - intros p Hp. apply Hm, Hpl, Hp.
Qed.

(** Every reachable stored state satisfies the schema constraints, graph
    construction succeeds on it, and the hypotheses of the theorems on
    Enrollments and ExamResults hold there. *)
Theorem reachable_load_domain (db : Db.Database) :
  reachable db ->
  consistent db
  /\ (exists sg, Repo.load_domain db = Ok sg)
  /\ unique_belegung db
  /\ unique_modul_id db
  /\ rowid_order Db.pl_id (Db.pruefungsleistung db).
Proof.
  intros Hr. apply reachable_consistent in Hr. split; [exact Hr|].
  split; [apply load_domain_total, consistent_integrity, Hr|].
  destruct Hr as (sg & Hsg & Hsem & Hmod & Hmo & Hpo & Hu & Hbel & Hpl).
  split; [exact Hu|]. split; [apply rowid_order_NoDup, Hmo | exact Hpo].
Qed.

(** ** Further properties of the gateway *)

(** Deleting a Module removes the Module, its ExamResults and the Enrollments
    that reference it, and keeps every other row. *)
Theorem delete_modul_cascade (k : string) (db : Db.Database) (m : Db.modul_row) :
  Repo.select_modul k db = Some m ->
  exists db',
    Repo.delete_modul k db = Ok db'
    /\ (Db.mod_id m ∉ map Db.mod_id (Db.modul db'))
    /\ (Db.mod_id m ∉ map Db.bel_modul_id (Db.belegung db'))
    /\ (Db.mod_id m ∉ map Db.pl_modul_id (Db.pruefungsleistung db'))
    /\ (forall r, r ∈ Db.modul db' <-> r ∈ Db.modul db /\ Db.mod_id r <> Db.mod_id m)
    /\ (forall r, r ∈ Db.belegung db'
                  <-> r ∈ Db.belegung db /\ Db.bel_modul_id r <> Db.mod_id m)
    /\ (forall r, r ∈ Db.pruefungsleistung db'
                  <-> r ∈ Db.pruefungsleistung db /\ Db.pl_modul_id r <> Db.mod_id m)
    /\ Db.studiengang db' = Db.studiengang db
    /\ Db.semester db' = Db.semester db.
Proof.
  intros Hm. unfold Repo.delete_modul, Repo._get_modul_id. rewrite Hm. simpl.
  eexists. split; [reflexivity|]. simpl.
  assert (Hgone : forall (A : Type) (f : A -> Z) (rows : list A),
            Db.mod_id m ∉ map f (filter (fun r => f r <> Db.mod_id m) rows)).
  { intros A f rows Hin. apply list_elem_of_fmap in Hin as (r & Hr & Hin).
    apply list_elem_of_filter in Hin as [Hne _]. congruence. }
  assert (Hkept : forall (A : Type) (f : A -> Z) (rows : list A) (r : A),
            r ∈ filter (fun r => f r <> Db.mod_id m) rows
            <-> r ∈ rows /\ f r <> Db.mod_id m).
  { intros A f rows r. rewrite list_elem_of_filter. tauto. }
  split; [apply (Hgone _ Db.mod_id)|].
  split; [apply (Hgone _ Db.bel_modul_id)|].
  split; [apply (Hgone _ Db.pl_modul_id)|].
  split; [apply (Hkept _ Db.mod_id)|].
  split; [apply (Hkept _ Db.bel_modul_id)|].
  split; [apply (Hkept _ Db.pl_modul_id)|].
  split; reflexivity.
Qed.

Lemma delete_modul_cascade_witness :
  exists db',
    Repo.delete_modul "ALG1" Example.db_alg1 = Ok db'
    /\ map Db.pl_id (Db.pruefungsleistung db') = [3]
    /\ Db.belegung db' = [].
Proof.
  destruct (delete_modul_cascade "ALG1" Example.db_alg1
              (Db.mk_modul 1 "Algorithms" "ALG1" 5 "KLAUSUR" 1) ltac:(reflexivity))
    as (db' & Hdel & _).
  exists db'. split; [exact Hdel|].
  vm_compute in Hdel. injection Hdel as <-. split; reflexivity.
Defined.

Lemma insert_sorted_agree (x : Db.pruefungsleistung_row)
    (l : list Db.pruefungsleistung_row) :
  (forall y, y ∈ l -> Db.pl_id x < Db.pl_id y) ->
  Repo.insert_sorted Repo.by_versuch_nr_id x l = Repo.insert_sorted Repo.by_versuch_nr x l.
Proof.
  induction l as [|y l IH]; intros Hid; [reflexivity|]. simpl.
  assert (Hy : Db.pl_id x < Db.pl_id y) by (apply Hid; left).
  assert (E : Repo.by_versuch_nr_id x y = Repo.by_versuch_nr x y).
  { unfold Repo.by_versuch_nr_id, Repo.by_versuch_nr.
    destruct (Z.ltb_spec (Db.pl_versuch_nr x) (Db.pl_versuch_nr y)),
             (Z.eqb_spec (Db.pl_versuch_nr x) (Db.pl_versuch_nr y)),
             (Z.leb_spec (Db.pl_id x) (Db.pl_id y)),
             (Z.leb_spec (Db.pl_versuch_nr x) (Db.pl_versuch_nr y));
      simpl; try reflexivity; lia. }
  rewrite E, IH; [reflexivity|]. intros z Hz. apply Hid. right. exact Hz.
Qed.

Lemma order_by_agree (rows : list Db.pruefungsleistung_row) :
  rowid_order Db.pl_id rows ->
  Repo.order_by Repo.by_versuch_nr_id rows = Repo.order_by Repo.by_versuch_nr rows.
Proof.
  unfold rowid_order. induction rows as [|x rows IH]; intros Hs; [reflexivity|].
  apply StronglySorted_inv in Hs as [Hs Hx]. simpl.
  rewrite (IH Hs). apply insert_sorted_agree.
  intros y Hy. apply elem_of_order_by in Hy. rewrite Forall_forall in Hx. apply Hx, Hy.
Qed.

(** [list_pruefungsleistungen] returns the ExamResults of the Module, each
    once, ordered by attempt number and then by identifier. *)
Theorem list_pruefungsleistungen_ordered (k : string) (db : Db.Database)
    (m : Db.modul_row) :
  rowid_order Db.pl_id (Db.pruefungsleistung db) ->
  Repo.select_modul k db = Some m ->
  exists rows,
    Repo.list_pruefungsleistungen k db = Ok (map Repo.pl_dict rows)
    /\ rows ≡ₚ filter (fun r => Db.pl_modul_id r = Db.mod_id m) (Db.pruefungsleistung db)
    /\ StronglySorted attempt_then_insertion rows.
Proof.
  intros Hrow Hm. unfold Repo.list_pruefungsleistungen, Repo._get_modul_id.
  rewrite Hm. simpl. eexists. split; [reflexivity|].
  assert (Hf : rowid_order Db.pl_id (filter (fun r => Db.pl_modul_id r = Db.mod_id m)
                                   (Db.pruefungsleistung db)))
    by (apply StronglySorted_filter, Hrow).
  split; [apply order_by_perm|].
  rewrite order_by_agree by exact Hf. apply order_by_attempt, Hf.
Qed.

Lemma list_pruefungsleistungen_ordered_witness :
  exists rows,
    Repo.list_pruefungsleistungen "ALG1" Example.db_alg1 = Ok (map Repo.pl_dict rows)
    /\ rows ≡ₚ filter (fun r => Db.pl_modul_id r = 1) (Db.pruefungsleistung Example.db_alg1)
    /\ StronglySorted attempt_then_insertion rows.
Proof.
  apply (list_pruefungsleistungen_ordered "ALG1" Example.db_alg1
           (Db.mk_modul 1 "Algorithms" "ALG1" 5 "KLAUSUR" 1)).
  - exact rowid_order_db_alg1.
  - reflexivity.
Defined.

Example list_pruefungsleistungen_db_alg1 :
  Repo.list_pruefungsleistungen "ALG1" Example.db_alg1
  = Ok [(2, "Klausur", Some "2024-02-01", Some (5 # 1)%Q, 1);
        (4, "Testat", None, None, 1);
        (1, "Klausur, zweiter Versuch", None, Some (17 # 10)%Q, 2);
        (5, "Nachtrag", None, None, 2)].
Proof. reflexivity. Qed.

(** ** A reachable stored state *)

(** One more gateway call on a reachable state: the call is evaluated and
    its result, when it is [Ok], is the next reachable state. *)
Ltac gateway_call H mk call :=
  match type of H with
  | reachable ?db =>
      let r := eval vm_compute in (call db) in
      match r with
      | Ok ?db' =>
          let H' := fresh "H" in
          assert (H' : reachable db')
            by (apply (reachable_step db db' H); apply (mk db db');
                vm_compute; reflexivity);
          clear H; rename H' into H
      end
  end.

(** The stored state [db_alg1] is reached by the first start and nine calls
    of the gateway. *)
Lemma reachable_db_alg1 : reachable Example.db_alg1.
Proof.
  assert (H : reachable default_database)
    by (apply reachable_first_start; reflexivity).
  gateway_call H (fun d d' => step_create_modul d d' "Algorithms" "ALG1" 5 KLAUSUR)
    (Repo.create_modul "Algorithms" "ALG1" 5 KLAUSUR).
  gateway_call H (fun d d' => step_create_modul d d' "Networks" "NET1" 5 PROJEKT)
    (Repo.create_modul "Networks" "NET1" 5 PROJEKT).
  gateway_call H
    (fun d d' => step_create_pruefungsleistung d d' "ALG1" "Klausur, zweiter Versuch"
                   None (Some (17 # 10)%Q) 2)
    (Repo.create_pruefungsleistung "ALG1" "Klausur, zweiter Versuch" None
       (Some (17 # 10)%Q) 2).
  gateway_call H
    (fun d d' => step_create_pruefungsleistung d d' "ALG1" "Klausur" (Some "2024-02-01")
                   (Some (5 # 1)%Q) 1)
    (Repo.create_pruefungsleistung "ALG1" "Klausur" (Some "2024-02-01")
       (Some (5 # 1)%Q) 1).
  gateway_call H
    (fun d d' => step_create_pruefungsleistung d d' "NET1" "Projekt" None None 1)
    (Repo.create_pruefungsleistung "NET1" "Projekt" None None 1).
  gateway_call H
    (fun d d' => step_create_pruefungsleistung d d' "ALG1" "Testat" None None 1)
    (Repo.create_pruefungsleistung "ALG1" "Testat" None None 1).
  gateway_call H
    (fun d d' => step_create_pruefungsleistung d d' "ALG1" "Nachtrag" None None 2)
    (Repo.create_pruefungsleistung "ALG1" "Nachtrag" None None 2).
  gateway_call H (fun d d' => step_create_belegung d d' 1 "ALG1" "geplant" "")
    (Repo.create_belegung 1 "ALG1" "geplant" "").
  gateway_call H (fun d d' => step_create_belegung d d' 2 "ALG1" "aktuell" "")
    (Repo.create_belegung 2 "ALG1" "aktuell" "").
  exact H.
Qed.

Lemma reachable_load_domain_witness :
  consistent Example.db_alg1
  /\ (exists sg, Repo.load_domain Example.db_alg1 = Ok sg)
  /\ unique_belegung Example.db_alg1
  /\ unique_modul_id Example.db_alg1
  /\ rowid_order Db.pl_id (Db.pruefungsleistung Example.db_alg1).
Proof. exact (reachable_load_domain Example.db_alg1 reachable_db_alg1). Defined.

(** ** The pass threshold and the range of averages *)













(** ** The order of ExamResults and ungraded ExamResults *)

Lemma total_Q_Permutation (xs ys : list Q) : xs ≡ₚ ys -> (total_Q xs == total_Q ys)%Q.
Proof.
  induction 1; simpl.
  - reflexivity.
  - rewrite IHPermutation. reflexivity.
  - ring.
  - rewrite IHPermutation1. exact IHPermutation2.
Qed.

Lemma mean_Permutation (xs ys : list Q) : xs ≡ₚ ys -> (mean xs == mean ys)%Q.
Proof.
  intros H. unfold mean.
  rewrite !sum_float_total, (total_Q_Permutation xs ys H), (Permutation_length H).
  reflexivity.
Qed.

(** The derived average, and with it the status of a Module that has
    ExamResults, does not depend on the order of the ExamResults. *)
Theorem modul_durchschnitt_order (m m' : Modul.t) :
  Modul.leistungen m ≡ₚ Modul.leistungen m' ->
  Modul.durchschnitt m = Modul.durchschnitt m'
  /\ Modul.ist_bestanden m = Modul.ist_bestanden m'
  /\ Modul.status m = Modul.status m'.
Proof.
  intros Hp.
  assert (Hn : Modul.noten m ≡ₚ Modul.noten m')
    by (unfold Modul.noten; rewrite Hp; reflexivity).
  assert (Hd : Modul.durchschnitt m = Modul.durchschnitt m').
  { unfold Modul.durchschnitt.
    destruct (Modul.noten m) as [|x xs] eqn:E, (Modul.noten m') as [|y ys] eqn:E'.
    - reflexivity.
    - apply Permutation_nil_l in Hn. discriminate.
    - apply Permutation_nil_r in Hn. discriminate.
    - f_equal. apply round2_proper, mean_Permutation, Hn. }
  split; [exact Hd|].
  assert (Hb : Modul.ist_bestanden m = Modul.ist_bestanden m')
    by (unfold Modul.ist_bestanden; rewrite Hd; reflexivity).
  split; [exact Hb|]. unfold Modul.status. rewrite Hb.
  destruct (Modul.leistungen m) as [|p ps], (Modul.leistungen m') as [|q qs];
    try reflexivity.
  - apply Permutation_nil_l in Hp. discriminate.
  - apply Permutation_nil_r in Hp. discriminate.
Qed.

(** Adding an ExamResult without grade leaves the average and the passed
    state of a Module as they are; the status is then never "offen". *)
Theorem add_pruefungsleistung_ungraded (m : Modul.t) (p : Pruefungsleistung.t) :
  Pruefungsleistung.note p = None ->
  Modul.durchschnitt (Modul.add_pruefungsleistung p m) = Modul.durchschnitt m
  /\ Modul.ist_bestanden (Modul.add_pruefungsleistung p m) = Modul.ist_bestanden m
  /\ Modul.status (Modul.add_pruefungsleistung p m)
     = (if Modul.ist_bestanden m then "abgeschlossen" else "laufend").
Proof.
  intros Hp.
  assert (Hn : Modul.noten (Modul.add_pruefungsleistung p m) = Modul.noten m).
  { unfold Modul.noten. simpl. rewrite omap_app. simpl. rewrite Hp. apply app_nil_r. }
  assert (Hd : Modul.durchschnitt (Modul.add_pruefungsleistung p m) = Modul.durchschnitt m)
    by (unfold Modul.durchschnitt; rewrite Hn; reflexivity).
  assert (Hb : Modul.ist_bestanden (Modul.add_pruefungsleistung p m) = Modul.ist_bestanden m)
    by (unfold Modul.ist_bestanden; rewrite Hd; reflexivity).
  repeat split; try assumption.
  unfold Modul.status. rewrite Hb. simpl.
  destruct (Modul.leistungen m); reflexivity.
Qed.

(** ** Enrolling a Module into a Semester *)

Lemma sum_int_snoc (xs : list Z) (x : Z) : sum_int (xs ++ [x]) = sum_int xs + x.
Proof. unfold sum_int. rewrite fold_left_app. reflexivity. Qed.

(** [belege] with kind "geplant" adds the credits of the Module to the
    planned credits only; with any other kind it adds them to the earned
    credits when the Module is passed, and changes nothing else. *)
Theorem belege_credits (s : Semester.t Modul.t) (m : Modul.t) (art : string) :
  (art = "geplant" ->
   Semester.geplante_ects (Semester.belege m art s)
   = Semester.geplante_ects s + Modul.ects m
   /\ Semester.erreichte_ects (Semester.belege m art s) = Semester.erreichte_ects s)
  /\ (art <> "geplant" ->
      Semester.geplante_ects (Semester.belege m art s) = Semester.geplante_ects s
      /\ Semester.erreichte_ects (Semester.belege m art s)
         = Semester.erreichte_ects s
           + (if Modul.ist_bestanden m then Modul.ects m else 0)).
Proof.
  unfold Semester.belege, Semester.geplante_ects, Semester.erreichte_ects.
  split; intros Hart.
  - rewrite (proj2 (String.eqb_eq art "geplant") Hart). simpl.
    rewrite map_app. simpl. rewrite sum_int_snoc. split; reflexivity.
  - rewrite (proj2 (String.eqb_neq art "geplant") Hart). simpl.
    split; [reflexivity|]. rewrite filter_app, map_app, filter_cons, filter_nil.
    destruct (Modul.ist_bestanden m) eqn:B.
    + rewrite decide_True by reflexivity. simpl. apply sum_int_snoc.
    + rewrite decide_False by discriminate. simpl. rewrite app_nil_r. lia.
Qed.

(** ** These properties at concrete inputs *)



Lemma modul_durchschnitt_order_witness :
  Modul.durchschnitt Example.mod_B = Modul.durchschnitt Example.mod_B_umgekehrt
  /\ Modul.ist_bestanden Example.mod_B = Modul.ist_bestanden Example.mod_B_umgekehrt
  /\ Modul.status Example.mod_B = Modul.status Example.mod_B_umgekehrt.
Proof.
  apply (modul_durchschnitt_order Example.mod_B Example.mod_B_umgekehrt).
  simpl. apply Permutation_swap.
Defined.

Lemma add_pruefungsleistung_ungraded_witness :
  Modul.durchschnitt
    (Modul.add_pruefungsleistung (Pruefungsleistung.mk "Testat" None None 1) Example.alg1)
  = Modul.durchschnitt Example.alg1.
Proof.
  apply (add_pruefungsleistung_ungraded Example.alg1
           (Pruefungsleistung.mk "Testat" None None 1)).
  reflexivity.
Defined.

Lemma belege_credits_witness :
  Semester.geplante_ects (Semester.belege Example.alg1 "bestanden" Example.sem_1)
  = Semester.geplante_ects Example.sem_1
  /\ Semester.erreichte_ects (Semester.belege Example.alg1 "bestanden" Example.sem_1)
     = Semester.erreichte_ects Example.sem_1
       + (if Modul.ist_bestanden Example.alg1 then Modul.ects Example.alg1 else 0).
Proof.
  apply (proj2 (belege_credits Example.sem_1 Example.alg1 "bestanden")).
  discriminate.
Defined.

(** ** The Program and its Semesters are never changed *)

(** The result of a call that returned [Ok] has the Program and Semesters
    of the state before. *)
Ltac same_tables :=
  let H := fresh "H" in
  intros H; apply Ok_inj in H; subst; simpl; auto.

Lemma step_frame (db db' : Db.Database) :
  step db db' ->
  Db.studiengang db <> [] ->
  Db.studiengang db' = Db.studiengang db /\ Db.semester db' = Db.semester db.
Proof.
  intros Hstep Hne.
  destruct Hstep as [H|? ? ? ? H|? ? ? ? ? H|? ? ? ? H|? ? ? ? ? H|? H
                     |? ? ? ? ? H|? H|? ? ? ? H|? ? ? H]; revert H.
  - rewrite init_if_needed_nonempty by exact Hne. same_tables.
  - unfold Repo.create_modul, Repo.insert_modul.
    destruct (subscript _); simpl; [|discriminate].
    destruct (bool_decide _); [same_tables | discriminate].
  - unfold Repo.create_pruefungsleistung, Repo.insert_pruefungsleistung.
    destruct (subscript _); simpl; [|discriminate].
    destruct (bool_decide _); [same_tables | discriminate].
  - unfold Repo.create_belegung, Repo.insert_or_ignore_belegung.
    destruct (Repo.select_semester_join _ _); simpl; [|discriminate].
    destruct (Repo.select_modul _ _); simpl; [|discriminate].
    destruct (negb _); [same_tables|].
    destruct (bool_decide _); [same_tables|].
    destruct (bool_decide _); [same_tables | discriminate].
  - unfold Repo.update_modul.
    destruct (Repo._get_modul_id _ _); simpl; [|discriminate].
    destruct name, new_kuerzel, ects, pruefungsform; same_tables.
  - unfold Repo.delete_modul.
    destruct (Repo._get_modul_id _ _); simpl; [same_tables | discriminate].
  - unfold Repo.update_pruefungsleistung.
    destruct bezeichnung, datum, note, versuch_nr; same_tables.
  - unfold Repo.delete_pruefungsleistung. same_tables.
  - unfold Repo.update_belegung, Repo.update_belegung_rows.
    destruct (Repo.select_semester _ _); simpl; [|discriminate].
    destruct (Repo.select_modul _ _); simpl; [|discriminate].
    destruct art, kommentar; simpl;
      repeat (match goal with |- context [if ?b then _ else _] => destruct b end);
      try discriminate; same_tables.
  - unfold Repo.delete_belegung.
    destruct (Repo.select_semester _ _); simpl; [|discriminate].
    destruct (Repo.select_modul _ _); simpl; [same_tables | discriminate].
Qed.

Lemma reachable_frame (db : Db.Database) :
  reachable db ->
  Db.studiengang db = Db.studiengang default_database
  /\ Db.semester db = Db.semester default_database.
Proof.
  induction 1 as [db H|db db' _ IH Hstep].
  - rewrite init_if_needed_first_start in H. apply Ok_inj in H. subst. auto.
  - destruct IH as [IH1 IH2]. destruct (step_frame db db' Hstep) as [H1 H2].
    + rewrite IH1. discriminate.
    + rewrite H1, H2. auto.
Qed.

(** In every reachable stored state the Program is the default Program and
    the Semesters are the eight Semesters of the first start: no gateway call
    changes them.  [list_semester_nrn] returns 1 through 8 and [get_ids] the
    Program with its Semesters. *)
Theorem reachable_program_fixed (db : Db.Database) :
  reachable db ->
  Db.studiengang db = Db.studiengang default_database
  /\ Db.semester db = Db.semester default_database
  /\ Repo.list_semester_nrn db = [1; 2; 3; 4; 5; 6; 7; 8]
  /\ Repo.get_ids db
     = Ok (Db.mk_studiengang 1 "Bachelor Cybersecurity" 180 8,
           map (fun r => (Db.sem_id r, Db.sem_nr r, Db.sem_bezeichnung r))
               (Db.semester default_database)).
Proof.
  intros Hr. destruct (reachable_frame db Hr) as [H1 H2].
  split; [exact H1|]. split; [exact H2|].
  unfold Repo.list_semester_nrn, Repo.get_ids. rewrite H1, H2. split; reflexivity.
Qed.

Lemma reachable_program_fixed_witness :
  Db.studiengang Example.db_alg1 = Db.studiengang default_database
  /\ Db.semester Example.db_alg1 = Db.semester default_database
  /\ Repo.list_semester_nrn Example.db_alg1 = [1; 2; 3; 4; 5; 6; 7; 8]
  /\ Repo.get_ids Example.db_alg1
     = Ok (Db.mk_studiengang 1 "Bachelor Cybersecurity" 180 8,
           map (fun r => (Db.sem_id r, Db.sem_nr r, Db.sem_bezeichnung r))
               (Db.semester default_database)).
Proof. exact (reachable_program_fixed Example.db_alg1 reachable_db_alg1). Defined.

(** ** Creating, reading, updating and deleting Modules *)

Lemma head_filter_app {A : Type} (P : A -> Prop) `{forall x, Decision (P x)}
    (l l' : list A) :
  head (filter P (l ++ l'))
  = match head (filter P l) with
    | Some x => Some x
    | None => head (filter P l')
    end.
Proof.
  rewrite filter_app. destruct (filter P l); reflexivity.
Qed.




Lemma select_updated (upd : Db.modul_row -> Db.modul_row) (rows : list Db.modul_row)
    (m : Db.modul_row) (k' : string) :
  m ∈ rows ->
  NoDup (map Db.mod_id rows) ->
  (forall r, Db.mod_id r <> Db.mod_id m -> upd r = r) ->
  Db.mod_kuerzel (upd m) = k' ->
  (forall r, r ∈ rows -> Db.mod_id r <> Db.mod_id m -> Db.mod_kuerzel r <> k') ->
  head (filter (fun r => Db.mod_kuerzel r = k') (map upd rows)) = Some (upd m).
Proof.
  intros Hm Hnd Hother Hk Hfree.
  induction rows as [|r rows IH]; [inversion Hm|].
  simpl in Hnd. apply NoDup_cons in Hnd as [Hr Hnd]. simpl.
  destruct (decide (Db.mod_id r = Db.mod_id m)) as [E|E].
  - assert (r = m) as ->.
    { apply elem_of_cons in Hm as [->|Hm]; [reflexivity|].
      exfalso. apply Hr. rewrite E. apply list_elem_of_fmap_2, Hm. }
    rewrite filter_cons, decide_True by exact Hk. reflexivity.
  - rewrite (Hother r E), filter_cons, decide_False by (apply Hfree; [left | exact E]).
    apply IH; [|exact Hnd|].
    + apply elem_of_cons in Hm as [->|Hm]; [congruence | exact Hm].
    + intros x Hx. apply Hfree. right. exact Hx.
Qed.

(** [update_modul] on an existing code, when no other Module has the
    resulting code: [get_modul] of the resulting code returns the updated
    fields, and the ExamResults listed under the old code are listed under
    the resulting code; identifiers, ExamResults and Enrollments are as
    before. *)
Theorem update_modul_effect (db : Db.Database) (kuerzel : string)
    (name new_kuerzel : option string) (ects : option Z)
    (pruefungsform : option Pruefungsform) (m : Db.modul_row) :
  Repo.select_modul kuerzel db = Some m ->
  NoDup (map Db.mod_id (Db.modul db)) ->
  (forall r, r ∈ Db.modul db -> Db.mod_id r <> Db.mod_id m ->
             Db.mod_kuerzel r <> Repo.set_if_not_None new_kuerzel kuerzel) ->
  exists db',
    Repo.update_modul kuerzel name new_kuerzel ects pruefungsform db = Ok db'
    /\ Repo.get_modul (Repo.set_if_not_None new_kuerzel kuerzel) db'
       = Ok (Repo.set_if_not_None name (Db.mod_name m),
             Repo.set_if_not_None new_kuerzel kuerzel,
             Repo.set_if_not_None ects (Db.mod_ects m),
             Repo.set_if_not_None (Pruefungsform_.name <$> pruefungsform)
                                  (Db.mod_pruefungsform m))
    /\ Repo.list_pruefungsleistungen (Repo.set_if_not_None new_kuerzel kuerzel) db'
       = Repo.list_pruefungsleistungen kuerzel db
    /\ map Db.mod_id (Db.modul db') = map Db.mod_id (Db.modul db)
    /\ Db.pruefungsleistung db' = Db.pruefungsleistung db
    /\ Db.belegung db' = Db.belegung db.
Proof.
  intros Hsel Hnd Hfree.
  destruct (head_filter_Some _ _ _ Hsel) as [Hm Hk]. simpl in Hk.
  set (upd := fun r : Db.modul_row =>
    if bool_decide (Db.mod_id r = Db.mod_id m)
    then Db.mk_modul (Db.mod_id r)
           (Repo.set_if_not_None name (Db.mod_name r))
           (Repo.set_if_not_None new_kuerzel (Db.mod_kuerzel r))
           (Repo.set_if_not_None ects (Db.mod_ects r))
           (Repo.set_if_not_None (Pruefungsform_.name <$> pruefungsform)
                                 (Db.mod_pruefungsform r))
           (Db.mod_studiengang_id r)
    else r).
  assert (Hupd : Repo.select_modul (Repo.set_if_not_None new_kuerzel kuerzel)
                   (Repo.with_modul (map upd (Db.modul db)) db) = Some (upd m)).
  { unfold Repo.select_modul. simpl. apply select_updated; try assumption.
    - intros r Hr. unfold upd. rewrite bool_decide_eq_false_2 by exact Hr. reflexivity.
    - unfold upd. rewrite bool_decide_eq_true_2 by reflexivity. simpl.
      rewrite Hk. reflexivity. }
  assert (Hum : upd m = Db.mk_modul (Db.mod_id m)
                  (Repo.set_if_not_None name (Db.mod_name m))
                  (Repo.set_if_not_None new_kuerzel kuerzel)
                  (Repo.set_if_not_None ects (Db.mod_ects m))
                  (Repo.set_if_not_None (Pruefungsform_.name <$> pruefungsform)
                                        (Db.mod_pruefungsform m))
                  (Db.mod_studiengang_id m)).
  { unfold upd. rewrite bool_decide_eq_true_2 by reflexivity. rewrite Hk. reflexivity. }
  assert (Hgoal :
    Repo.get_modul (Repo.set_if_not_None new_kuerzel kuerzel)
      (Repo.with_modul (map upd (Db.modul db)) db)
    = Ok (Repo.set_if_not_None name (Db.mod_name m),
          Repo.set_if_not_None new_kuerzel kuerzel,
          Repo.set_if_not_None ects (Db.mod_ects m),
          Repo.set_if_not_None (Pruefungsform_.name <$> pruefungsform)
                               (Db.mod_pruefungsform m))
    /\ Repo.list_pruefungsleistungen (Repo.set_if_not_None new_kuerzel kuerzel)
         (Repo.with_modul (map upd (Db.modul db)) db)
       = Repo.list_pruefungsleistungen kuerzel db
    /\ map Db.mod_id (map upd (Db.modul db)) = map Db.mod_id (Db.modul db)).
  { unfold Repo.get_modul, Repo.list_pruefungsleistungen, Repo._get_modul_id.
    rewrite Hupd, Hsel, Hum. simpl. split; [reflexivity|]. split; [reflexivity|].
    apply map_map_same. intros r. unfold upd. destruct (bool_decide _); reflexivity. }
  unfold Repo.update_modul, Repo._get_modul_id. rewrite Hsel. simpl. fold upd.
  destruct Hgoal as (G1 & G2 & G3).
  destruct name as [n|], new_kuerzel as [nk|], ects as [e|], pruefungsform as [pf|];
    try (eexists; split; [reflexivity|]; simpl;
         split; [exact G1|]; split; [exact G2|]; split; [exact G3|];
         split; reflexivity).
  exists db. split; [reflexivity|]. simpl.
  unfold Repo.get_modul. rewrite Hsel, Hk. repeat split; reflexivity.
Qed.

Lemma update_modul_effect_witness :
  exists db',
    Repo.update_modul "ALG1" (Some "Algorithmen") (Some "ALGO") None None Example.db_alg1
    = Ok db'
    /\ Repo.get_modul "ALGO" db' = Ok ("Algorithmen", "ALGO", 5, "KLAUSUR")
    /\ Repo.list_pruefungsleistungen "ALGO" db'
       = Repo.list_pruefungsleistungen "ALG1" Example.db_alg1.
Proof.
  destruct (update_modul_effect Example.db_alg1 "ALG1" (Some "Algorithmen") (Some "ALGO")
              None None (Db.mk_modul 1 "Algorithms" "ALG1" 5 "KLAUSUR" 1))
    as (db' & H1 & H2 & H3 & _).
  - reflexivity.
  - compute_done.
  - intros r Hr Hid. simpl in Hr.
    repeat (apply elem_of_cons in Hr as [->|Hr]); [| |inversion Hr]; simpl in *;
      [congruence | discriminate].
  - exists db'. split; [exact H1|]. split; [exact H2 | exact H3].
Defined.

(** ** ORDER BY on a total preorder *)

Section StableSort.
Context {A : Type} (le : A -> A -> bool).
Hypothesis le_total : forall x y, le x y = true \/ le y x = true.
Hypothesis le_trans : forall x y z, le x y = true -> le y z = true -> le x z = true.

Lemma insert_sorted_sorted (x : A) (l : list A) :
  StronglySorted (fun a b => le a b = true) l ->
  StronglySorted (fun a b => le a b = true) (Repo.insert_sorted le x l).
Proof.
  induction l as [|y l IH]; intros Hs; simpl.
  - repeat constructor.
  - apply StronglySorted_inv in Hs as [Hs Hy]. destruct (le x y) eqn:E.
    + constructor; [constructor; assumption|].
      apply Forall_forall. intros z Hz.
      apply elem_of_cons in Hz as [->|Hz]; [exact E|].
      rewrite Forall_forall in Hy. exact (le_trans x y z E (Hy z Hz)).
    + constructor; [apply IH, Hs|].
      apply Forall_forall. intros z Hz. rewrite insert_sorted_perm in Hz.
      apply elem_of_cons in Hz as [->|Hz].
      * destruct (le_total x y) as [H|H]; [congruence | exact H].
      * rewrite Forall_forall in Hy. apply Hy, Hz.
Qed.

Lemma order_by_sorted (rows : list A) :
  StronglySorted (fun a b => le a b = true) (Repo.order_by le rows).
Proof.
  induction rows as [|x rows IH]; simpl; [constructor|].
  apply insert_sorted_sorted, IH.
Qed.

Context (P : A -> Prop) `{forall x, Decision (P x)}.



End StableSort.




(** ** ExamResults: create, list, delete *)

(** The identifier of a dict of [list_pruefungsleistungen]. *)
Lemma filter_pl_dict (id : Z) (rows : list Db.pruefungsleistung_row) :
  filter (fun d : Z * string * option string * option Q * Z => d.1.1.1.1 <> id)
         (map Repo.pl_dict rows)
  = map Repo.pl_dict (filter (fun r => Db.pl_id r <> id) rows).
Proof.
  induction rows as [|r rows IH]; [reflexivity|]. simpl.
  rewrite !filter_cons, IH. simpl.
  destruct (decide (Db.pl_id r <> id)); reflexivity.
Qed.


(** [create_pruefungsleistung] on an existing module code stores one new
    ExamResult under an identifier that was not in use: the listing of the
    Module gains exactly this entry, the listings of the other Modules are
    unchanged, and deleting the new identifier restores the stored state. *)
Theorem create_pruefungsleistung_listed (db : Db.Database) (k bezeichnung : string)
    (datum : option string) (note : option Q) (versuch_nr : Z) (m : Db.modul_row) :
  Repo.select_modul k db = Some m ->
  exists db' id old new,
    Repo.create_pruefungsleistung k bezeichnung datum note versuch_nr db = Ok db'
    /\ (id ∉ map Db.pl_id (Db.pruefungsleistung db))
    /\ Repo.list_pruefungsleistungen k db = Ok old
    /\ Repo.list_pruefungsleistungen k db' = Ok new
    /\ new ≡ₚ (id, bezeichnung, datum, note, versuch_nr) :: old
    /\ (forall k', (forall m', Repo.select_modul k' db = Some m' ->
                               Db.mod_id m' <> Db.mod_id m) ->
          Repo.list_pruefungsleistungen k' db' = Repo.list_pruefungsleistungen k' db)
    /\ Repo.delete_pruefungsleistung id db' = Ok db
    /\ Db.modul db' = Db.modul db
    /\ Db.belegung db' = Db.belegung db.
Proof.
  intros Hm. destruct (head_filter_Some _ _ _ Hm) as [Hin _].
  set (id := Db.next_rowid (map Db.pl_id (Db.pruefungsleistung db))).
  set (row := Db.mk_pruefungsleistung id bezeichnung datum note versuch_nr (Db.mod_id m)).
  assert (Hfresh : forall r, r ∈ Db.pruefungsleistung db -> Db.pl_id r <> id).
  { intros r Hr. pose proof (next_rowid_fresh (map Db.pl_id (Db.pruefungsleistung db))
                               (Db.pl_id r) (list_elem_of_fmap_2 _ _ _ Hr)).
    unfold id. lia. }
  exists (Repo.with_pruefungsleistung (Db.pruefungsleistung db ++ [row]) db), id.
  eexists. eexists.
  split.
  { unfold Repo.create_pruefungsleistung, Repo.insert_pruefungsleistung.
    rewrite Hm. simpl.
    rewrite bool_decide_eq_true_2 by (apply list_elem_of_fmap_2, Hin). reflexivity. }
  split.
  { intros Hid. apply list_elem_of_fmap in Hid as (r & Hr & Hid). exact (Hfresh r Hid (eq_sym Hr)). }
  split.
  { unfold Repo.list_pruefungsleistungen, Repo._get_modul_id. rewrite Hm. reflexivity. }
  split.
  { unfold Repo.list_pruefungsleistungen, Repo._get_modul_id, Repo.select_modul. simpl.
    fold (Repo.select_modul k db). rewrite Hm. reflexivity. }
  split.
  { rewrite filter_app, filter_cons, decide_True, filter_nil by reflexivity.
    change ((id, bezeichnung, datum, note, versuch_nr)) with (Repo.pl_dict row).
    rewrite <- (map_cons Repo.pl_dict). apply Permutation_map.
    rewrite !order_by_perm. symmetry. apply Permutation_cons_append. }
  split.
  { intros k' Hk'. unfold Repo.list_pruefungsleistungen, Repo._get_modul_id,
      Repo.select_modul. simpl. fold (Repo.select_modul k' db).
    destruct (Repo.select_modul k' db) as [m'|] eqn:Hm'; [|reflexivity]. simpl.
    rewrite filter_app, filter_cons, decide_False, filter_nil, app_nil_r;
      [reflexivity|]. simpl. intros E. exact (Hk' m' eq_refl (eq_sym E)). }
  split.
  { unfold Repo.delete_pruefungsleistung, Repo.with_pruefungsleistung. simpl.
    rewrite filter_app, filter_cons, decide_False, filter_nil, app_nil_r
      by (simpl; intros E; exact (E eq_refl)).
    rewrite filter_all by exact Hfresh. rewrite database_eta. reflexivity. }
  split; reflexivity.
Qed.

Lemma create_pruefungsleistung_listed_witness :
  exists db' id old new,
    Repo.create_pruefungsleistung "NET1" "Vortrag" None (Some (23 # 10)%Q) 1 Example.db_alg1
    = Ok db'
    /\ (id ∉ map Db.pl_id (Db.pruefungsleistung Example.db_alg1))
    /\ Repo.list_pruefungsleistungen "NET1" Example.db_alg1 = Ok old
    /\ Repo.list_pruefungsleistungen "NET1" db' = Ok new
    /\ new ≡ₚ (id, "Vortrag", None, Some (23 # 10)%Q, 1) :: old
    /\ Repo.delete_pruefungsleistung id db' = Ok Example.db_alg1.
Proof.
  destruct (create_pruefungsleistung_listed Example.db_alg1 "NET1" "Vortrag" None
              (Some (23 # 10)%Q) 1 (Db.mk_modul 2 "Networks" "NET1" 5 "PROJEKT" 1)
              ltac:(reflexivity))
    as (db' & id & old & new & H1 & H2 & H3 & H4 & H5 & _ & H7 & _).
  exists db', id, old, new. repeat split; assumption.
Defined.

(** ** ExamResults: update *)

(** The row that [update_pruefungsleistung] writes in place of [r]. *)
Lemma update_pruefungsleistung_map (id : Z) (bezeichnung datum : option string)
    (note : option Q) (versuch_nr : option Z) (db : Db.Database) :
  Repo.update_pruefungsleistung id bezeichnung datum note versuch_nr db
  = Ok (Repo.with_pruefungsleistung
          (map (fun r =>
                  if bool_decide (Db.pl_id r = id)
                  then Db.mk_pruefungsleistung (Db.pl_id r)
                         (Repo.set_if_not_None bezeichnung (Db.pl_bezeichnung r))
                         (Repo.set_nullable_if_not_None datum (Db.pl_datum r))
                         (Repo.set_nullable_if_not_None note (Db.pl_note r))
                         (Repo.set_if_not_None versuch_nr (Db.pl_versuch_nr r))
                         (Db.pl_modul_id r)
                  else r)
               (Db.pruefungsleistung db))
          db).
Proof.
  unfold Repo.update_pruefungsleistung.
  destruct bezeichnung, datum, note, versuch_nr; try reflexivity.
  unfold Repo.with_pruefungsleistung. rewrite map_id_on, database_eta; [reflexivity|].
  intros [] _. simpl. destruct (bool_decide _); reflexivity.
Qed.

Lemma Permutation_extract {A : Type} (f : A -> Z) (l : list A) (r : A) :
  NoDup (map f l) -> r ∈ l -> l ≡ₚ r :: filter (fun x => f x <> f r) l.
Proof.
  induction l as [|x l IH]; intros Hnd Hr; [inversion Hr|].
  simpl in Hnd. apply NoDup_cons in Hnd as [Hx Hnd].
  rewrite filter_cons. apply elem_of_cons in Hr as [->|Hr].
  - rewrite decide_False by (intros E; exact (E eq_refl)).
    rewrite filter_all; [reflexivity|].
    intros y Hy E. apply Hx. rewrite <- E. apply list_elem_of_fmap_2, Hy.
  - rewrite decide_True.
    + rewrite (IH Hnd Hr) at 1. apply Permutation_swap.
    + intros E. apply Hx. rewrite E. apply list_elem_of_fmap_2, Hr.
Qed.

Lemma filter_map_commute {A : Type} (P : A -> Prop) `{forall x, Decision (P x)}
    (f : A -> A) (l : list A) :
  (forall x, P (f x) <-> P x) -> filter P (map f l) = map f (filter P l).
Proof.
  intros Hf. induction l as [|x l IH]; [reflexivity|]. simpl.
  rewrite !filter_cons, IH.
  destruct (decide (P (f x))) as [H1|H1], (decide (P x)) as [H2|H2];
    try reflexivity; exfalso; [apply H2, Hf, H1 | apply H1, Hf, H2].
Qed.

(** [update_pruefungsleistung] on a stored ExamResult: in the listing of its
    Module the entry of this identifier is replaced by the updated one
    (arguments that are [None] keep the stored value) and all other entries
    stay; the listings of the other Modules are unchanged. *)
Theorem update_pruefungsleistung_listed (id : Z) (bezeichnung datum : option string)
    (note : option Q) (versuch_nr : option Z) (db : Db.Database) (k : string)
    (m : Db.modul_row) (r : Db.pruefungsleistung_row) :
  rowid_order Db.pl_id (Db.pruefungsleistung db) ->
  Repo.select_modul k db = Some m ->
  r ∈ Db.pruefungsleistung db ->
  Db.pl_id r = id ->
  Db.pl_modul_id r = Db.mod_id m ->
  exists db' old new,
    Repo.update_pruefungsleistung id bezeichnung datum note versuch_nr db = Ok db'
    /\ Repo.list_pruefungsleistungen k db = Ok old
    /\ Repo.list_pruefungsleistungen k db' = Ok new
    /\ new ≡ₚ (id,
               Repo.set_if_not_None bezeichnung (Db.pl_bezeichnung r),
               Repo.set_nullable_if_not_None datum (Db.pl_datum r),
               Repo.set_nullable_if_not_None note (Db.pl_note r),
               Repo.set_if_not_None versuch_nr (Db.pl_versuch_nr r))
              :: filter (fun d => d.1.1.1.1 <> id) old
    /\ (forall k' m', Repo.select_modul k' db = Some m' -> Db.mod_id m' <> Db.mod_id m ->
          Repo.list_pruefungsleistungen k' db' = Repo.list_pruefungsleistungen k' db).
Proof.
  intros Hrow Hm Hr Hid Hmod.
  pose proof (rowid_order_NoDup Db.pl_id _ Hrow) as Hnd.
  rewrite update_pruefungsleistung_map.
  set (upd := fun r : Db.pruefungsleistung_row =>
    if bool_decide (Db.pl_id r = id)
    then Db.mk_pruefungsleistung (Db.pl_id r)
           (Repo.set_if_not_None bezeichnung (Db.pl_bezeichnung r))
           (Repo.set_nullable_if_not_None datum (Db.pl_datum r))
           (Repo.set_nullable_if_not_None note (Db.pl_note r))
           (Repo.set_if_not_None versuch_nr (Db.pl_versuch_nr r))
           (Db.pl_modul_id r)
    else r).
  assert (Hupd_mod : forall x, Db.pl_modul_id (upd x) = Db.pl_modul_id x).
  { intros x. unfold upd. destruct (bool_decide _); reflexivity. }
  assert (Hupd_other : forall x, Db.pl_id x <> id -> upd x = x).
  { intros x Hx. unfold upd. rewrite bool_decide_eq_false_2 by exact Hx. reflexivity. }
  assert (Hfilter : forall mid,
            filter (fun x => Db.pl_modul_id x = mid) (map upd (Db.pruefungsleistung db))
            = map upd (filter (fun x => Db.pl_modul_id x = mid) (Db.pruefungsleistung db))).
  { intros mid. apply filter_map_commute. intros x. rewrite Hupd_mod. reflexivity. }
  eexists. eexists. eexists. split; [reflexivity|].
  split.
  { unfold Repo.list_pruefungsleistungen, Repo._get_modul_id. rewrite Hm. reflexivity. }
  split.
  { unfold Repo.list_pruefungsleistungen, Repo._get_modul_id, Repo.select_modul. simpl.
    fold (Repo.select_modul k db). rewrite Hm. reflexivity. }
  split.
  { simpl. rewrite Hfilter.
    set (F := filter (fun x => Db.pl_modul_id x = Db.mod_id m) (Db.pruefungsleistung db)).
    assert (HrF : r ∈ F) by (apply list_elem_of_filter; split; assumption).
    assert (HndF : NoDup (map Db.pl_id F)) by (apply NoDup_fmap_filter, Hnd).
    rewrite filter_pl_dict, !order_by_perm.
    rewrite (Permutation_extract Db.pl_id F r HndF HrF) at 1. simpl.
    rewrite Hid. apply Permutation_cons.
    - unfold upd, Repo.pl_dict. rewrite bool_decide_eq_true_2 by exact Hid.
      simpl. rewrite Hid. reflexivity.
    - rewrite map_id_on; [reflexivity|].
      intros x Hx. apply list_elem_of_filter in Hx as [Hx _]. apply Hupd_other, Hx. }
  intros k' m' Hm' Hne.
  unfold Repo.list_pruefungsleistungen, Repo._get_modul_id, Repo.select_modul. simpl.
  fold (Repo.select_modul k' db). rewrite Hm'. simpl. rewrite Hfilter.
  rewrite map_id_on; [reflexivity|].
  intros x Hx. apply list_elem_of_filter in Hx as [Hx1 Hx2]. apply Hupd_other.
  intros E. apply Hne. rewrite <- Hx1, <- Hmod. f_equal.
  assert (Hinj : forall a b, a ∈ Db.pruefungsleistung db -> b ∈ Db.pruefungsleistung db ->
                            Db.pl_id a = Db.pl_id b -> a = b).
  { clear -Hnd. induction (Db.pruefungsleistung db) as [|y l IH]; intros a b Ha Hb E;
      [inversion Ha|].
    simpl in Hnd. apply NoDup_cons in Hnd as [Hy Hnd].
    apply elem_of_cons in Ha as [->|Ha], Hb as [->|Hb]; try reflexivity.
    - exfalso. apply Hy. rewrite E. apply list_elem_of_fmap_2, Hb.
    - exfalso. apply Hy. rewrite <- E. apply list_elem_of_fmap_2, Ha.
    - apply IH; assumption. }
  apply Hinj; [exact Hx2 | exact Hr | congruence].
Qed.

Lemma update_pruefungsleistung_listed_witness :
  exists db' old new,
    Repo.update_pruefungsleistung 4 None (Some "2024-03-01") (Some (13 # 10)%Q) None
      Example.db_alg1 = Ok db'
    /\ Repo.list_pruefungsleistungen "ALG1" Example.db_alg1 = Ok old
    /\ Repo.list_pruefungsleistungen "ALG1" db' = Ok new
    /\ new ≡ₚ (4, "Testat", Some "2024-03-01", Some (13 # 10)%Q, 1)
              :: filter (fun d => d.1.1.1.1 <> 4) old.
Proof.
  destruct (update_pruefungsleistung_listed 4 None (Some "2024-03-01") (Some (13 # 10)%Q)
              None Example.db_alg1 "ALG1" (Db.mk_modul 1 "Algorithms" "ALG1" 5 "KLAUSUR" 1)
              (Db.mk_pruefungsleistung 4 "Testat" None None 1 1))
    as (db' & old & new & H1 & H2 & H3 & H4 & _).
  - exact rowid_order_db_alg1.
  - reflexivity.
  - simpl. do 3 right. left.
  - reflexivity.
  - reflexivity.
  - exists db', old, new. repeat split; assumption.
Defined.

(** ** Listings of Modules and Semester numbers *)

Section Stable.
Context {A : Type} (le : A -> A -> bool) (R : A -> A -> Prop).
Hypothesis le_total : forall x y, le x y = true \/ le y x = true.
Hypothesis le_trans : forall x y z, le x y = true -> le y z = true -> le x z = true.

Lemma insert_sorted_stable (x : A) (l : list A) :
  StronglySorted (stable_order le R) l ->
  (forall y, y ∈ l -> R x y) ->
  StronglySorted (stable_order le R) (Repo.insert_sorted le x l).
Proof.
  induction l as [|y l IH]; intros Hs Hx; simpl.
  - repeat constructor.
  - apply StronglySorted_inv in Hs as [Hs Hy]. destruct (le x y) eqn:E.
    + constructor; [constructor; assumption|].
      apply Forall_forall. intros z Hz. split; [|intros _; apply Hx, Hz].
      apply elem_of_cons in Hz as [->|Hz]; [exact E|].
      rewrite Forall_forall in Hy. exact (le_trans x y z E (proj1 (Hy z Hz))).
    + constructor.
      * apply IH; [exact Hs|]. intros z Hz. apply Hx. right. exact Hz.
      * apply Forall_forall. intros z Hz. rewrite insert_sorted_perm in Hz.
        apply elem_of_cons in Hz as [->|Hz].
        -- split; [|congruence]. destruct (le_total x y); [congruence | assumption].
        -- rewrite Forall_forall in Hy. apply Hy, Hz.
Qed.

Lemma order_by_stable (rows : list A) :
  StronglySorted R rows -> StronglySorted (stable_order le R) (Repo.order_by le rows).
Proof.
  induction rows as [|x rows IH]; intros Hs; simpl; [constructor|].
  apply StronglySorted_inv in Hs as [Hs Hx].
  apply insert_sorted_stable; [apply IH, Hs|].
  intros y Hy. apply elem_of_order_by in Hy. rewrite Forall_forall in Hx. apply Hx, Hy.
Qed.

End Stable.

Lemma StronglySorted_weaken {A : Type} (R1 R2 : A -> A -> Prop) (l : list A) :
  (forall a b, R1 a b -> R2 a b) -> StronglySorted R1 l -> StronglySorted R2 l.
Proof.
  intros HR. induction 1 as [|x l Hs IH Hx]; constructor; [exact IH|].
  rewrite Forall_forall in *. intros y Hy. apply HR, Hx, Hy.
Qed.

Lemma leb_trans (a b c : string) :
  String.leb a b = true -> String.leb b c = true -> String.leb a c = true.
Proof.
  intros H1 H2. apply Is_true_true. change (String.le a c).
  transitivity b; apply Is_true_true; assumption.
Qed.

Lemma by_nr_total (x y : Db.semester_row) : Repo.by_nr x y = true \/ Repo.by_nr y x = true.
Proof. unfold Repo.by_nr. lia. Qed.

Lemma by_nr_trans (x y z : Db.semester_row) :
  Repo.by_nr x y = true -> Repo.by_nr y z = true -> Repo.by_nr x z = true.
Proof. unfold Repo.by_nr. lia. Qed.

(** [list_module] returns every stored Module once, in the order of the
    names (compared byte by byte); Modules of the same name stand in the
    order of their creation.  [list_semester_nrn] returns the stored
    semester numbers in increasing order. *)
Theorem list_module_sorted (db : Db.Database) :
  rowid_order Db.mod_id (Db.modul db) ->
  (exists rows,
     Repo.list_module db = map Repo.modul_dict rows
     /\ rows ≡ₚ Db.modul db
     /\ StronglySorted
          (fun r1 r2 => String.le (Db.mod_name r1) (Db.mod_name r2)
                        /\ (Db.mod_name r1 = Db.mod_name r2 -> Db.mod_id r1 < Db.mod_id r2))
          rows)
  /\ Repo.list_semester_nrn db ≡ₚ map Db.sem_nr (Db.semester db)
  /\ StronglySorted Z.le (Repo.list_semester_nrn db).
Proof.
  intros Hrow. split; [|split].
  - eexists. split; [reflexivity|]. split; [apply order_by_perm|].
    pose proof (order_by_stable Repo.by_mod_name _
                  (fun x y => String.leb_total (Db.mod_name x) (Db.mod_name y))
                  (fun x y z => leb_trans (Db.mod_name x) (Db.mod_name y) (Db.mod_name z))
                  _ Hrow) as Hs.
    eapply StronglySorted_weaken; [|exact Hs].
    intros r1 r2 [H1 H2]. unfold Repo.by_mod_name in *. split.
    + apply Is_true_true, H1.
    + intros E. apply H2. rewrite E. destruct (String.leb_total (Db.mod_name r2) (Db.mod_name r2)); assumption.
  - unfold Repo.list_semester_nrn. rewrite order_by_perm. reflexivity.
  - unfold Repo.list_semester_nrn.
    pose proof (order_by_sorted Repo.by_nr by_nr_total by_nr_trans (Db.semester db)) as Hs.
    induction Hs as [|x l Hs IH Hx]; simpl; constructor; [exact IH|].
    apply Forall_forall. intros n Hn. rewrite Forall_forall in Hx.
    apply list_elem_of_fmap in Hn as (y & -> & Hy). specialize (Hx y Hy).
    unfold Repo.by_nr in Hx. lia.
Qed.

Lemma list_module_sorted_witness :
  (exists rows,
     Repo.list_module Example.db_alg1 = map Repo.modul_dict rows
     /\ rows ≡ₚ Db.modul Example.db_alg1
     /\ StronglySorted
          (fun r1 r2 => String.le (Db.mod_name r1) (Db.mod_name r2)
                        /\ (Db.mod_name r1 = Db.mod_name r2 -> Db.mod_id r1 < Db.mod_id r2))
          rows)
  /\ Repo.list_semester_nrn Example.db_alg1 ≡ₚ map Db.sem_nr (Db.semester Example.db_alg1)
  /\ StronglySorted Z.le (Repo.list_semester_nrn Example.db_alg1).
Proof.
  apply (list_module_sorted Example.db_alg1).
  repeat constructor; simpl; lia.
Defined.

(** ** The listing of Enrollments *)

Lemma compare_refl (a : string) : String.compare a a = Eq.
Proof.
  pose proof (String.compare_antisym a a) as H.
  destruct (String.compare a a); [reflexivity | discriminate | discriminate].
Qed.

Lemma ltb_string_lt (a b : string) : String.ltb a b = true <-> string_lt a b.
Proof.
  unfold string_lt, String.le, String.ltb, String.leb.
  destruct (String.compare a b) eqn:E; simpl.
  - apply String.compare_eq_iff in E. split; [discriminate | tauto].
  - split; [|reflexivity]. intros _. split; [exact I|].
    intros ->. rewrite compare_refl in E. discriminate.
  - split; [discriminate | tauto].
Qed.

Lemma leb_le (a b : string) : String.leb a b = true <-> String.le a b.
Proof. unfold String.le. split; [apply Is_true_true_2 | apply Is_true_true_1]. Qed.

Lemma string_lt_trans (a b c : string) : string_lt a b -> string_lt b c -> string_lt a c.
Proof.
  intros [H1 N1] [H2 N2]. split; [etransitivity; eassumption|].
  intros ->. apply N1. apply (anti_symm String.le); assumption.
Qed.

Lemma string_lt_le_trans (a b c : string) : string_lt a b -> String.le b c -> string_lt a c.
Proof.
  intros [H1 N1] H2. split; [etransitivity; eassumption|].
  intros ->. apply N1. apply (anti_symm String.le); assumption.
Qed.

Lemma string_trichotomy (a b : string) : string_lt a b \/ a = b \/ string_lt b a.
Proof.
  destruct (decide (a = b)) as [->|N]; [tauto|].
  destruct (total String.le a b); [left | right; right]; split; congruence.
Qed.

Lemma by_nr_kuerzel_art_iff (x y : Db.belegung_row * Db.semester_row * Db.modul_row) :
  Repo.by_nr_kuerzel_art x y = true
  <-> nr_kuerzel_art (Repo.belegung_dict x) (Repo.belegung_dict y).
Proof.
  destruct x as [[b1 s1] m1], y as [[b2 s2] m2].
  unfold Repo.by_nr_kuerzel_art, nr_kuerzel_art. simpl.
  rewrite orb_true_iff, andb_true_iff, orb_true_iff, andb_true_iff.
  rewrite Z.ltb_lt, Z.eqb_eq, ltb_string_lt, String.eqb_eq, leb_le. reflexivity.
Qed.

Lemma nr_kuerzel_art_total (d1 d2 : Z * string * option string * Z * string) :
  nr_kuerzel_art d1 d2 \/ nr_kuerzel_art d2 d1.
Proof.
  unfold nr_kuerzel_art.
  destruct (Z.lt_trichotomy d1.1.2 d2.1.2) as [H|[H|H]]; [tauto| |tauto].
  destruct (string_trichotomy d1.2 d2.2) as [K|[K|K]]; [tauto| |auto].
  destruct (total String.le d1.1.1.1.2 d2.1.1.1.2); [left | right]; right; auto.
Qed.

Lemma nr_kuerzel_art_trans (d1 d2 d3 : Z * string * option string * Z * string) :
  nr_kuerzel_art d1 d2 -> nr_kuerzel_art d2 d3 -> nr_kuerzel_art d1 d3.
Proof.
  unfold nr_kuerzel_art.
  intros [H1|[H1 [K1|[K1 A1]]]] [H2|[H2 [K2|[K2 A2]]]]; try (left; lia);
    right; (split; [lia|]).
  - left. eapply string_lt_trans; eassumption.
  - left. rewrite <- K2. exact K1.
  - left. rewrite K1. exact K2.
  - right. split; [congruence|]. etransitivity; eassumption.
Qed.

Lemma by_nr_kuerzel_art_total (x y : Db.belegung_row * Db.semester_row * Db.modul_row) :
  Repo.by_nr_kuerzel_art x y = true \/ Repo.by_nr_kuerzel_art y x = true.
Proof. rewrite !by_nr_kuerzel_art_iff. apply nr_kuerzel_art_total. Qed.

Lemma by_nr_kuerzel_art_trans (x y z : Db.belegung_row * Db.semester_row * Db.modul_row) :
  Repo.by_nr_kuerzel_art x y = true -> Repo.by_nr_kuerzel_art y z = true ->
  Repo.by_nr_kuerzel_art x z = true.
Proof. rewrite !by_nr_kuerzel_art_iff. apply nr_kuerzel_art_trans. Qed.

Lemma elem_of_join_belegung (db : Db.Database) (b : Db.belegung_row) (s : Db.semester_row)
    (m : Db.modul_row) :
  (b, s, m) ∈ Repo.join_belegung db
  <-> b ∈ Db.belegung db /\ s ∈ Db.semester db /\ m ∈ Db.modul db
      /\ Db.sem_id s = Db.bel_semester_id b /\ Db.mod_id m = Db.bel_modul_id b.
Proof.
  unfold Repo.join_belegung. rewrite list_elem_of_bind. split.
  - intros (b' & Hx & Hb). apply elem_of_order_by in Hb.
    apply list_elem_of_bind in Hx as (s' & Hx & Hs).
    apply list_elem_of_bind in Hx as (m' & Hx & Hm).
    apply list_elem_of_singleton in Hx. injection Hx as -> -> ->.
    apply list_elem_of_filter in Hs as [Hs1 Hs2].
    apply list_elem_of_filter in Hm as [Hm1 Hm2]. auto.
  - intros (Hb & Hs & Hm & Es & Em). exists b. split; [|apply elem_of_order_by, Hb].
    apply list_elem_of_bind. exists s. split; [|apply list_elem_of_filter; auto].
    apply list_elem_of_bind. exists m. split; [|apply list_elem_of_filter; auto].
    apply list_elem_of_singleton. reflexivity.
Qed.

(** [list_belegungen] returns one entry for every stored Enrollment joined
    with its Semester and its Module that passes the optional filters on
    module code and semester number, and nothing else; the entries are
    ordered by semester number, then module code, then kind. *)
Theorem list_belegungen_joined (kuerzel : option string) (semester_nr : option Z)
    (db : Db.Database) :
  (forall d,
     d ∈ Repo.list_belegungen kuerzel semester_nr db
     <-> exists b s m,
           b ∈ Db.belegung db /\ s ∈ Db.semester db /\ m ∈ Db.modul db
           /\ Db.sem_id s = Db.bel_semester_id b /\ Db.mod_id m = Db.bel_modul_id b
           /\ (forall k, kuerzel = Some k -> Db.mod_kuerzel m = k)
           /\ (forall n, semester_nr = Some n -> Db.sem_nr s = n)
           /\ d = (Db.bel_id b, Db.bel_art b, Db.bel_kommentar b, Db.sem_nr s,
                   Db.mod_kuerzel m))
  /\ StronglySorted nr_kuerzel_art (Repo.list_belegungen kuerzel semester_nr db).
Proof.
  unfold Repo.list_belegungen. split.
  - intros d. rewrite list_elem_of_fmap. split.
    + intros ([[b s] m] & -> & Hx). apply elem_of_order_by in Hx.
      exists b, s, m.
      assert (Hj : (b, s, m) ∈ Repo.join_belegung db
                   /\ (forall k, kuerzel = Some k -> Db.mod_kuerzel m = k)
                   /\ (forall n, semester_nr = Some n -> Db.sem_nr s = n)).
      { destruct semester_nr as [n|], kuerzel as [k|];
          repeat (apply list_elem_of_filter in Hx as [? Hx]); simpl in *;
          (split; [exact Hx|]); split; intros ? [=]; subst; congruence. }
      destruct Hj as (Hj & Hk & Hn). apply elem_of_join_belegung in Hj.
      destruct Hj as (? & ? & ? & ? & ?). repeat split; assumption.
    + intros (b & s & m & Hb & Hs & Hm & Es & Em & Hk & Hn & ->).
      exists (b, s, m). split; [reflexivity|]. apply elem_of_order_by.
      assert (Hj : (b, s, m) ∈ Repo.join_belegung db)
        by (apply elem_of_join_belegung; auto).
      destruct semester_nr as [n|], kuerzel as [k|];
        repeat (apply list_elem_of_filter; split; simpl; auto); exact Hj.
  - match goal with
    | |- context [Repo.order_by _ ?rows] =>
        pose proof (order_by_sorted Repo.by_nr_kuerzel_art by_nr_kuerzel_art_total
                      by_nr_kuerzel_art_trans rows) as Hs;
        induction Hs as [|x l Hs IH Hx]; simpl; constructor; [exact IH|]
    end.
    apply Forall_forall. intros d Hd. rewrite Forall_forall in Hx.
    apply list_elem_of_fmap in Hd as (y & -> & Hy).
    apply by_nr_kuerzel_art_iff, Hx, Hy.
Qed.

Lemma filter_none {A : Type} (P : A -> Prop) `{forall x, Decision (P x)} (l : list A) :
  (forall x, x ∈ l -> ~ P x) -> filter P l = [].
Proof.
  induction l as [|x l IH]; intros Hall; [reflexivity|].
  rewrite filter_cons, decide_False by (apply Hall; left).
  apply IH. intros y Hy. apply Hall. right. exact Hy.
Qed.

Lemma filter_unique {A : Type} (f : A -> Z) (l : list A) (i : Z) :
  NoDup (map f l) -> i ∈ map f l -> exists x, filter (fun y => f y = i) l = [x] /\ f x = i.
Proof.
  induction l as [|y l IH]; intros Hnd Hi; [inversion Hi|].
  simpl in Hnd. apply NoDup_cons in Hnd as [Hy Hnd].
  rewrite filter_cons. destruct (decide (f y = i)) as [E|E].
  - exists y. split; [|exact E]. f_equal. apply filter_none.
    intros z Hz Ez. apply Hy. rewrite E, <- Ez. apply list_elem_of_fmap_2, Hz.
  - apply IH; [exact Hnd|]. simpl in Hi. apply elem_of_cons in Hi as [Hi|Hi];
      [congruence | exact Hi].
Qed.

Lemma join_belegung_rows (db : Db.Database) :
  NoDup (map Db.sem_id (Db.semester db)) ->
  NoDup (map Db.mod_id (Db.modul db)) ->
  (forall b, b ∈ Db.belegung db ->
     Db.bel_semester_id b ∈ map Db.sem_id (Db.semester db)
     /\ Db.bel_modul_id b ∈ map Db.mod_id (Db.modul db)) ->
  map (fun x => x.1.1) (Repo.join_belegung db)
  = Repo.order_by Repo.by_unique_index (Db.belegung db).
Proof.
  intros Hs Hm Hfk. unfold Repo.join_belegung.
  assert (Hall : forall b, b ∈ Repo.order_by Repo.by_unique_index (Db.belegung db) ->
                           b ∈ Db.belegung db)
    by (intros b; apply elem_of_order_by).
  induction (Repo.order_by Repo.by_unique_index (Db.belegung db)) as [|b l IH];
    [reflexivity|].
  destruct (Hfk b (Hall b ltac:(left))) as [Fs Fm].
  destruct (filter_unique Db.sem_id _ _ Hs Fs) as (s & Es & _).
  destruct (filter_unique Db.mod_id _ _ Hm Fm) as (m & Em & _).
  change (map (fun x : Db.belegung_row * Db.semester_row * Db.modul_row => x.1.1)
            ((s ← filter (fun s => Db.sem_id s = Db.bel_semester_id b) (Db.semester db);
              m ← filter (fun m => Db.mod_id m = Db.bel_modul_id b) (Db.modul db);
              [(b, s, m)])
             ++ (b ← l;
                 s ← filter (fun s => Db.sem_id s = Db.bel_semester_id b) (Db.semester db);
                 m ← filter (fun m => Db.mod_id m = Db.bel_modul_id b) (Db.modul db);
                 [(b, s, m)]))
          = b :: l).
  rewrite map_app, IH, Es by (intros x Hx; apply Hall; right; exact Hx).
  simpl. rewrite Em. reflexivity.
Qed.

(** In a reachable stored state the unfiltered listing of Enrollments has
    exactly one entry for every stored Enrollment. *)
Theorem list_belegungen_complete (db : Db.Database) :
  reachable db ->
  map (fun d => d.1.1.1.1) (Repo.list_belegungen None None db)
  ≡ₚ map Db.bel_id (Db.belegung db)
  /\ length (Repo.list_belegungen None None db) = length (Db.belegung db).
Proof.
  intros Hr. pose proof (reachable_consistent db Hr) as Hc.
  destruct (reachable_frame db Hr) as [_ Hsem].
  destruct Hc as (sg & _ & _ & _ & Hmod & _ & _ & Hfk & _).
  assert (Hj : map (fun x => x.1.1) (Repo.join_belegung db)
               = Repo.order_by Repo.by_unique_index (Db.belegung db)).
  { apply join_belegung_rows.
    - rewrite Hsem. compute_done.
    - apply rowid_order_NoDup, Hmod.
    - intros b Hb. destruct (Hfk b Hb) as (_ & ? & ?). auto. }
  assert (Hp : map (fun d => d.1.1.1.1) (Repo.list_belegungen None None db)
               ≡ₚ map Db.bel_id (Db.belegung db)).
  { unfold Repo.list_belegungen. rewrite map_map.
    rewrite (map_ext _ (fun x => Db.bel_id x.1.1)) by (intros [[b s] m]; reflexivity).
    rewrite order_by_perm, <- (map_map (fun x => x.1.1) Db.bel_id), Hj, order_by_perm.
    reflexivity. }
  split; [exact Hp|].
  apply Permutation_length in Hp. rewrite !length_map in Hp. exact Hp.
Qed.

Lemma list_belegungen_complete_witness :
  map (fun d => d.1.1.1.1) (Repo.list_belegungen None None Example.db_alg1)
  ≡ₚ map Db.bel_id (Db.belegung Example.db_alg1)
  /\ length (Repo.list_belegungen None None Example.db_alg1)
     = length (Db.belegung Example.db_alg1).
Proof. exact (list_belegungen_complete Example.db_alg1 reachable_db_alg1). Defined.

(** ** Enrollments: create, update, delete *)

(** [create_belegung] for a (semester, module, kind) that is not stored yet:
    with a kind other than "geplant" and "aktuell" the call returns normally
    and stores nothing; with one of these kinds it appends one Enrollment
    under an identifier that was not in use.  In both cases
    [delete_belegung] of the same triple then gives back the stored state
    from before. *)
Theorem create_belegung_new (db : Db.Database) (nr : Z) (kuerzel art kommentar : string)
    (s : Db.semester_row) (m : Db.modul_row) :
  Repo.select_semester_join nr db = Some s ->
  Repo.select_semester nr db = Some s ->
  Repo.select_modul kuerzel db = Some m ->
  (Db.sem_id s, Db.mod_id m, art) ∉ map Repo.bel_key (Db.belegung db) ->
  exists db',
    Repo.create_belegung nr kuerzel art kommentar db = Ok db'
    /\ (Db.check_art art = false -> db' = db)
    /\ (Db.check_art art = true ->
        exists id,
          (id ∉ map Db.bel_id (Db.belegung db))
          /\ Db.belegung db'
             = Db.belegung db
               ++ [Db.mk_belegung id art (Some kommentar) (Db.sem_id s) (Db.mod_id m)])
    /\ Repo.delete_belegung nr kuerzel art db' = Ok db
    /\ Db.modul db' = Db.modul db
    /\ Db.pruefungsleistung db' = Db.pruefungsleistung db.
Proof.
  intros Hj Hs Hm Hkey.
  assert (Hdel : forall rows,
            filter (fun r => ~ (Db.bel_semester_id r = Db.sem_id s
                                /\ Db.bel_modul_id r = Db.mod_id m
                                /\ Db.bel_art r = art))
                   (Db.belegung db ++ rows)
            = Db.belegung db
              ++ filter (fun r => ~ (Db.bel_semester_id r = Db.sem_id s
                                     /\ Db.bel_modul_id r = Db.mod_id m
                                     /\ Db.bel_art r = art)) rows).
  { intros rows. rewrite filter_app. f_equal. apply filter_all.
    intros r Hr (E1 & E2 & E3). apply Hkey. apply list_elem_of_fmap.
    exists r. split; [|exact Hr]. unfold Repo.bel_key. congruence. }
  unfold Repo.create_belegung. rewrite Hj, Hm. simpl.
  unfold Repo.insert_or_ignore_belegung.
  destruct (Db.check_art art) eqn:Hc; simpl.
  - rewrite bool_decide_eq_false_2 by exact Hkey.
    rewrite bool_decide_eq_true_2.
    2:{ apply head_filter_Some in Hs as [Hs _]. apply head_filter_Some in Hm as [Hm _].
        split; apply list_elem_of_fmap_2; assumption. }
    eexists. split; [reflexivity|]. split; [discriminate|]. split.
    { intros _. eexists. split; [|reflexivity].
      intros Hid.
      pose proof (next_rowid_fresh _ _ Hid). lia. }
    split; [|split; reflexivity].
    unfold Repo.delete_belegung, Repo.select_semester, Repo.select_modul. simpl.
    fold (Repo.select_semester nr db). fold (Repo.select_modul kuerzel db).
    rewrite Hs, Hm. simpl. rewrite Hdel.
    rewrite filter_cons, decide_False by (simpl; tauto).
    rewrite filter_nil, app_nil_r. unfold Repo.with_belegung. simpl.
    rewrite database_eta. reflexivity.
  - exists db. split; [reflexivity|]. split; [reflexivity|]. split; [discriminate|].
    split; [|split; reflexivity].
    unfold Repo.delete_belegung. rewrite Hs, Hm. simpl.
    rewrite <- (app_nil_r (Db.belegung db)) at 1. rewrite Hdel, filter_nil, app_nil_r.
    unfold Repo.with_belegung. rewrite database_eta. reflexivity.
Qed.

Lemma create_belegung_new_witness :
  exists db',
    Repo.create_belegung 3 "NET1" "bestanden" "" Example.db_alg1 = Ok db'
    /\ (Db.check_art "bestanden" = false -> db' = Example.db_alg1)
    /\ Repo.delete_belegung 3 "NET1" "bestanden" db' = Ok Example.db_alg1.
Proof.
  destruct (create_belegung_new Example.db_alg1 3 "NET1" "bestanden" ""
              (Db.mk_semester 3 3 "Semester 3" 1)
              (Db.mk_modul 2 "Networks" "NET1" 5 "PROJEKT" 1))
    as (db' & H1 & H2 & _ & H3 & _).
  - reflexivity.
  - reflexivity.
  - reflexivity.
  - compute_done.
  - exists db'. split; [exact H1|]. split; [exact H2 | exact H3].
Defined.

Lemma existsb_filter {A : Type} (P : A -> Prop) `{forall x, Decision (P x)} (l : list A) :
  existsb (fun x => bool_decide (P x)) l = negb (bool_decide (filter P l = [])).
Proof.
  induction l as [|x l IH]; [reflexivity|]. simpl. rewrite filter_cons.
  destruct (decide (P x)) as [Px|Px].
  - rewrite (bool_decide_eq_true_2 _ Px). reflexivity.
  - rewrite (bool_decide_eq_false_2 _ Px). exact IH.
Qed.

(** The rows that have the new key after the kind of the rows of one
    (semester, module) has been set. *)
Lemma update_art_hits (a : string) (kommentar : option string) (sid mid : Z)
    (rows : list Db.belegung_row) :
  length (filter (fun r => Repo.bel_key r = (sid, mid, a))
            (map (fun r =>
                    if bool_decide (Db.bel_semester_id r = sid /\ Db.bel_modul_id r = mid)
                    then Db.mk_belegung (Db.bel_id r)
                           (Repo.set_if_not_None (Some a) (Db.bel_art r))
                           (Repo.set_nullable_if_not_None kommentar (Db.bel_kommentar r))
                           (Db.bel_semester_id r) (Db.bel_modul_id r)
                    else r)
                 rows))
  = length (filter (fun r => Db.bel_semester_id r = sid /\ Db.bel_modul_id r = mid) rows).
Proof.
  induction rows as [|r rows IH]; [reflexivity|]. simpl.
  rewrite !filter_cons.
  destruct (decide (Db.bel_semester_id r = sid /\ Db.bel_modul_id r = mid)) as [Hh|Hh].
  - rewrite (bool_decide_eq_true_2 _ Hh).
    rewrite decide_True by (unfold Repo.bel_key; simpl; destruct Hh; congruence).
    simpl. f_equal. exact IH.
  - rewrite (bool_decide_eq_false_2 _ Hh).
    rewrite decide_False; [exact IH|]. unfold Repo.bel_key. intros [= E1 E2 E3]. tauto.
Qed.

(** [update_belegung] with a new kind, by the number of stored Enrollments
    of the Semester and the Module: with none the call returns normally and
    changes nothing; with at least one and a kind other than "geplant" and
    "aktuell" it raises [IntegrityError]; with two or more it raises
    [IntegrityError] for every kind; with exactly one and a valid kind it
    succeeds, and the Enrollment is then the only one of its
    (semester, module, kind). *)
Theorem update_belegung_cases (db : Db.Database) (nr : Z) (kuerzel : string)
    (s : Db.semester_row) (m : Db.modul_row) :
  Repo.select_semester nr db = Some s ->
  Repo.select_modul kuerzel db = Some m ->
  let hits := filter (fun r => Db.bel_semester_id r = Db.sem_id s
                               /\ Db.bel_modul_id r = Db.mod_id m) (Db.belegung db) in
  (hits = [] -> forall art kommentar,
     Repo.update_belegung nr kuerzel art kommentar db = Ok db)
  /\ (hits <> [] -> forall a kommentar, Db.check_art a = false ->
        Repo.update_belegung nr kuerzel (Some a) kommentar db = Raise IntegrityError)
  /\ ((1 < length hits)%nat -> forall a kommentar,
        Repo.update_belegung nr kuerzel (Some a) kommentar db = Raise IntegrityError)
  /\ (length hits = 1%nat -> forall a kommentar, Db.check_art a = true ->
        exists db',
          Repo.update_belegung nr kuerzel (Some a) kommentar db = Ok db'
          /\ count_belegung (Db.sem_id s, Db.mod_id m, a) db' = 1%nat
          /\ map Db.bel_id (Db.belegung db') = map Db.bel_id (Db.belegung db)
          /\ Db.modul db' = Db.modul db
          /\ Db.pruefungsleistung db' = Db.pruefungsleistung db).
Proof.
  intros Hs Hm hits.
  assert (Hex : existsb (fun r => bool_decide (Db.bel_semester_id r = Db.sem_id s
                                               /\ Db.bel_modul_id r = Db.mod_id m))
                        (Db.belegung db)
                = negb (bool_decide (hits = []))) by apply existsb_filter.
  unfold Repo.update_belegung. rewrite Hs, Hm. simpl.
  unfold Repo.update_belegung_rows.
  split; [|split; [|split]].
  - intros Hh art kommentar.
    assert (Hid : forall (ar ko : option string),
              map (fun r =>
                     if bool_decide (Db.bel_semester_id r = Db.sem_id s
                                     /\ Db.bel_modul_id r = Db.mod_id m)
                     then Db.mk_belegung (Db.bel_id r)
                            (Repo.set_if_not_None ar (Db.bel_art r))
                            (Repo.set_nullable_if_not_None ko (Db.bel_kommentar r))
                            (Db.bel_semester_id r) (Db.bel_modul_id r)
                     else r)
                  (Db.belegung db)
              = Db.belegung db).
    { intros ar ko. apply map_id_on. intros r Hr.
      rewrite bool_decide_eq_false_2; [reflexivity|].
      intros Hhit. assert (Hin : r ∈ hits) by (apply list_elem_of_filter; auto).
      rewrite Hh in Hin. inversion Hin. }
    destruct art as [a|], kommentar as [c|]; try reflexivity.
    + rewrite Hex, Hh, update_art_hits. fold hits.
      rewrite Hh, (Hid (Some a) (Some c)). simpl.
      unfold Repo.with_belegung. rewrite database_eta. reflexivity.
    + rewrite Hex, Hh, update_art_hits. fold hits.
      rewrite Hh, (Hid (Some a) None). simpl.
      unfold Repo.with_belegung. rewrite database_eta. reflexivity.
    + rewrite (Hid None (Some c)). unfold Repo.with_belegung.
      rewrite database_eta. reflexivity.
  - intros Hh a kommentar Hc.
    rewrite Hex, bool_decide_eq_false_2, Hc by exact Hh. simpl.
    destruct kommentar; reflexivity.
  - intros Hh a kommentar.
    assert (R : forall A (x y : result A) (b : bool),
              (if b then Raise IntegrityError else
                 if bool_decide (1 < length hits)%nat then Raise IntegrityError else y)
              = Raise IntegrityError).
    { intros A x y b. rewrite bool_decide_eq_true_2 by exact Hh. destruct b; reflexivity. }
    destruct kommentar; rewrite update_art_hits; fold hits; apply (R _ (Ok db)).
  - intros Hh a kommentar Hc.
    assert (Hne : hits <> []) by (intros E; rewrite E in Hh; discriminate).
    destruct kommentar as [c|];
      rewrite Hc, andb_false_r, update_art_hits; fold hits;
      (rewrite bool_decide_eq_false_2 by lia);
      (eexists; split; [reflexivity|]);
      unfold count_belegung, Repo.with_belegung; cbn [Db.belegung];
      rewrite update_art_hits; fold hits;
      (split; [exact Hh|]); (split; [|split; reflexivity]);
      clear Hex; apply map_map_same; intros r; case_bool_decide; reflexivity.
Qed.

Lemma update_belegung_cases_witness :
  exists db',
    Repo.update_belegung 1 "ALG1" (Some "aktuell") None Example.db_alg1 = Ok db'
    /\ count_belegung (1, 1, "aktuell") db' = 1%nat.
Proof.
  pose proof (update_belegung_cases Example.db_alg1 1 "ALG1"
                (Db.mk_semester 1 1 "Semester 1" 1)
                (Db.mk_modul 1 "Algorithms" "ALG1" 5 "KLAUSUR" 1)
                eq_refl eq_refl) as H.
  cbv zeta in H. destruct H as (_ & _ & _ & H).
  destruct (H eq_refl "aktuell" None eq_refl) as (db' & H1 & H2 & _).
  exists db'. split; [exact H1 | exact H2].
Defined.

(** ** Deleting an Enrollment *)

(** [delete_belegung] removes the Enrollments of the given (semester,
    module, kind) and no other row: afterwards none has this triple, the
    number of Enrollments of every other triple is as before, and a second
    call changes nothing. *)
Theorem delete_belegung_removes (db : Db.Database) (nr : Z) (kuerzel art : string)
    (s : Db.semester_row) (m : Db.modul_row) :
  Repo.select_semester nr db = Some s ->
  Repo.select_modul kuerzel db = Some m ->
  exists db',
    Repo.delete_belegung nr kuerzel art db = Ok db'
    /\ count_belegung (Db.sem_id s, Db.mod_id m, art) db' = 0%nat
    /\ (forall key, key <> (Db.sem_id s, Db.mod_id m, art) ->
          count_belegung key db' = count_belegung key db)
    /\ Repo.delete_belegung nr kuerzel art db' = Ok db'
    /\ Db.modul db' = Db.modul db
    /\ Db.pruefungsleistung db' = Db.pruefungsleistung db.
Proof.
  intros Hs Hm. unfold Repo.delete_belegung. rewrite Hs, Hm. simpl.
  eexists. split; [reflexivity|].
  unfold count_belegung, Repo.select_semester, Repo.select_modul. simpl.
  fold (Repo.select_semester nr db). fold (Repo.select_modul kuerzel db).
  rewrite Hs, Hm. simpl.
  split; [|split; [|split; [|split; reflexivity]]].
  - rewrite list_filter_filter. rewrite filter_none; [reflexivity|].
    intros r _ [E H]. apply H. unfold Repo.bel_key in E. injection E as -> -> ->. auto.
  - intros key Hkey. rewrite list_filter_filter. f_equal.
    apply list_filter_iff. intros r. split; [tauto|]. intros E. split; [exact E|].
    intros (E1 & E2 & E3). apply Hkey. rewrite <- E. unfold Repo.bel_key. congruence.
  - unfold Repo.with_belegung. simpl. rewrite list_filter_filter. do 2 f_equal.
    apply list_filter_iff. intros r. tauto.
Qed.

Lemma delete_belegung_removes_witness :
  exists db',
    Repo.delete_belegung 1 "ALG1" "geplant" Example.db_alg1 = Ok db'
    /\ count_belegung (1, 1, "geplant") db' = 0%nat
    /\ Repo.delete_belegung 1 "ALG1" "geplant" db' = Ok db'.
Proof.
  destruct (delete_belegung_removes Example.db_alg1 1 "ALG1" "geplant"
              (Db.mk_semester 1 1 "Semester 1" 1)
              (Db.mk_modul 1 "Algorithms" "ALG1" 5 "KLAUSUR" 1) eq_refl eq_refl)
    as (db' & H1 & H2 & _ & H3 & _).
  exists db'. split; [exact H1|]. split; [exact H2 | exact H3].
Defined.

(** ** Deleting a Module: lookups afterwards *)

Lemma NoDup_fmap_inj {A : Type} (f : A -> Z) (l : list A) (a b : A) :
  NoDup (map f l) -> a ∈ l -> b ∈ l -> f a = f b -> a = b.
Proof.
  induction l as [|y l IH]; intros Hnd Ha Hb E; [inversion Ha|].
  simpl in Hnd. apply NoDup_cons in Hnd as [Hy Hnd].
  apply elem_of_cons in Ha as [->|Ha], Hb as [->|Hb]; try reflexivity.
  - exfalso. apply Hy. rewrite E. apply list_elem_of_fmap_2, Hb.
  - exfalso. apply Hy. rewrite <- E. apply list_elem_of_fmap_2, Ha.
  - apply IH; assumption.
Qed.

Lemma filter_ext_in {A : Type} (P Q : A -> Prop) `{forall x, Decision (P x)}
    `{forall x, Decision (Q x)} (l : list A) :
  (forall x, x ∈ l -> P x <-> Q x) -> filter P l = filter Q l.
Proof.
  induction l as [|x l IH]; intros Hall; [reflexivity|].
  rewrite !filter_cons, IH by (intros y Hy; apply Hall; right; exact Hy).
  destruct (decide (P x)) as [Px|Px], (decide (Q x)) as [Qx|Qx]; try reflexivity;
    exfalso; [apply Qx | apply Px]; apply (Hall x ltac:(left)); assumption.
Qed.

(** After [delete_modul] of a code that names one Module only, the code is
    unknown: reading, deleting again and listing its ExamResults raise the
    not-found error.  Every other code reads as before. *)
Theorem delete_modul_then_not_found (db : Db.Database) (k : string) (m : Db.modul_row) :
  unique_modul_id db ->
  Repo.select_modul k db = Some m ->
  (forall r, r ∈ Db.modul db -> Db.mod_kuerzel r = k -> r = m) ->
  exists db',
    Repo.delete_modul k db = Ok db'
    /\ Repo.get_modul k db' = Raise (Repo.nicht_gefunden k)
    /\ Repo.delete_modul k db' = Raise (Repo.nicht_gefunden k)
    /\ Repo.list_pruefungsleistungen k db' = Raise (Repo.nicht_gefunden k)
    /\ (forall k', k' <> k ->
          Repo.get_modul k' db' = Repo.get_modul k' db
          /\ Repo.list_pruefungsleistungen k' db' = Repo.list_pruefungsleistungen k' db).
Proof.
  intros Hnd Hm Hone. destruct (head_filter_Some _ _ _ Hm) as [Hin Hk]. simpl in Hk.
  unfold Repo.delete_modul at 1. unfold Repo._get_modul_id. rewrite Hm. simpl.
  eexists. split; [reflexivity|].
  set (db' := Db.mk_database _ _ _ _ _).
  assert (Hgone : Repo.select_modul k db' = None).
  { apply head_filter_None. intros r Hr E.
    apply list_elem_of_filter in Hr as [Hne Hr]. apply Hne. simpl in E.
    rewrite (Hone r Hr E). reflexivity. }
  assert (Hother : forall r, r ∈ Db.modul db -> Db.mod_kuerzel r <> k ->
                             Db.mod_id r <> Db.mod_id m).
  { intros r Hr Hne Eid. apply Hne. rewrite <- Hk. f_equal.
    exact (NoDup_fmap_inj Db.mod_id _ r m Hnd Hr Hin Eid). }
  assert (Hkept : forall k', k' <> k -> Repo.select_modul k' db' = Repo.select_modul k' db).
  { intros k' Hk'. unfold Repo.select_modul. simpl. rewrite list_filter_filter.
    f_equal. apply filter_ext_in. intros r Hr. split; [tauto|]. intros E.
    split; [exact E|]. apply Hother; [exact Hr | congruence]. }
  unfold Repo.get_modul, Repo.delete_modul, Repo.list_pruefungsleistungen,
    Repo._get_modul_id.
  rewrite Hgone. simpl. do 3 (split; [reflexivity|]).
  intros k' Hk'. rewrite (Hkept k' Hk'). split; [reflexivity|].
  destruct (Repo.select_modul k' db) as [m'|] eqn:Hm'; [|reflexivity]. simpl.
  destruct (head_filter_Some _ _ _ Hm') as [Hin' Hk'']. simpl in Hk''.
  rewrite list_filter_filter. do 3 f_equal. apply filter_ext_in.
  intros r _. split; [tauto|]. intros E. split; [exact E|]. rewrite E.
  apply Hother; [exact Hin' | congruence].
Qed.

Lemma delete_modul_then_not_found_witness :
  exists db',
    Repo.delete_modul "ALG1" Example.db_alg1 = Ok db'
    /\ Repo.get_modul "ALG1" db' = Raise (Repo.nicht_gefunden "ALG1")
    /\ Repo.get_modul "NET1" db' = Repo.get_modul "NET1" Example.db_alg1.
Proof.
  destruct (delete_modul_then_not_found Example.db_alg1 "ALG1"
              (Db.mk_modul 1 "Algorithms" "ALG1" 5 "KLAUSUR" 1))
    as (db' & H1 & H2 & _ & _ & H3).
  - unfold unique_modul_id. compute_done.
  - reflexivity.
  - intros r Hr Hc. simpl in Hr.
    repeat (apply elem_of_cons in Hr as [->|Hr]); [reflexivity | discriminate | inversion Hr].
  - exists db'. split; [exact H1|]. split; [exact H2|]. apply H3. discriminate.
Defined.

(** ** Creating and deleting a Module *)

(** Round trip: in a stored state that satisfies the schema constraints,
    creating a Module under a code that is not in use and deleting that code
    again gives back the stored state from before. *)
Theorem create_delete_modul (db : Db.Database) (name kuerzel : string) (ects : Z)
    (pruefungsform : Pruefungsform) :
  consistent db ->
  kuerzel ∉ map Db.mod_kuerzel (Db.modul db) ->
  exists db1,
    Repo.create_modul name kuerzel ects pruefungsform db = Ok db1
    /\ Repo.delete_modul kuerzel db1 = Ok db.
Proof.
  intros (sg & Hsg & _ & _ & _ & _ & _ & Hbel & Hpl) Hk.
  unfold Repo.create_modul, Repo.insert_modul. rewrite Hsg. simpl.
  rewrite bool_decide_eq_true_2 by left.
  eexists. split; [reflexivity|].
  unfold Repo.delete_modul, Repo._get_modul_id, Repo.select_modul. simpl.
  rewrite head_filter_app. fold (Repo.select_modul kuerzel db).
  rewrite (select_modul_missing _ _ Hk), filter_cons, decide_True by reflexivity.
  simpl.
  assert (Hfresh : forall i, i ∈ map Db.mod_id (Db.modul db) ->
                             i <> Db.next_rowid (map Db.mod_id (Db.modul db))).
  { intros i Hi. pose proof (next_rowid_fresh _ _ Hi). lia. }
  rewrite filter_app, filter_cons, decide_False, filter_nil, app_nil_r
    by (simpl; intros E; exact (E eq_refl)).
  rewrite !filter_all.
  - rewrite database_eta. reflexivity.
  - intros p Hp. apply Hfresh, Hpl, Hp.
  - intros b Hb. apply Hfresh. destruct (Hbel b Hb) as (_ & _ & H). exact H.
  - intros r Hr. apply Hfresh, list_elem_of_fmap_2, Hr.
Qed.

Lemma create_delete_modul_witness :
  exists db1,
    Repo.create_modul "Kryptologie" "KRY1" 5 KLAUSUR Example.db_alg1 = Ok db1
    /\ Repo.delete_modul "KRY1" db1 = Ok Example.db_alg1.
Proof.
  apply (create_delete_modul Example.db_alg1 "Kryptologie" "KRY1" 5 KLAUSUR).
  - exact (reachable_consistent _ reachable_db_alg1).
  - compute_done.
Defined.

(** ** Graph construction: Semesters and their Modules *)

Lemma load_semester_loaded (rows : list Db.semester_row) :
  (Repo.load_semester rows).1
  = map (fun r => Semester.init (Db.sem_nr r) (Db.sem_bezeichnung r)) rows
  /\ (NoDup (map Db.sem_id rows) ->
      forall k a, (Repo.load_semester rows).2 !! k = Some a
                  <-> exists r, rows !! a = Some r /\ Db.sem_id r = k).
Proof.
  unfold Repo.load_semester.
  induction rows as [|r rows IH] using rev_ind.
  - simpl. split; [reflexivity|]. intros _ k a. rewrite lookup_empty. split; [discriminate|].
    intros (r & Hr & _). rewrite lookup_nil in Hr. discriminate.
  - rewrite fold_left_app. simpl.
    destruct (fold_left _ rows ([], ∅)) as [sems sem_map]. simpl in *.
    destruct IH as [Hsems Hmap].
    assert (Hlen : length sems = length rows) by (rewrite Hsems; apply length_map).
    split; [rewrite map_app, Hsems; reflexivity|].
    intros Hnd k a. rewrite map_app in Hnd. apply NoDup_app in Hnd as (Hnd & Hfresh & _).
    specialize (Hmap Hnd). split.
    + destruct (decide (Db.sem_id r = k)) as [<-|Hne].
      * rewrite lookup_insert_eq. intros [= <-]. exists r. split; [|reflexivity].
        rewrite lookup_app_r, Hlen, Nat.sub_diag by lia. reflexivity.
      * rewrite lookup_insert_ne by exact Hne. intros Hk.
        apply Hmap in Hk as (r' & Hr' & Hk). exists r'. split; [|exact Hk].
        apply lookup_app_l_Some, Hr'.
    + intros (r' & Hr' & Hk). apply lookup_app_Some in Hr' as [Hr'|[Hi Hr']].
      * assert (Db.sem_id r <> k).
        { intros Heq. apply (Hfresh k).
          - rewrite <- Hk. apply list_elem_of_fmap_2. eapply list_elem_of_lookup_2, Hr'.
          - rewrite <- Heq. simpl. left. }
        rewrite lookup_insert_ne by assumption. apply Hmap. eauto.
      * apply list_lookup_singleton_Some in Hr' as [Hi' <-]. subst k.
        rewrite lookup_insert_eq. f_equal. lia.
Qed.

Lemma load_belegung_attached (sem_map mod_map : gmap Z nat) (rows : list Db.belegung_row)
    (sems sems' : list (Semester.t nat)) :
  Repo.load_belegung sem_map mod_map rows sems = Ok sems' ->
  length sems' = length sems
  /\ (forall b, b ∈ rows -> is_Some (mod_map !! Db.bel_modul_id b))
  /\ forall a s0, sems !! a = Some s0 ->
       sems' !! a
       = Some (Semester.mk (Semester.nummer s0) (Semester.bezeichnung s0)
                 (Semester.geplante_module s0
                  ++ omap (fun b => mod_map !! Db.bel_modul_id b)
                       (filter (fun b => sem_map !! Db.bel_semester_id b = Some a
                                         /\ Db.bel_art b = "geplant") rows))
                 (Semester.bestandene_module s0
                  ++ omap (fun b => mod_map !! Db.bel_modul_id b)
                       (filter (fun b => sem_map !! Db.bel_semester_id b = Some a
                                         /\ Db.bel_art b <> "geplant") rows))).
Proof.
  unfold Repo.load_belegung. revert sems.
  induction rows as [|r rows IH]; intros sems; simpl.
  - intros [= <-]. split; [reflexivity|]. split; [intros b Hb; inversion Hb|].
    intros a s0 Hs. simpl. rewrite !app_nil_r, Hs. destruct s0; reflexivity.
  - destruct (getitem sem_map (Db.bel_semester_id r)) as [sa|e] eqn:Gs; simpl;
      [|discriminate].
    destruct (getitem mod_map (Db.bel_modul_id r)) as [ma|e] eqn:Gm; simpl;
      [|discriminate].
    apply getitem_Ok in Gs. apply getitem_Ok in Gm. intros Hrest.
    destruct (IH _ Hrest) as (Hlen & Hdom & Hat). split; [|split].
    + rewrite Hlen. apply length_alter.
    + intros b Hb. apply elem_of_cons in Hb as [->|Hb]; [eauto | apply Hdom, Hb].
    + intros a s0 Hs. rewrite !filter_cons.
      destruct (decide (a = sa)) as [->|Hne].
      * rewrite (Hat sa (Semester.belege ma (Db.bel_art r) s0))
          by (rewrite list_lookup_alter_eq, Hs; reflexivity).
        unfold Semester.belege.
        destruct (String.eqb_spec (Db.bel_art r) "geplant") as [E|E].
        -- rewrite decide_True by auto. rewrite decide_False by tauto.
           simpl. rewrite Gm, <- app_assoc. reflexivity.
        -- rewrite decide_False by tauto. rewrite decide_True by auto.
           simpl. rewrite Gm, <- app_assoc. reflexivity.
      * rewrite !decide_False by (intros [E _]; congruence).
        apply Hat. rewrite list_lookup_alter_ne by congruence. exact Hs.
Qed.

Lemma Forall2_omap_omap {A B C : Type} (f : A -> option B) (g : B -> option C)
    (P : A -> C -> Prop) (l : list A) :
  (forall x, x ∈ l -> exists y z, f x = Some y /\ g y = Some z /\ P x z) ->
  Forall2 P l (omap g (omap f l)).
Proof.
  induction l as [|x l IH]; intros Hall; simpl; [constructor|].
  destruct (Hall x ltac:(left)) as (y & z & -> & Hg & HP). simpl. rewrite Hg.
  constructor; [exact HP|]. apply IH. intros x' Hx'. apply Hall. right. exact Hx'.
Qed.

(** Graph construction wires every Semester to its Modules.  The loaded
    Program has one Semester object for each of its stored Semesters, in the
    order of the semester numbers; the planned list of a Semester object
    holds the Module objects of the Enrollments of kind "geplant" of that
    Semester, its current/passed list those of every other kind, in the
    order of the Enrollments; and these are the Module objects of the
    Program itself, with the ExamResults attached to them. *)
Theorem load_domain_semester_modules (db : Db.Database) (sg : Studiengang.t) :
  unique_modul_id db ->
  NoDup (map Db.sem_id (Db.semester db)) ->
  Repo.load_domain db = Ok sg ->
  Forall2 (semester_loaded db sg) (Studiengang.semester sg)
          (Repo.order_by Repo.by_nr (owned_semester db)).
Proof.
  intros Huniq Hsemid. unfold Repo.load_domain, semester_loaded, module_object,
    owned_semester, owned_module.
  destruct (head (Db.studiengang db)) as [sg_row|]; simpl; [|discriminate].
  set (srows := Repo.order_by Repo.by_nr
                  (filter (fun r => Db.sem_studiengang_id r = Db.sg_id sg_row)
                          (Db.semester db))).
  set (mrows := filter (fun r => Db.mod_studiengang_id r = Db.sg_id sg_row) (Db.modul db)).
  destruct (load_semester_loaded srows) as [Hsems Hsmap].
  destruct (Repo.load_semester srows) as [sems sem_map]. simpl in Hsems, Hsmap.
  destruct (Repo.load_module mrows) as [[mods mod_map]|] eqn:Hmods; simpl; [|discriminate].
  destruct (Repo.load_belegung _ _ _ _) as [sems'|] eqn:Hsems'; simpl; [|discriminate].
  destruct (Repo.load_pruefungsleistung _ _ _) as [mods'|] eqn:Hmods'; simpl;
    [|discriminate].
  intros [= <-]. simpl.
  assert (Hnd : NoDup (map Db.sem_id srows)).
  { unfold srows. rewrite order_by_perm. apply NoDup_fmap_filter, Hsemid. }
  specialize (Hsmap Hnd).
  destruct (load_module_loaded _ _ Hmods) as (Hlen & _ & _ & Hmap). simpl in Hlen, Hmap.
  specialize (Hmap (NoDup_fmap_filter _ _ _ Huniq)).
  destruct (load_pruefungsleistung_attached _ _ _ _ Hmods') as [Hlen' _].
  destruct (load_belegung_attached _ _ _ _ _ Hsems') as (Hslen & Hdom & Hat).
  apply Forall2_same_length_lookup. split.
  { rewrite length_map, Hslen, Hsems, length_map. reflexivity. }
  intros i s sr Hs Hsr. rewrite list_lookup_fmap in Hs.
  assert (Hs0 : sems !! i = Some (Semester.init (Db.sem_nr sr) (Db.sem_bezeichnung sr))).
  { rewrite Hsems, list_lookup_fmap, Hsr. reflexivity. }
  rewrite (Hat i _ Hs0) in Hs. simpl in Hs. injection Hs as <-. simpl.
  assert (Hkey : forall b, sem_map !! Db.bel_semester_id b = Some i
                           <-> Db.bel_semester_id b = Db.sem_id sr).
  { intros b. rewrite Hsmap. split.
    - intros (r & Hr & E). congruence.
    - intros E. eauto. }
  assert (Hobj : forall b, b ∈ Db.belegung db ->
            exists a m, mod_map !! Db.bel_modul_id b = Some a
                        /\ mods' !! a = Some m
                        /\ exists j mr, mrows !! j = Some mr
                                        /\ Db.mod_id mr = Db.bel_modul_id b
                                        /\ mods' !! j = Some m).
  { intros b Hb. destruct (Hdom b Hb) as [a Ha].
    pose proof Ha as Ha'. apply Hmap in Ha' as (mr & Hmr & Hid).
    assert (Hlt : (a < length mods')%nat).
    { rewrite Hlen', Hlen. eapply lookup_lt_Some, Hmr. }
    destruct (lookup_lt_is_Some_2 _ _ Hlt) as [m Hm].
    exists a, m. split; [exact Ha|]. split; [exact Hm|]. eauto. }
  split; [reflexivity|]. split; [reflexivity|].
  split.
  - erewrite (list_filter_iff _ (fun b => sem_map !! Db.bel_semester_id b = Some i
                                          /\ Db.bel_art b = "geplant"))
      by (intros b; rewrite Hkey; reflexivity).
    apply Forall2_omap_omap. intros b Hb. apply list_elem_of_filter in Hb as [_ Hb].
    destruct (Hobj b Hb) as (a & m & Ha & Hm & Hex). eauto.
  - erewrite (list_filter_iff _ (fun b => sem_map !! Db.bel_semester_id b = Some i
                                          /\ Db.bel_art b <> "geplant"))
      by (intros b; rewrite Hkey; reflexivity).
    apply Forall2_omap_omap. intros b Hb. apply list_elem_of_filter in Hb as [_ Hb].
    destruct (Hobj b Hb) as (a & m & Ha & Hm & Hex). eauto.
Qed.

Lemma load_domain_semester_modules_witness :
  exists sg,
    Repo.load_domain Example.db_alg1 = Ok sg
    /\ Forall2 (semester_loaded Example.db_alg1 sg) (Studiengang.semester sg)
         (Repo.order_by Repo.by_nr (owned_semester Example.db_alg1)).
Proof.
  eexists. split; [vm_compute; reflexivity|].
  apply (load_domain_semester_modules Example.db_alg1).
  - unfold unique_modul_id. compute_done.
  - compute_done.
  - vm_compute. reflexivity.
Defined.

(** ** Reading a Module and writing it back *)

Lemma by_name_inv (s : string) (pf : Pruefungsform) :
  Pruefungsform_.by_name s = Ok pf -> Pruefungsform_.name pf = s.
Proof.
  unfold Pruefungsform_.by_name.
  repeat match goal with
         | |- context [String.eqb s ?n] =>
             destruct (String.eqb_spec s n) as [->|_]; [intros [= <-]; reflexivity|]
         end.
  discriminate.
Qed.

(** Updating a Module with the values that [get_modul] returned for it, as
    the edit form does when nothing was changed, leaves the stored state as
    it is: the exam form that the stored name looks up has that name. *)
Theorem get_modul_update_modul (db : Db.Database) (k : string) (m : Db.modul_row)
    (pf : Pruefungsform) :
  unique_modul_id db ->
  Repo.select_modul k db = Some m ->
  Pruefungsform_.by_name (Db.mod_pruefungsform m) = Ok pf ->
  Repo.get_modul k db = Ok (Db.mod_name m, k, Db.mod_ects m, Pruefungsform_.name pf)
  /\ Repo.update_modul k (Some (Db.mod_name m)) (Some k) (Some (Db.mod_ects m)) (Some pf) db
     = Ok db.
Proof.
  intros Hnd Hm Hpf. destruct (head_filter_Some _ _ _ Hm) as [Hin Hk]. simpl in Hk.
  apply by_name_inv in Hpf. split.
  - unfold Repo.get_modul. rewrite Hm, Hk, Hpf. reflexivity.
  - unfold Repo.update_modul, Repo._get_modul_id. rewrite Hm. simpl.
    unfold Repo.with_modul. rewrite map_id_on, database_eta; [reflexivity|].
    intros r Hr. case_bool_decide as E; [|reflexivity].
    rewrite (NoDup_fmap_inj Db.mod_id _ r m Hnd Hr Hin E), Hpf, <- Hk.
    destruct m; reflexivity.
Qed.

Lemma get_modul_update_modul_witness :
  Repo.get_modul "NET1" Example.db_alg1 = Ok ("Networks", "NET1", 5, "PROJEKT")
  /\ Repo.update_modul "NET1" (Some "Networks") (Some "NET1") (Some 5) (Some PROJEKT)
       Example.db_alg1
     = Ok Example.db_alg1.
Proof.
  destruct (get_modul_update_modul Example.db_alg1 "NET1"
              (Db.mk_modul 2 "Networks" "NET1" 5 "PROJEKT" 1) PROJEKT)
    as (H1 & H2).
  - unfold unique_modul_id. compute_done.
  - reflexivity.
  - reflexivity.
  - split; [exact H1 | exact H2].
Defined.

(** ** The chart "Zeitplan pro Semester" *)

Lemma sum_int_nonneg (xs : list Z) : (forall x, x ∈ xs -> 0 <= x) -> 0 <= sum_int xs.
Proof.
  rewrite sum_int_total. induction xs as [|x xs IH]; intros Hall; simpl; [lia|].
  pose proof (Hall x ltac:(left)). 
  assert (0 <= total_Z xs) by (apply IH; intros y Hy; apply Hall; right; exact Hy). lia.
Qed.

(** The chart data has two bars for every Semester of the Program, and the
    two bars of a Semester always add up to the target of 25 credits: earned
    credits above the target are cut off.  When no Module has negative
    credits, every bar lies between 0 and 25. *)
Theorem daten_bars (sg : Studiengang.t) :
  Forall2 (fun s d => d.1 = (Semester.nummer s, "bestanden")
                      /\ d.2 = Z.min 25 (Semester.erreichte_ects s))
          (Studiengang.semester sg)
          (filter (fun d => d.1.2 = "bestanden") (App.daten sg))
  /\ Forall2 (fun s d => d.1 = (Semester.nummer s, "offen")
                         /\ d.2 = 25 - Z.min 25 (Semester.erreichte_ects s))
             (Studiengang.semester sg)
             (filter (fun d => d.1.2 = "offen") (App.daten sg))
  /\ length (App.daten sg) = (2 * length (Studiengang.semester sg))%nat
  /\ ((forall s m, s ∈ Studiengang.semester sg -> m ∈ Semester.bestandene_module s ->
                   0 <= Modul.ects m) ->
      Forall (fun d => 0 <= d.2 <= 25) (App.daten sg)).
Proof.
  unfold App.daten, App.ZIEL_PRO_SEMESTER.
  induction (Studiengang.semester sg) as [|s l IH].
  - simpl. repeat split; constructor.
  - destruct IH as (IH1 & IH2 & IH3 & IH4).
    change (s :: l) with ([s] ++ l). rewrite bind_app. simpl.
    rewrite !filter_cons. simpl.
    split; [|split; [|split]].
    + constructor; [split; reflexivity | exact IH1].
    + constructor; [split; [reflexivity | simpl; lia] | exact IH2].
    + rewrite IH3. lia.
    + intros Hall.
      assert (He : 0 <= Semester.erreichte_ects s).
      { unfold Semester.erreichte_ects. apply sum_int_nonneg. intros x Hx.
        apply list_elem_of_fmap in Hx as (m & -> & Hm).
        apply list_elem_of_filter in Hm as [_ Hm]. apply (Hall s m); [left | exact Hm]. }
      repeat constructor; simpl; try lia.
      apply IH4. intros s' m Hs'. apply Hall. right. exact Hs'.
Qed.
